(** * Flight booking simulator with dynamic pricing: seat ledger and booking workflow

    A shallow embedding of [milestone3.py] (whose pricing function and market
    simulator are shared word for word with [backend2.py]):

    - the tables [Flights], [Bookings], [Passengers] and [FareHistory] are
      finite maps keyed by their primary key (and a log for the history);
    - a request handler is a computation over the database and the ambient
      world of the process (its wall clock, the clock of the database
      server, the state of the [random] module, and whether and where the
      database driver raises);
    - a Python [datetime] is aware or naive, and subtracting one kind from
      the other raises [TypeError];
    - Python floats are binary64 values, with Python's own [max], [min],
      [round] and integer true division written out;
    - a transaction ([with engine.begin()], or a session up to its commit)
      takes effect as a whole or not at all, and the transactions that
      lock the same flight row with [SELECT ... FOR UPDATE] run one after
      the other. *)

From Stdlib Require Import ZArith String Ascii List Lia Uint63.
From Stdlib Require Import Floats.PrimFloat Floats.FloatOps Floats.SpecFloat Floats.FloatAxioms Floats.FloatLemmas.
From stdpp Require Import base option list gmap strings pretty sorting.

Set Warnings "-inexact-float".
Local Open Scope Z_scope.

(** ** Python primitives *)

Module Py.

(** Quotient of [n] by [d > 0], rounded to the nearest integer, ties to even. *)
Definition round_half_even (n d : Z) : Z :=
  let q := n / d in
  match 2 * (n mod d) ?= d with
  | Lt => q
  | Gt => q + 1
  | Eq => if Z.even q then q else q + 1
  end.

(** [floor (log2 (a / q))] for positive [a] and [q]. *)
Definition floor_log2_ratio (a q : Z) : Z :=
  let l := Z.log2 a - Z.log2 q in
  if a * 2 ^ Z.max 0 (- l) <? q * 2 ^ Z.max 0 l then l - 1 else l.

(** The binary64 value nearest to the rational [p / q] ([q > 0]), ties to
    even: what [p / q] on two Python ints and what [float("p/q as decimal")]
    return.  Beyond the largest float the model gives infinity (Python
    raises OverflowError there). *)
Definition nearest_float (p q : Z) : float :=
  if p =? 0 then 0%float
  else
    let a := Z.abs p in
    let e := Z.max (floor_log2_ratio a q - 52) (-1074) in
    let m := round_half_even (a * 2 ^ Z.max 0 (- e)) (q * 2 ^ Z.max 0 e) in
    let f := Z.ldexp (of_uint63 (Uint63.of_Z m)) e in
    if p <? 0 then (- f)%float else f.

(** [a / b] on ints. *)
Definition int_truediv (a b : Z) : float := nearest_float a b.

(** [max(a, b)]: the first argument unless the second is greater. *)
Definition max (a b : float) : float := if (a <? b)%float then b else a.

(** [min(a, b)]: the first argument unless the second is smaller. *)
Definition min (a b : float) : float := if (b <? a)%float then b else a.

(** [round(x, ndigits)] on a float, [ndigits >= 0]: the exact value of
    [x] is rounded half-even to [ndigits] decimals and the decimal is read
    back as the nearest float; zeros, infinities and NaN are returned
    unchanged. *)
Definition round (x : float) (ndigits : Z) : float :=
  match Prim2SF x with
  | S754_finite s m e =>
      let scaled := Z.pos m * 10 ^ ndigits in
      let n := if 0 <=? e then scaled * 2 ^ e
               else round_half_even scaled (2 ^ (- e)) in
      if n =? 0 then (if s then neg_zero else zero)
      else nearest_float (if s then - n else n) (10 ^ ndigits)
  | _ => x
  end.

(** [chr(n)] for a code point below 256. *)
Definition chr (n : Z) : string := String (ascii_of_N (Z.to_N n)) EmptyString.

(** [str(n)] on an int. *)
Definition str (n : Z) : string := pretty n.

(** [string.ascii_uppercase + string.digits] *)
Definition ascii_uppercase_digits : list ascii :=
  list_ascii_of_string "ABCDEFGHIJKLMNOPQRSTUVWXYZ0123456789".

End Py.

(** ** Time

    A [datetime] is an instant, in microseconds since the epoch; the
    difference of two instants is a [timedelta], in microseconds. *)

Definition datetime := Z.

Definition timedelta_days (d : Z) : Z := d * 86400 * 1000000.

(** [timedelta.total_seconds()]: the microsecond count divided by [10**6]. *)
Definition total_seconds (td : Z) : float := Py.int_truediv td 1000000.

(** A Python [datetime] object is aware, and then denotes an instant, or
    naive: the reading of some wall clock, with no zone attached.
    [datetime.now(timezone.utc)] is aware.  What a query returns for a
    DATETIME column is what the driver of [DATABASE_URL] decodes; PyMySQL,
    the driver of the default URL, decodes a naive object. *)
Inductive py_datetime :=
| aware (instant : datetime)
| naive (reading : Z).

(** The digits of a datetime object, as SQL compares and sorts them. *)
Definition reading_of (d : py_datetime) : Z :=
  match d with
  | aware t => t
  | naive t => t
  end.

(** ** The ambient world of one call

    [clock] is what [datetime.now(timezone.utc)] reads in the process and
    [server_clock] what [NOW()] reads on the database server; [entropy] is
    the successive raw outputs of the [random] module's generator and
    [cursor] the index of its next output.  [fault_at = Some k] says that
    the database driver raises at the [k]-th statement from here (counting
    from 0), [None] that it does not raise again; after a fault the next
    one is as many statements away as the head of [later_faults] says. *)

Record World := mkWorld {
  clock : datetime;
  server_clock : datetime;
  entropy : nat -> Z;
  cursor : nat;
  fault_at : option nat;
  later_faults : list nat
}.

Definition advance (w : World) : World :=
  mkWorld (clock w) (server_clock w) (entropy w) (S (cursor w)) (fault_at w)
    (later_faults w).

Definition with_fault (w : World) (f : option nat) : World :=
  mkWorld (clock w) (server_clock w) (entropy w) (cursor w) f (later_faults w).

(** The world once the pending fault has been raised. *)
Definition after_fault (w : World) : World :=
  mkWorld (clock w) (server_clock w) (entropy w) (cursor w) (head (later_faults w))
    (tail (later_faults w)).

(** ** Tables *)

Inductive BookingStatus := PENDING | CONFIRMED | CANCELLED.

Inductive PaymentStatus := PAYMENT_PENDING | PAID | FAILED.

Global Instance BookingStatus_eq_dec : EqDecision BookingStatus.
Proof. solve_decision. Defined.

Global Instance PaymentStatus_eq_dec : EqDecision PaymentStatus.
Proof. solve_decision. Defined.

Definition status_name (s : BookingStatus) : string :=
  match s with
  | PENDING => "PENDING"
  | CONFIRMED => "CONFIRMED"
  | CANCELLED => "CANCELLED"
  end.

Record Flight := mkFlight {
  base_fare : float;
  seats_available : Z;
  total_seats : Z;
  departure_date_time : py_datetime
}.

(** [booking_date] is the reading of the server's clock that [NOW()] stored. *)
Record Booking := mkBooking {
  flight_id : Z;
  passenger_id : Z;
  seat_no : string;
  status : BookingStatus;
  pnr : option string;
  price : option float;
  payment_status : PaymentStatus;
  booking_date : datetime
}.

Record Passenger := mkPassenger {
  first_name : string;
  last_name : string;
  email : string
}.

Record FareHistoryRow := mkFareHistoryRow {
  fh_flight_id : Z;
  fh_base_fare : float;
  fh_dynamic_price : float;
  fh_seats_available : Z;
  fh_total_seats : Z;
  fh_reason : string
}.

Record DB := mkDB {
  Flights : gmap Z Flight;
  Bookings : gmap Z Booking;
  Passengers : gmap Z Passenger;
  FareHistory : list FareHistoryRow
}.

(** ** Exceptions and the handler monad *)

Inductive Exception :=
| HTTPException (status_code : Z) (detail : string)
| DBAPIError
| TypeError (message : string).

(** [str(e)] as it is spliced into the detail of a 500 response. *)
Definition str_exception (e : Exception) : string :=
  match e with
  | HTTPException _ detail => detail
  | DBAPIError => "DBAPIError"
  | TypeError message => message
  end.

Inductive Outcome (A : Type) :=
| Return (a : A)
| Raised (e : Exception).

Arguments Return {A} a.
Arguments Raised {A} e.

Definition M (A : Type) : Type := DB * World -> Outcome A * (DB * World).

Definition ret {A} (a : A) : M A := fun s => (Return a, s).

Definition raise {A} (e : Exception) : M A := fun s => (Raised e, s).

Definition bind {A B} (c : M A) (k : A -> M B) : M B :=
  fun s =>
    match c s with
    | (Return a, s') => k a s'
    | (Raised e, s') => (Raised e, s')
    end.

Notation "'do' x <- c ; k" := (bind c (fun x => k))
  (at level 10, x name, c at level 100, k at level 200).
Notation "'run' c ; k" := (bind c (fun _ => k))
  (at level 10, c at level 100, k at level 200).

(** [try: body  except Exception as e: handler] *)
Definition try_except {A} (body : M A) (handler : Exception -> M A) : M A :=
  fun s =>
    match body s with
    | (Return a, s') => (Return a, s')
    | (Raised e, s') => handler e s'
    end.

(** One statement sent to the database: it raises when the driver faults,
    and otherwise reads or updates the tables. *)
Definition execute {A} (stmt : DB -> A * DB) : M A :=
  fun '(db, w) =>
    match fault_at w with
    | Some O => (Raised DBAPIError, (db, after_fault w))
    | Some (S k) => let (a, db') := stmt db in (Return a, (db', with_fault w (Some k)))
    | None => let (a, db') := stmt db in (Return a, (db', w))
    end.

Definition query {A} (q : DB -> A) : M A := execute (fun db => (q db, db)).

(** A unit of work on a connection or session: the body's statements and
    the final commit take effect together; when the body or the commit
    raises, the tables are as they were at the start and the exception
    propagates. *)
Definition transaction {A} (body : M A) : M A :=
  fun '(db, w) =>
    match (do a <- body; run query (fun _ => tt); ret a) (db, w) with
    | (Return a, s') => (Return a, s')
    | (Raised e, (_, w')) => (Raised e, (db, w'))
    end.

Definition datetime_now : M datetime := fun '(db, w) => (Return (clock w), (db, w)).

(** [NOW()], as the server evaluates it in the statement that follows. *)
Definition NOW : M datetime := fun '(db, w) => (Return (server_clock w), (db, w)).

(** ** The [random] module *)

Definition draw (w : World) : Z * World := (entropy w (cursor w), advance w).

(** [random.random()]: 53 random bits scaled into [0, 1). *)
Definition random_random (w : World) : float * World :=
  let (k, w') := draw w in
  ((of_uint63 (Uint63.of_Z (k mod 2 ^ 53)) / 9007199254740992)%float, w').

(** [random.uniform(a, b)] *)
Definition random_uniform (a b : float) (w : World) : float * World :=
  let (u, w') := random_random w in ((a + (b - a) * u)%float, w').

(** [random.choice(seq)] on a non-empty sequence whose first element is
    [x]: the element at an index drawn below the length. *)
Definition random_choice {A} (x : A) (seq : list A) (w : World) : A * World :=
  let (k, w') := draw w in
  (nth (Z.to_nat (k mod Z.of_nat (length (x :: seq)))) (x :: seq) x, w').

(** [random.choices(population, k=k)] on a non-empty population. *)
Fixpoint random_choices {A} (x : A) (population : list A) (k : nat) (w : World)
  : list A * World :=
  match k with
  | O => ([], w)
  | S k' =>
      let (c, w1) := random_choice x population w in
      let (cs, w2) := random_choices x population k' w1 in
      (c :: cs, w2)
  end.

Definition ambient {A} (f : World -> A * World) : M A :=
  fun '(db, w) => let (a, w') := f w in (Return a, (db, w')).

(** [generate_pnr(length=6)] *)
Definition generate_pnr (length : nat) (w : World) : string * World :=
  let (cs, w') := random_choices "A"%char (tail Py.ascii_uppercase_digits) length w in
  (string_of_list_ascii cs, w').

(** ** Dynamic pricing *)

Definition seat_factor_of (seat_ratio : float) : float :=
  if (seat_ratio <? 0.1)%float then 0.8%float
  else if (seat_ratio <? 0.25)%float then 0.5%float
  else if (seat_ratio <? 0.5)%float then 0.2%float
  else (-0.05)%float.

Definition time_factor_of (hours_left : float) : float :=
  if (hours_left <=? 24)%float then 0.6%float
  else if (hours_left <=? 168)%float then 0.25%float
  else (-0.05)%float.

Definition tier_bonus_of (base_fare : float) : float :=
  if (base_fare <? 2000)%float then 0.0%float
  else if (base_fare <? 5000)%float then 0.05%float
  else 0.1%float.

(** [calculate_dynamic_price] on an aware departure time: the clock and,
    when no demand is passed, the random module are read from the world of
    the call. *)
Definition calculate_dynamic_price (base_fare : float) (seats_available total_seats : Z)
    (departure_time : datetime) (simulated_demand : option float) (w : World)
  : float * World :=
  let seat_ratio := Py.int_truediv seats_available (Z.max 1 total_seats) in
  let seat_factor := seat_factor_of seat_ratio in
  let now := clock w in
  let hours_left := Py.max 0 (total_seconds (departure_time - now) / 3600)%float in
  let time_factor := time_factor_of hours_left in
  let (demand_factor, w') :=
    match simulated_demand with
    | None => random_uniform (-0.1) 0.4 w
    | Some d => ((Py.max (-0.5) (Py.min 1.0 d) * 0.4)%float, w)
    end in
  let tier_bonus := tier_bonus_of base_fare in
  let dynamic_price :=
    (base_fare * (1 + seat_factor + time_factor + demand_factor + tier_bonus))%float in
  let dynamic_price := Py.max 50.0 dynamic_price in
  (Py.round dynamic_price 2, w').

(** A call of [calculate_dynamic_price] on a datetime object.  [now] is
    aware, so that [departure_time - now] raises [TypeError] on a naive
    departure time; nothing is drawn or written before that line. *)
Definition call_calculate_dynamic_price (base_fare : float) (seats_available total_seats : Z)
    (departure_time : py_datetime) (simulated_demand : option float) : M float :=
  match departure_time with
  | aware t =>
      ambient (calculate_dynamic_price base_fare seats_available total_seats t
                 simulated_demand)
  | naive _ => raise (TypeError "can't subtract offset-naive and offset-aware datetimes")
  end.

(** ** Rows and keys *)

(** Rows compared by primary key. *)
Definition key_le {V} (x y : Z * V) : Prop := x.1 <= y.1.

Global Instance key_le_dec {V} (x y : Z * V) : Decision (key_le x y).
Proof. unfold key_le. apply _. Defined.

(** The rows of a table in primary-key order, as a scan returns them. *)
Definition rows {V} (t : gmap Z V) : list (Z * V) :=
  merge_sort key_le (map_to_list t).

(** [.first()] / [.fetchone()] of a scan filtered by [p]. *)
Definition first_row {V} (p : Z * V -> bool) (t : gmap Z V) : option (Z * V) :=
  List.find p (rows t).

(** [lastrowid] of an insert into a table with an AUTO_INCREMENT key: a key
    above every key in use. *)
Definition next_key {V} (t : gmap Z V) : Z :=
  1 + foldr Z.max 0 (map fst (map_to_list t)).

Definition set_Flights (db : DB) (t : gmap Z Flight) : DB :=
  mkDB t (Bookings db) (Passengers db) (FareHistory db).

Definition set_Bookings (db : DB) (t : gmap Z Booking) : DB :=
  mkDB (Flights db) t (Passengers db) (FareHistory db).

Definition set_Passengers (db : DB) (t : gmap Z Passenger) : DB :=
  mkDB (Flights db) (Bookings db) t (FareHistory db).

Definition set_FareHistory (db : DB) (l : list FareHistoryRow) : DB :=
  mkDB (Flights db) (Bookings db) (Passengers db) l.

Definition set_seats (n : Z) (f : Flight) : Flight :=
  mkFlight (base_fare f) n (total_seats f) (departure_date_time f).

(** ** Statements *)

(** [SELECT ... FROM Flights WHERE flight_id = :fid] (with or without
    [FOR UPDATE]) *)
Definition select_flight (fid : Z) (db : DB) : option Flight := Flights db !! fid.

(** [SELECT passenger_id FROM Passengers WHERE email = :email] *)
Definition select_passenger_id (em : string) (db : DB) : option Z :=
  fst <$> first_row (fun r => String.eqb (email r.2) em) (Passengers db).

(** [INSERT INTO Passengers (first_name, last_name, email) VALUES ...] *)
Definition insert_passenger (p : Passenger) (db : DB) : Z * DB :=
  let k := next_key (Passengers db) in
  (k, set_Passengers db (<[k := p]> (Passengers db))).

(** [INSERT INTO Bookings (...) VALUES ...] *)
Definition insert_booking (b : Booking) (db : DB) : Z * DB :=
  let k := next_key (Bookings db) in
  (k, set_Bookings db (<[k := b]> (Bookings db))).

(** [UPDATE Flights SET seats_available = seats_available + :d WHERE flight_id = :fid] *)
Definition update_seats_by (d : Z) (fid : Z) (db : DB) : unit * DB :=
  (tt, set_Flights db (alter (fun f => set_seats (seats_available f + d) f) fid (Flights db))).

(** [UPDATE Flights SET seats_available = :s WHERE flight_id = :fid] *)
Definition update_seats_to (s : Z) (fid : Z) (db : DB) : unit * DB :=
  (tt, set_Flights db (alter (set_seats s) fid (Flights db))).

(** [SELECT ... FROM Bookings WHERE booking_id = :bid] *)
Definition select_booking (bid : Z) (db : DB) : option Booking := Bookings db !! bid.

(** [UPDATE Bookings SET ... WHERE booking_id = :bid] *)
Definition update_booking (set : Booking -> Booking) (bid : Z) (db : DB) : unit * DB :=
  (tt, set_Bookings db (alter set bid (Bookings db))).

(** [SET status = 'CONFIRMED', pnr = :pnr, payment_status = 'PAID', booking_date = NOW()] *)
Definition set_confirmed (code : string) (now : datetime) (b : Booking) : Booking :=
  mkBooking (flight_id b) (passenger_id b) (seat_no b) CONFIRMED (Some code) (price b)
    PAID now.

(** [SET status = 'CANCELLED', payment_status = 'FAILED', booking_date = NOW()] *)
Definition set_payment_failed (now : datetime) (b : Booking) : Booking :=
  mkBooking (flight_id b) (passenger_id b) (seat_no b) CANCELLED (pnr b) (price b)
    FAILED now.

(** [SET status = 'CANCELLED'] *)
Definition set_cancelled (b : Booking) : Booking :=
  mkBooking (flight_id b) (passenger_id b) (seat_no b) CANCELLED (pnr b) (price b)
    (payment_status b) (booking_date b).

(** [SELECT flight_id, base_fare, seats_available, total_seats FROM Flights] *)
Definition select_all_flights (db : DB) : list (Z * Flight) := rows (Flights db).

(** [INSERT INTO FareHistory (...) VALUES ...] *)
Definition insert_fare_history (r : FareHistoryRow) (db : DB) : unit * DB :=
  (tt, set_FareHistory db (FareHistory db ++ [r])).

(** ** Requests and responses *)

Record StartBookingRequest := mkStartBookingRequest {
  req_flight_id : Z;
  passenger_first_name : string;
  passenger_last_name : string;
  passenger_email : string;
  requested_seat : option string
}.

Record PaymentRequest := mkPaymentRequest {
  booking_id : Z;
  simulate_success : option bool
}.

Record CancelRequest := mkCancelRequest {
  req_pnr : string
}.

(** [r_booking_date] is the reading of the clock the date was taken from:
    the clock of the process in the response of [start_booking], the stored
    column where the response is built from a row. *)
Record BookingResponse := mkBookingResponse {
  r_booking_id : Z;
  r_flight_id : Z;
  r_passenger_id : Z;
  r_seat_no : string;
  r_status : BookingStatus;
  r_pnr : option string;
  r_price : option float;
  r_payment_status : PaymentStatus;
  r_booking_date : datetime
}.

Definition response_of (bid : Z) (b : Booking) : BookingResponse :=
  mkBookingResponse bid (flight_id b) (passenger_id b) (seat_no b) (status b) (pnr b)
    (price b) (payment_status b) (booking_date b).

(** [booking_out = conn.execute(SELECT ... WHERE booking_id = :bid).mappings().first()]
    followed by the construction of the response from its columns. *)
Definition read_back (bid : Z) : M BookingResponse :=
  do booking_out <- query (select_booking bid);
  match booking_out with
  | Some b => ret (response_of bid b)
  | None => raise (TypeError "'NoneType' object is not subscriptable")
  end.

(** ** The booking workflow *)

Section Engine.

(** [booking_id = :maybe_id] in [cancel_booking] compares the integer key
    with the text of the request; how the database coerces the text is
    left open: [text_is_key code k] says that they compare equal. *)
Variable text_is_key : string -> Z -> bool.

(** [start_booking], first statement: the flight must exist. *)
Definition start_booking_validate (req : StartBookingRequest) : M unit :=
  do flight_row <- query (select_flight (req_flight_id req));
  match flight_row with
  | None => raise (HTTPException 404 "Flight not found")
  | Some _ => ret tt
  end.

(** [start_booking], the transaction that holds the lock on the flight
    row, with its [except] clauses. *)
Definition start_booking_reserve (req : StartBookingRequest)
  : M (Z * Z * string * float) :=
  try_except
    (transaction (
       do locked <- query (select_flight (req_flight_id req));
       match locked with
       | None => raise (HTTPException 404 "Flight not found (locked)")
       | Some locked =>
           let seats_available := seats_available locked in
           let total_seats := total_seats locked in
           let base_fare := base_fare locked in
           if seats_available <=? 0 then
             raise (HTTPException 409 "No seats available")
           else
             let used_count := total_seats - seats_available in
             let seat_row_num := used_count + 1 in
             let seat_letter := Py.chr (65 + (seat_row_num - 1) mod 6) in
             let seat_no := (Py.str seat_row_num ++ seat_letter)%string in
             do passenger <- query (select_passenger_id (passenger_email req));
             do passenger_id <-
               match passenger with
               | Some pid => ret pid
               | None =>
                   execute (insert_passenger
                     (mkPassenger (passenger_first_name req) (passenger_last_name req)
                        (passenger_email req)))
               end;
             do departure_q <-
               query (fun db => departure_date_time <$> select_flight (req_flight_id req) db);
             do now <- datetime_now;
             let departure_dt :=
               match departure_q with
               | Some d => d
               | None => aware (now + timedelta_days 1)
               end in
             do dynamic_price <-
               call_calculate_dynamic_price base_fare seats_available total_seats
                 departure_dt None;
             do booking_date <- NOW;
             do booking_id <-
               execute (insert_booking
                 (mkBooking (req_flight_id req) passenger_id seat_no PENDING None
                    (Some dynamic_price) PAYMENT_PENDING booking_date));
             run execute (update_seats_by (-1) (req_flight_id req));
             ret (booking_id, passenger_id, seat_no, dynamic_price)
       end))
    (fun e =>
       match e with
       | HTTPException _ _ => raise e
       | _ => raise (HTTPException 500 ("Could not start booking: " ++ str_exception e))
       end).

Definition start_booking_respond (req : StartBookingRequest)
    (held : Z * Z * string * float) : M BookingResponse :=
  let '(booking_id, passenger_id, seat_no, dynamic_price) := held in
  do now <- datetime_now;
  ret (mkBookingResponse booking_id (req_flight_id req) passenger_id seat_no PENDING
         None (Some dynamic_price) PAYMENT_PENDING now).

(** [POST /bookings/start] *)
Definition start_booking (req : StartBookingRequest) : M BookingResponse :=
  run start_booking_validate req;
  do held <- start_booking_reserve req;
  start_booking_respond req held.

(** [POST /bookings/pay] *)
Definition confirm_payment (req : PaymentRequest) : M BookingResponse :=
  do booking <- query (select_booking (booking_id req));
  match booking with
  | None => raise (HTTPException 404 "Booking not found")
  | Some booking =>
      if negb (bool_decide (status booking = PENDING)) then
        raise (HTTPException 400
                 ("Booking not in PENDING state (current: "
                  ++ status_name (status booking) ++ ")"))
      else
        do success <-
          match simulate_success req with
          | None => ambient (random_choice true [false; true])
          | Some b => ret b
          end;
        try_except
          (transaction (
             run query (select_flight (flight_id booking));
             if success then
               do pnr <- ambient (generate_pnr 6);
               do now <- NOW;
               run execute (update_booking (set_confirmed pnr now) (booking_id req));
               read_back (booking_id req)
             else
               do now <- NOW;
               run execute (update_booking (set_payment_failed now) (booking_id req));
               run execute (update_seats_by 1 (flight_id booking));
               read_back (booking_id req)))
          (fun e => raise (HTTPException 500 ("Payment update error: " ++ str_exception e)))
  end.

(** [SELECT ... FROM Bookings WHERE pnr = :pnr OR booking_id = :maybe_id],
    [.first()] *)
Definition select_booking_by_pnr_or_id (code : string) (db : DB) : option (Z * Booking) :=
  first_row (fun r => bool_decide (pnr r.2 = Some code) || text_is_key code r.1)
    (Bookings db).

(** [POST /bookings/cancel] *)
Definition cancel_booking (req : CancelRequest) : M BookingResponse :=
  do booking <- query (select_booking_by_pnr_or_id (req_pnr req));
  match booking with
  | None => raise (HTTPException 404 "Booking not found")
  | Some (bid, booking) =>
      if bool_decide (status booking = CANCELLED) then
        raise (HTTPException 400 "Booking already cancelled")
      else
        try_except
          (transaction (
             run query (select_flight (flight_id booking));
             run execute (update_booking set_cancelled bid);
             run execute (update_seats_by 1 (flight_id booking));
             read_back bid))
          (fun e => raise (HTTPException 500 ("Cancel error: " ++ str_exception e)))
  end.

(** ** The market simulator *)

(** The body of [for f in flights] in [simulate_market]. *)
Definition simulate_flight (f : Z * Flight) : M unit :=
  do change <- ambient (random_choice (-3) [-2; -1; 0; 1; 2]);
  let new_seats := Z.max 0 (Z.min (total_seats f.2) (seats_available f.2 + change)) in
  run execute (update_seats_to new_seats f.1);
  do demand_level <- ambient (random_uniform (-0.5) 1.0);
  do now <- datetime_now;
  do dynamic_price <-
    ambient (calculate_dynamic_price (base_fare f.2) new_seats (total_seats f.2)
               (now + timedelta_days 1) (Some demand_level));
  execute (insert_fare_history
             (mkFareHistoryRow f.1 (base_fare f.2) dynamic_price new_seats
                (total_seats f.2) "simulator")).

Fixpoint for_each {A} (l : list A) (body : A -> M unit) : M unit :=
  match l with
  | [] => ret tt
  | x :: l' => run body x; for_each l' body
  end.

(** One iteration of [while True] in [simulate_market]: the session's
    statements and its commit are one unit of work; [except Exception]
    prints the error and rolls the session back. *)
Definition simulate_tick : M unit :=
  try_except
    (transaction (
       do flights <- query select_all_flights;
       for_each flights simulate_flight))
    (fun e => ret tt).

(** [simulate_market], one iteration per world of [ticks]: the worlds are
    the successive wake-ups of the coroutine, 60 seconds apart. *)
Fixpoint simulate_market (ticks : list World) (db : DB) : DB :=
  match ticks with
  | [] => db
  | w :: ticks' => simulate_market ticks' (simulate_tick (db, w)).2.1
  end.

(** ** Calls and traces *)

Inductive Call :=
| Hold (req : StartBookingRequest)
| Pay (req : PaymentRequest)
| Cancel (req : CancelRequest)
| Tick.

Definition is_booking_call (c : Call) : bool :=
  match c with
  | Tick => false
  | _ => true
  end.

(** The tables after a call made in world [w]. *)
Definition after (c : Call) (w : World) (db : DB) : DB :=
  match c with
  | Hold req => (start_booking req (db, w)).2.1
  | Pay req => (confirm_payment req (db, w)).2.1
  | Cancel req => (cancel_booking req (db, w)).2.1
  | Tick => (simulate_tick (db, w)).2.1
  end.

(** The tables after a sequence of calls, each made in its own world. *)
Fixpoint after_all (cs : list (Call * World)) (db : DB) : DB :=
  match cs with
  | [] => db
  | (c, w) :: cs' => after_all cs' (after c w db)
  end.

End Engine.

(** * Vocabulary of the properties *)

(** The same world with no fault pending. *)
Definition calm (w : World) : World := with_fault w None.

(** A computation that only reads the clock and the random module. *)
Definition fault_blind {A} (f : World -> A * World) : Prop :=
  forall w x, f (with_fault w x) = ((f w).1, with_fault (f w).2 x).

(** Faults only ever abort: a computation is [faithful] when a run that
    returns in a world with a pending fault returns the same value and
    tables as the run in the calm world. *)
Definition faithful {A} (c : M A) : Prop :=
  forall db w a db' w',
    c (db, w) = (Return a, (db', w')) ->
    c (db, calm w) = (Return a, (db', calm w')).

(** A booking holds a seat while it is PENDING or CONFIRMED. *)
Definition holds_seat (b : Booking) : bool :=
  match status b with
  | CANCELLED => false
  | _ => true
  end.

Definition holds_seat_on (fid : Z) (r : Z * Booking) : Prop :=
  flight_id r.2 = fid /\ holds_seat r.2 = true.

Global Instance holds_seat_on_dec fid r : Decision (holds_seat_on fid r).
Proof. unfold holds_seat_on. apply _. Defined.

(** The number of bookings of flight [fid] that are PENDING or CONFIRMED. *)
Definition held_seats (fid : Z) (t : gmap Z Booking) : Z :=
  Z.of_nat (size (filter (holds_seat_on fid) t)).

(** [1] when the row holds a seat on [fid], [0] otherwise. *)
Definition seat_of (fid : Z) (k : Z) (b : Booking) : Z :=
  if decide (holds_seat_on fid (k, b)) then 1 else 0.

(** The seat label [start_booking] assigns on a flight row. *)
Definition seat_label (f : Flight) : string :=
  let seat_row_num := total_seats f - seats_available f + 1 in
  (Py.str seat_row_num ++ Py.chr (65 + (seat_row_num - 1) mod 6))%string.

(** The passenger that [start_booking] resolves for a request, and the
    [Passengers] table after it: the first row with the request's email, or
    a new row. *)
Definition resolve_passenger (req : StartBookingRequest) (db : DB) : Z * gmap Z Passenger :=
  match select_passenger_id (passenger_email req) db with
  | Some pid => (pid, Passengers db)
  | None =>
      (next_key (Passengers db),
       <[next_key (Passengers db) :=
           mkPassenger (passenger_first_name req) (passenger_last_name req)
             (passenger_email req)]> (Passengers db))
  end.

(** The price [start_booking] quotes on flight row [f]; a row whose
    departure is naive has none. *)
Definition held_price (f : Flight) (w : World) : float :=
  (calculate_dynamic_price (base_fare f) (seats_available f) (total_seats f)
     (reading_of (departure_date_time f)) None w).1.

(** The row a successful hold on flight row [f] inserts, in world [w]. *)
Definition held_booking (req : StartBookingRequest) (f : Flight) (db : DB) (w : World)
  : Booking :=
  mkBooking (req_flight_id req) (resolve_passenger req db).1 (seat_label f) PENDING None
    (Some (held_price f w)) PAYMENT_PENDING (server_clock w).

(** The tables after a successful hold. *)
Definition held_tables (req : StartBookingRequest) (f : Flight) (db : DB) (w : World) : DB :=
  mkDB (alter (fun f => set_seats (seats_available f + -1) f) (req_flight_id req) (Flights db))
       (<[next_key (Bookings db) := held_booking req f db w]> (Bookings db))
       (resolve_passenger req db).2
       (FareHistory db).

(** The response to a successful hold: the row it inserted, dated by the
    clock of the process. *)
Definition held_response (req : StartBookingRequest) (f : Flight) (db : DB) (w : World)
  : BookingResponse :=
  mkBookingResponse (next_key (Bookings db)) (req_flight_id req)
    (resolve_passenger req db).1 (seat_label f) PENDING None (Some (held_price f w))
    PAYMENT_PENDING (clock w).

(** The simulated payment result of a request and the world after it is
    drawn. *)
Definition payment_outcome (req : PaymentRequest) (w : World) : bool * World :=
  match simulate_success req with
  | None => random_choice true [false; true] w
  | Some b => (b, w)
  end.

(** The confirmation code a successful payment issues in world [w]. *)
Definition issued_pnr (req : PaymentRequest) (w : World) : string :=
  (generate_pnr 6 (payment_outcome req w).2).1.

(** The tables after a successful and after a failed payment. *)
Definition paid_tables (req : PaymentRequest) (db : DB) (w : World) : DB :=
  set_Bookings db
    (alter (set_confirmed (issued_pnr req w) (server_clock w)) (booking_id req)
       (Bookings db)).

Definition released_flights (fid : Z) (db : DB) : gmap Z Flight :=
  alter (fun f => set_seats (seats_available f + 1) f) fid (Flights db).

Definition failed_tables (req : PaymentRequest) (b : Booking) (db : DB) (w : World) : DB :=
  mkDB (released_flights (flight_id b) db)
       (alter (set_payment_failed (server_clock w)) (booking_id req) (Bookings db))
       (Passengers db) (FareHistory db).

(** The tables after a successful cancellation of row [bid], [b]. *)
Definition cancelled_tables (bid : Z) (b : Booking) (db : DB) : DB :=
  mkDB (released_flights (flight_id b) db)
       (alter set_cancelled bid (Bookings db))
       (Passengers db) (FareHistory db).

(** An uppercase letter or a digit. *)
Definition is_upper_alnum (c : ascii) : bool :=
  let n := N_of_ascii c in
  ((65 <=? n) && (n <=? 90) || (48 <=? n) && (n <=? 57))%N.

(** A confirmation code: six characters, each an uppercase letter or a digit. *)
Definition well_formed_pnr (code : string) : Prop :=
  String.length code = 6%nat /\
  Forall (fun c => is_upper_alnum c = true) (list_ascii_of_string code).

(** The seat ledger agrees with the bookings: every flight has as many
    seats available as its capacity less its PENDING and CONFIRMED
    bookings. *)
Definition ledger_balanced (db : DB) : Prop :=
  forall fid f, Flights db !! fid = Some f ->
    seats_available f = total_seats f - held_seats fid (Bookings db).

(** What the workflow keeps true of a booking's confirmation code. *)
Definition code_consistent (b : Booking) : Prop :=
  (status b = CONFIRMED -> is_Some (pnr b)) /\
  (status b = PENDING -> pnr b = None) /\
  (is_Some (pnr b) <-> payment_status b = PAID).

Definition codes_consistent (db : DB) : Prop :=
  forall bid b, Bookings db !! bid = Some b -> code_consistent b.

(** A computation that leaves the [Bookings] table alone. *)
Definition bookings_kept {A} (c : M A) : Prop :=
  forall db w, Bookings (c (db, w)).2.1 = Bookings db.

(** ** The pricing rule in the words of its description *)

(** Seats left as a fraction of capacity. *)
Definition seat_ratio (seats total : Z) : float := Py.int_truediv seats total.






(** ** Example data *)

(** A database that reads the text of a cancel request as a decimal key. *)
Definition decimal_key (code : string) (k : Z) : bool := String.eqb code (Py.str k).

(** A flight with two seats, both available, as PyMySQL returns its row:
    the departure is naive. *)
Definition example_flight : Flight := mkFlight 3000 2 2 (naive (timedelta_days 10)).

Definition example_db : DB := mkDB {[ 1 := example_flight ]} ∅ ∅ [].

(** The same flight and database behind a driver that decodes aware
    datetimes. *)
Definition aware_flight : Flight := mkFlight 3000 2 2 (aware (timedelta_days 10)).

Definition aware_db : DB := mkDB {[ 1 := aware_flight ]} ∅ ∅ [].

Definition example_world : World := mkWorld 0 0 (fun n => Z.of_nat n * 7 + 30) 0 None [].

(** The same world with the server's clock five and a half hours ahead of
    the clock of the process. *)
Definition skewed_world : World :=
  mkWorld 0 19800000000 (fun n => Z.of_nat n * 7 + 30) 0 None [].

Definition example_request : StartBookingRequest :=
  mkStartBookingRequest 1 "Ada" "Lovelace" "ada@example.org" None.

(** A world in which every draw of the random module is [k]. *)
Definition constant_world (k : Z) (fault : option nat) : World :=
  mkWorld 0 0 (fun _ => k) 0 fault [].

(** The example flight with one of its seats held by a PENDING booking. *)
Definition example_held_booking : Booking :=
  mkBooking 1 1 "1A" PENDING None (Some 2550%float) PAYMENT_PENDING 0.

Definition example_held_db : DB :=
  mkDB {[ 1 := set_seats 1 example_flight ]}
       {[ 1 := example_held_booking ]}
       {[ 1 := mkPassenger "Ada" "Lovelace" "ada@example.org" ]}
       [].

Definition example_payment : PaymentRequest := mkPaymentRequest 1 (Some true).

(** The held booking is paid (confirmation code 4BIPW3), the simulator
    ticks and draws a change of +1, and the booking is cancelled by its
    confirmation code. *)
Definition release_after_tick : list (Call * World) :=
  [ (Pay (mkPaymentRequest 1 (Some true)), example_world);
    (Tick, constant_world 4 None);
    (Cancel (mkCancelRequest "4BIPW3"), example_world) ].

(** The held booking is paid, then cancelled by its confirmation code. *)
Definition cancel_after_payment : list (Call * World) :=
  [ (Pay (mkPaymentRequest 1 (Some true)), example_world);
    (Cancel (mkCancelRequest "4BIPW3"), example_world) ].

(** Three flights with five of ten seats left. *)
Definition three_flights : DB :=
  mkDB {[ 1 := mkFlight 3000 5 10 (naive (timedelta_days 10));
          2 := mkFlight 4000 5 10 (naive (timedelta_days 10));
          3 := mkFlight 6000 5 10 (naive (timedelta_days 10)) ]} ∅ ∅ [].

(** A hold, a failed payment, a second hold, its payment and its
    cancellation. *)
Definition example_calls : list (Call * World) :=
  [ (Hold example_request, example_world);
    (Pay (mkPaymentRequest 1 (Some false)), example_world);
    (Hold example_request, example_world);
    (Pay (mkPaymentRequest 2 None), example_world);
    (Cancel (mkCancelRequest "2"), example_world) ].

(** One hour before the departure of the example flight. *)
Definition late_world : World :=
  mkWorld (timedelta_days 10 - 3600000000) (timedelta_days 10 - 3600000000) (fun _ => 0) 0
    None [].

(** The scenario of two holds on the example flight: the first payment
    fails, the second succeeds. *)
Definition two_holds : list (Call * World) :=
  [ (Hold example_request, example_world);
    (Hold example_request, example_world);
    (Pay (mkPaymentRequest 1 (Some false)), example_world);
    (Pay (mkPaymentRequest 2 (Some true)), example_world) ].

(** No flight has a negative seat count. *)
Definition seats_nonnegative (db : DB) : Prop :=
  forall fid f, Flights db !! fid = Some f -> 0 <= seats_available f.

(** A computation that keeps every seat count non-negative. *)
Definition nonnegative_kept {A} (c : M A) : Prop :=
  forall db w, seats_nonnegative db -> seats_nonnegative (c (db, w)).2.1.

(** * Lookups and listings of bookings

    Text columns compare as exact strings, as in [select_passenger_id]. *)

(** [SELECT ... FROM Bookings WHERE pnr = :pnr], [.first()] *)
Definition select_booking_by_pnr (code : string) (db : DB) : option (Z * Booking) :=
  first_row (fun r => bool_decide (pnr r.2 = Some code)) (Bookings db).

(** [GET /bookings/{pnr}] *)
Definition get_booking_by_pnr (code : string) : M BookingResponse :=
  do booking <- query (select_booking_by_pnr code);
  match booking with
  | None => raise (HTTPException 404 "Booking not found")
  | Some (bid, booking) => ret (response_of bid booking)
  end.

(** [ORDER BY b.booking_date DESC] *)
Definition later_first (x y : Z * Booking) : Prop := booking_date y.2 <= booking_date x.2.

Global Instance later_first_dec (x y : Z * Booking) : Decision (later_first x y).
Proof. unfold later_first. apply _. Defined.

(** [JOIN Passengers p ON b.passenger_id = p.passenger_id WHERE p.email = :email]
    on one row of [Bookings]. *)
Definition booked_under (em : string) (ps : gmap Z Passenger) (r : Z * Booking) : bool :=
  match ps !! passenger_id r.2 with
  | Some p => String.eqb (email p) em
  | None => false
  end.

(** The query of [booking_history]. *)
Definition select_history (em : string) (db : DB) : list (Z * Booking) :=
  merge_sort later_first (List.filter (booked_under em (Passengers db)) (rows (Bookings db))).

(** [GET /bookings/history/{email}] *)
Definition booking_history (em : string) : M (list BookingResponse) :=
  do rs <- query (select_history em);
  ret (map (fun r => response_of r.1 r.2) rs).

(** ** Further example data *)

(** The example flight with two bookings: booking 1 is CANCELLED after a
    failed payment, booking 2 is CONFIRMED with the code 4BIPW3. *)
Definition example_paid_db : DB :=
  mkDB {[ 1 := set_seats 1 example_flight ]}
       {[ 1 := mkBooking 1 1 "1A" CANCELLED None (Some 2550%float) FAILED 0;
          2 := mkBooking 1 1 "2B" CONFIRMED (Some "4BIPW3"%string) (Some 2550%float) PAID 0 ]}
       {[ 1 := mkPassenger "Ada" "Lovelace" "ada@example.org" ]}
       [].

(** The example flight with both seats held, the first of them paid for
    (code 4BIPW3). *)
Definition example_one_paid_db : DB :=
  mkDB {[ 1 := set_seats 0 example_flight ]}
       {[ 1 := mkBooking 1 1 "1A" CONFIRMED (Some "4BIPW3"%string) (Some 2550%float) PAID 0;
          2 := mkBooking 1 1 "2B" PENDING None (Some 2550%float) PAYMENT_PENDING 0 ]}
       {[ 1 := mkPassenger "Ada" "Lovelace" "ada@example.org" ]}
       [].

(** ** What the calls keep of the rows they find *)

(** The columns of a booking that are written by its insert only. *)
Definition same_reservation (b b' : Booking) : Prop :=
  flight_id b' = flight_id b /\ passenger_id b' = passenger_id b /\
  seat_no b' = seat_no b /\ price b' = price b.

(** The life of a booking from row [b] on: a PENDING booking may still be
    paid or cancelled; a CONFIRMED one is left alone or cancelled; a
    CANCELLED one is left alone. *)
Definition booking_moves (b b' : Booking) : Prop :=
  match status b with
  | PENDING => True
  | CONFIRMED => b' = b \/ b' = set_cancelled b
  | CANCELLED => b' = b
  end.

(** The columns of a flight other than its seat counter. *)
Definition same_schedule (f f' : Flight) : Prop :=
  base_fare f' = base_fare f /\ total_seats f' = total_seats f /\
  departure_date_time f' = departure_date_time f.

(** The same flights, with the same fares, capacities and departures. *)
Definition flights_evolve (db db' : DB) : Prop :=
  forall fid, option_Forall2 same_schedule (Flights db !! fid) (Flights db' !! fid).

(** A row written by the market simulator. *)
Definition simulator_row (r : FareHistoryRow) : Prop :=
  fh_reason r = "simulator"%string /\
  0 <= fh_seats_available r <= Z.max 0 (fh_total_seats r).

(** The fare history has only grown, by rows of the simulator. *)
Definition history_grows (db db' : DB) : Prop :=
  exists l, FareHistory db' = FareHistory db ++ l /\ Forall simulator_row l.

(** A computation whose final tables are related by [R] to its initial
    tables, in every world and whether it returns or raises. *)
Definition keeps (R : relation DB) {A} (c : M A) : Prop :=
  forall db w, R db (c (db, w)).2.1.

(** A computation that, run with a fault pending, either raises an
    exception of [P] or does exactly what it does in the calm world. *)
Definition fails_or_calm (P : Exception -> Prop) {A} (c : M A) : Prop :=
  forall db w,
    (exists e s', c (db, w) = (Raised e, s') /\ P e) \/
    (exists r db' w', c (db, w) = (r, (db', w')) /\ c (db, calm w) = (r, (db', calm w'))).

(** ** Concurrent cancellations

    A [cancel_booking] call runs in two atomic steps: the statement that
    finds the booking, with the check of its status, on the request's
    session; and the transaction that starts with [SELECT ... FOR UPDATE]
    on the flight row, on a connection of its own. *)

(** [cancel_booking] up to the status check. *)
Definition cancel_booking_find (text_is_key : string -> Z -> bool) (req : CancelRequest)
  : M (Z * Booking) :=
  do booking <- query (select_booking_by_pnr_or_id text_is_key (req_pnr req));
  match booking with
  | None => raise (HTTPException 404 "Booking not found")
  | Some (bid, booking) =>
      if bool_decide (status booking = CANCELLED) then
        raise (HTTPException 400 "Booking already cancelled")
      else ret (bid, booking)
  end.

(** [cancel_booking] from [try:] on, for the row that was found. *)
Definition cancel_booking_release (found : Z * Booking) : M BookingResponse :=
  let '(bid, booking) := found in
  try_except
    (transaction (
       run query (select_flight (flight_id booking));
       run execute (update_booking set_cancelled bid);
       run execute (update_seats_by 1 (flight_id booking));
       read_back bid))
    (fun e => raise (HTTPException 500 ("Cancel error: " ++ str_exception e))).

(** Booking 123456 is PENDING; booking 123457 is CONFIRMED under a code
    made of digits only, 123456. *)
Definition numeric_code_db : DB :=
  mkDB {[ 1 := mkFlight 3000 0 2 (naive (timedelta_days 10)) ]}
       {[ 123456 := mkBooking 1 1 "1A" PENDING None (Some 2550%float) PAYMENT_PENDING 0;
          123457 := mkBooking 1 2 "2B" CONFIRMED (Some "123456"%string) (Some 2550%float)
                      PAID 0 ]}
       {[ 1 := mkPassenger "Ada" "Lovelace" "ada@example.org";
          2 := mkPassenger "Alan" "Turing" "alan@example.org" ]}
       [].

(** * Flight listings

    The listing endpoints read, besides the columns of [Flights] that the
    booking workflow uses, the route columns of the flight and the
    [Airports] table.  No statement of the program writes them; they are
    kept beside the tables as a [Catalog], in which [Routes] holds, under
    the key of a flight, the remaining columns of its row of [Flights].
    Of [arrival_date_time] the reading is kept: it is a DATETIME column of
    the same row as [departure_date_time], decoded to the same kind of
    object. *)

Record Airport := mkAirport {
  airport_name : string;
  city : string;
  code : string
}.

Record FlightRoute := mkFlightRoute {
  flight_number : option string;
  origin_airport : Z;
  destination_airport : Z;
  arrival_date_time : datetime
}.

Record Catalog := mkCatalog {
  Airports : gmap Z Airport;
  Routes : gmap Z FlightRoute
}.

(** A row of [Flights f JOIN Airports a1 ON f.origin_airport = a1.airport_id
    JOIN Airports a2 ON f.destination_airport = a2.airport_id]. *)
Record JoinedFlight := mkJoinedFlight {
  j_flight_id : Z;
  j_flight : Flight;
  j_route : FlightRoute;
  j_origin : string;
  j_destination : string
}.

Record FlightPriceResponse := mkFlightPriceResponse {
  p_flight_id : Z;
  p_flight_number : option string;
  p_origin : string;
  p_destination : string;
  p_departure_time : py_datetime;
  p_arrival_time : datetime;
  p_base_fare : float;
  p_dynamic_price : float;
  p_seats_available : Z;
  p_total_seats : Z
}.

(** [for x in l: results.append(body(x))] *)
Fixpoint for_collect {A B} (l : list A) (body : A -> M B) : M (list B) :=
  match l with
  | [] => ret []
  | x :: l' => do y <- body x; do ys <- for_collect l' body; ret (y :: ys)
  end.

Section Listings.

(** The column of [Airports] that is selected as origin and destination:
    [airport_name] in milestone3.py, [code] in backend2.py. *)
Variable label : Airport -> string.

Variable cat : Catalog.

(** The join of one row of [Flights] with its two airports; a flight
    without one of them has no row in the join. *)
Definition join_airports (r : Z * Flight) : option JoinedFlight :=
  match Routes cat !! r.1 with
  | None => None
  | Some route =>
      match Airports cat !! origin_airport route,
            Airports cat !! destination_airport route with
      | Some a1, Some a2 => Some (mkJoinedFlight r.1 r.2 route (label a1) (label a2))
      | _, _ => None
      end
  end.

(** [SELECT ... FROM Flights f JOIN Airports a1 ... JOIN Airports a2 ...] *)
Definition select_joined_flights (db : DB) : list JoinedFlight :=
  omap join_airports (rows (Flights db)).

(** The same with [WHERE f.flight_id = :fid], [.first()] *)
Definition select_joined_flight (fid : Z) (db : DB) : option JoinedFlight :=
  match Flights db !! fid with
  | None => None
  | Some f => join_airports (fid, f)
  end.

(** [calculate_dynamic_price(float(f["base_fare"]), int(f["seats_available"]),
    int(f["total_seats"]), f["departure_time"])] *)
Definition quote (f : JoinedFlight) : M float :=
  call_calculate_dynamic_price (base_fare (j_flight f)) (seats_available (j_flight f))
    (total_seats (j_flight f)) (departure_date_time (j_flight f)) None.

Definition price_response (f : JoinedFlight) (price : float) : FlightPriceResponse :=
  mkFlightPriceResponse (j_flight_id f) (flight_number (j_route f)) (j_origin f)
    (j_destination f) (departure_date_time (j_flight f)) (arrival_date_time (j_route f))
    (base_fare (j_flight f)) price (seats_available (j_flight f)) (total_seats (j_flight f)).

(** The row of [FareHistory] that records a quote. *)
Definition quote_row (f : JoinedFlight) (price : float) (reason : string) : FareHistoryRow :=
  mkFareHistoryRow (j_flight_id f) (base_fare (j_flight f)) price
    (seats_available (j_flight f)) (total_seats (j_flight f)) reason.

(** [try: db.execute(INSERT INTO FareHistory ...); db.commit()]
    [except Exception: db.rollback()] *)
Definition record_quote (f : JoinedFlight) (price : float) (reason : string) : M unit :=
  try_except (transaction (execute (insert_fare_history (quote_row f price reason))))
    (fun _ => ret tt).

(** [GET /dynamic_price/{flight_id}] *)
Definition get_dynamic_price_for_flight (fid : Z) : M FlightPriceResponse :=
  do flight <- query (select_joined_flight fid);
  match flight with
  | None => raise (HTTPException 404 "Flight not found")
  | Some flight =>
      do price <- quote flight;
      run record_quote flight price "dynamic_price_api";
      ret (price_response flight price)
  end.

(** [GET /flights] *)
Definition get_all_flights : M (list FlightPriceResponse) :=
  do flights <- query select_joined_flights;
  for_collect flights (fun f =>
    do price <- quote f;
    run record_quote f price "flights_api";
    ret (price_response f price)).

End Listings.

(** Two airports and the route of the example flight. *)
Definition example_catalog : Catalog :=
  mkCatalog {[ 10 := mkAirport "Indira Gandhi International" "Delhi" "DEL";
               20 := mkAirport "Chhatrapati Shivaji Maharaj International" "Mumbai" "BOM" ]}
            {[ 1 := mkFlightRoute (Some "AI101"%string) 10 20 (timedelta_days 10 + 7200000000) ]}.

(** A joined row whose departure is an aware datetime. *)
Definition departs_aware (f : JoinedFlight) : bool :=
  match departure_date_time (j_flight f) with
  | aware _ => true
  | naive _ => false
  end.

(** The price of a joined row whose departure is aware, and the world
    after it is drawn. *)
Definition quoted (f : JoinedFlight) : World -> float * World :=
  calculate_dynamic_price (base_fare (j_flight f)) (seats_available (j_flight f))
    (total_seats (j_flight f)) (reading_of (departure_date_time (j_flight f))) None.

(** The row of the join for flight 1 of the example catalog, with the
    airports labelled by name. *)
Definition example_joined (f : Flight) : JoinedFlight :=
  mkJoinedFlight 1 f
    (mkFlightRoute (Some "AI101"%string) 10 20 (timedelta_days 10 + 7200000000))
    "Indira Gandhi International" "Chhatrapati Shivaji Maharaj International".

(** The responses of a listing of the joined rows [l], all of aware
    departure, made in world [w], and the world after their prices are
    drawn. *)
Fixpoint quotes (l : list JoinedFlight) (w : World) : list FlightPriceResponse * World :=
  match l with
  | [] => ([], w)
  | f :: l' =>
      let (price, w1) := quoted f w in
      let (rs, w2) := quotes l' w1 in
      (price_response f price :: rs, w2)
  end.

(** Two worlds that agree on their clocks and on the random module: they
    differ in the faults of the driver only. *)
Definition same_draws (w w' : World) : Prop :=
  clock w' = clock w /\ server_clock w' = server_clock w /\
  entropy w' = entropy w /\ cursor w' = cursor w.

(** The message of the [TypeError] that [departure_time - now] raises on a
    naive departure time. *)
Definition naive_minus_aware : string :=
  "can't subtract offset-naive and offset-aware datetimes".

(** The row of [FareHistory] that records a response. *)
Definition recorded (reason : string) (r : FlightPriceResponse) : FareHistoryRow :=
  mkFareHistoryRow (p_flight_id r) (p_base_fare r) (p_dynamic_price r)
    (p_seats_available r) (p_total_seats r) reason.

(** ** Search *)

(** [datetime.date()] and [DATE(f.departure_date_time)]: the day of a
    reading, as a number of days since the epoch. *)
Definition date_of (d : datetime) : Z := d / 86400000000.

(** [list.sort(key=...)] on float keys: the sort is stable and compares
    keys with [<] only; on keys that are not NaN (no price and no duration
    is) its result is the one of a stable insertion. *)
Fixpoint insort {A} (key : A -> float) (x : A) (l : list A) : list A :=
  match l with
  | [] => [x]
  | y :: l' => if (key x <? key y)%float then x :: y :: l' else y :: insort key x l'
  end.

Definition sort_by {A} (key : A -> float) (l : list A) : list A :=
  foldl (fun sorted x => insort key x sorted) [] l.

Section Search.

(** The column of [Airports] that is selected as origin and destination
    ([airport_name] in milestone3.py, [code] in backend2.py), the column
    that is compared with the request ([city], resp. [code]), and how the
    request is put in the case of that column ([str.title], resp.
    [str.upper]). *)
Variable label : Airport -> string.
Variable place : Airport -> string.
Variable canon : string -> string.

(** [datetime.fromisoformat(date).date()]: the day the text denotes, or
    [None] when it raises. *)
Variable parse_date : string -> option Z.

Variable cat : Catalog.

(** One row of [Flights] through the join and the [WHERE] clause of
    [search_flights]. *)
Definition search_match (origin destination : string) (day : Z) (r : Z * Flight)
  : option JoinedFlight :=
  match Routes cat !! r.1 with
  | None => None
  | Some route =>
      match Airports cat !! origin_airport route,
            Airports cat !! destination_airport route with
      | Some a1, Some a2 =>
          if String.eqb (place a1) origin && String.eqb (place a2) destination
             && (date_of (reading_of (departure_date_time r.2)) =? day)
          then Some (mkJoinedFlight r.1 r.2 route (label a1) (label a2))
          else None
      | _, _ => None
      end
  end.

Definition select_search (origin destination : string) (day : Z) (db : DB)
  : list JoinedFlight :=
  omap (search_match origin destination day) (rows (Flights db)).

(** [GET /search] *)
Definition search_flights (origin destination date : string) (sort : option string)
  : M (list FlightPriceResponse) :=
  match parse_date date with
  | None => raise (HTTPException 400 "Date must be YYYY-MM-DD")
  | Some date_obj =>
      do flights <- query (select_search (canon origin) (canon destination) date_obj);
      do results <-
        for_collect flights (fun f =>
          do price <- quote f;
          ret (price_response f price));
      match sort with
      | None => ret results
      | Some sort =>
          if String.eqb sort "price" then ret (sort_by p_dynamic_price results)
          else if String.eqb sort "duration" then
            ret (sort_by (fun x => total_seconds
                                     (p_arrival_time x - reading_of (p_departure_time x)))
                   results)
          else raise (HTTPException 400 "Sort must be 'price' or 'duration'")
      end
  end.

End Search.

(** A reader of dates that knows the day of the example flight only. *)
Definition example_parse_date (s : string) : option Z :=
  if String.eqb s "1970-01-11" then Some 10 else None.

(** ** Concurrent payments

    A [confirm_payment] call runs in two atomic steps as well: the
    statement that reads the booking, with the check of its status and the
    draw of the payment result, on the request's session; and the
    transaction under the lock of the flight row. *)

(** [confirm_payment] up to the simulated payment. *)
Definition confirm_payment_check (req : PaymentRequest) : M (Booking * bool) :=
  do booking <- query (select_booking (booking_id req));
  match booking with
  | None => raise (HTTPException 404 "Booking not found")
  | Some booking =>
      if negb (bool_decide (status booking = PENDING)) then
        raise (HTTPException 400
                 ("Booking not in PENDING state (current: "
                  ++ status_name (status booking) ++ ")"))
      else
        do success <-
          match simulate_success req with
          | None => ambient (random_choice true [false; true])
          | Some b => ret b
          end;
        ret (booking, success)
  end.

(** [confirm_payment] from [try:] on, for the row that was read and the
    payment result that was drawn. *)
Definition confirm_payment_settle (req : PaymentRequest) (checked : Booking * bool)
  : M BookingResponse :=
  let '(booking, success) := checked in
  try_except
    (transaction (
       run query (select_flight (flight_id booking));
       if success then
         do pnr <- ambient (generate_pnr 6);
         do now <- NOW;
         run execute (update_booking (set_confirmed pnr now) (booking_id req));
         read_back (booking_id req)
       else
         do now <- NOW;
         run execute (update_booking (set_payment_failed now) (booking_id req));
         run execute (update_seats_by 1 (flight_id booking));
         read_back (booking_id req)))
    (fun e => raise (HTTPException 500 ("Payment update error: " ++ str_exception e))).

(** * Calls in flight

    A handler takes effect in two atomic steps: what it does on the session
    of the request before it opens its transaction (the statement that
    reads the flight or the booking, and the checks on what was read), and
    the transaction, which begins by locking the flight row with
    [SELECT ... FOR UPDATE] and is serialised by that lock against the
    transactions of the other calls.  Between the two steps of a call the
    steps of other calls may take place.  A tick of the simulator reads the
    flights, then writes them and commits; its writes touch [Flights] and
    [FareHistory] only. *)

Inductive Stage :=
| Arrived
| HoldChecked
| PayChecked (checked : Booking * bool)
| CancelFound (found : Z * Booking)
| TickRead (flights : list (Z * Flight))
| Answered (out : Outcome BookingResponse)
| Ticked.

Record Job := mkJob {
  job_call : Call;
  job_world : World;
  job_stage : Stage
}.

Section Pool.

Variable text_is_key : string -> Z -> bool.

(** Job [j] runs [c] on the tables: it moves on to the stage [next a] when
    [c] returns [a], and has answered with the exception when [c] raises. *)
Definition job_run {A} (j : Job) (db : DB) (c : M A) (next : A -> Stage) : Job * DB :=
  match c (db, job_world j) with
  | (Return a, (db', w')) => (mkJob (job_call j) w' (next a), db')
  | (Raised e, (db', w')) => (mkJob (job_call j) w' (Answered (Raised e)), db')
  end.

(** The next atomic step of a job. *)
Definition job_step (j : Job) (db : DB) : Job * DB :=
  match job_call j, job_stage j with
  | Hold req, Arrived =>
      job_run j db (start_booking_validate req) (fun _ => HoldChecked)
  | Hold req, HoldChecked =>
      job_run j db (do held <- start_booking_reserve req; start_booking_respond req held)
        (fun resp => Answered (Return resp))
  | Pay req, Arrived =>
      job_run j db (confirm_payment_check req) PayChecked
  | Pay req, PayChecked checked =>
      job_run j db (confirm_payment_settle req checked) (fun resp => Answered (Return resp))
  | Cancel req, Arrived =>
      job_run j db (cancel_booking_find text_is_key req) CancelFound
  | Cancel req, CancelFound found =>
      job_run j db (cancel_booking_release found) (fun resp => Answered (Return resp))
  | Tick, Arrived =>
      match query select_all_flights (db, job_world j) with
      | (Return flights, (db', w')) => (mkJob Tick w' (TickRead flights), db')
      | (Raised _, (db', w')) => (mkJob Tick w' Ticked, db')
      end
  | Tick, TickRead flights =>
      match try_except (transaction (for_each flights simulate_flight)) (fun _ => ret tt)
              (db, job_world j) with
      | (_, (db', w')) => (mkJob Tick w' Ticked, db')
      end
  | _, _ => (j, db)
  end.

(** The scheduler lets job number [i] take its next step. *)
Definition pool_step (s : DB * list Job) (i : nat) : DB * list Job :=
  match s.2 !! i with
  | Some j => let (j', db') := job_step j s.1 in (db', <[i := j']> s.2)
  | None => s
  end.

Definition run_pool (schedule : list nat) (s : DB * list Job) : DB * list Job :=
  foldl pool_step s schedule.

End Pool.

(** The calls of a list, all arrived and none started. *)
Definition arrived (calls : list (Call * World)) : list Job :=
  map (fun c => mkJob c.1 c.2 Arrived) calls.

(** What a job has answered, once it has. *)
Definition answer (j : Job) : option (Outcome BookingResponse) :=
  match job_stage j with
  | Answered out => Some out
  | _ => None
  end.

(** The status of the booking in the response of a job that returned one. *)
Definition answered_status (j : Job) : option BookingStatus :=
  match job_stage j with
  | Answered (Return resp) => Some (r_status resp)
  | _ => None
  end.

(** The status code of the error a job answered with. *)
Definition answered_error (j : Job) : option Z :=
  match job_stage j with
  | Answered (Raised (HTTPException code _)) => Some code
  | _ => None
  end.

(** What every interleaving keeps true of a booking's confirmation code. *)
Definition code_follows_status (b : Booking) : Prop :=
  (status b = CONFIRMED -> is_Some (pnr b)) /\
  (status b = PENDING -> pnr b = None).

Definition codes_follow_status (db : DB) : Prop :=
  forall bid b, Bookings db !! bid = Some b -> code_follows_status b.

(** The second tables link codes to statuses if the first do. *)
Definition codes_kept (db db' : DB) : Prop :=
  codes_follow_status db -> codes_follow_status db'.

(** A booking that has left PENDING has not returned to it, and a booking
    that was given a confirmation code still has one. *)
Definition booking_settles (b b' : Booking) : Prop :=
  (status b <> PENDING -> status b' <> PENDING) /\
  (is_Some (pnr b) -> is_Some (pnr b')).

(** Every booking of the first tables is still there in the second, and
    has settled. *)
Definition settles_in (db db' : DB) : Prop :=
  forall bid b, Bookings db !! bid = Some b ->
    exists b', Bookings db' !! bid = Some b' /\ booking_settles b b'.

(** Two cancellations of the held booking, by its key, and two payments of
    it, in flight at the same time. *)
Definition overlapping_cancels : list Job :=
  arrived [ (Cancel (mkCancelRequest "1"), example_world);
            (Cancel (mkCancelRequest "1"), example_world) ].

Definition overlapping_payments (first second : bool) : list Job :=
  arrived [ (Pay (mkPaymentRequest 1 (Some first)), example_world);
            (Pay (mkPaymentRequest 1 (Some second)), example_world) ].

(** Both calls take their first step before either takes its second. *)
Definition overlap : list nat := [0; 1; 0; 1]%nat.

(** Two holds race for the last seat of the example flight. *)
Definition last_seat_db : DB := mkDB {[ 1 := set_seats 1 example_flight ]} ∅ ∅ [].

Definition last_seat_holds : list Job :=
  arrived [ (Hold example_request, example_world);
            (Hold (mkStartBookingRequest 1 "Alan" "Turing" "alan@example.org" None),
             example_world) ].

(** * Properties *)

(** ** Worlds and the monad *)

Lemma fault_blind_draw : fault_blind draw.
Proof. intros [c sc e k f lf] x. reflexivity. Qed.

Lemma fault_blind_random_random : fault_blind random_random.
Proof. intros [c sc e k f lf] x. reflexivity. Qed.

Lemma fault_blind_random_uniform a b : fault_blind (random_uniform a b).
Proof. intros [c sc e k f lf] x. reflexivity. Qed.

Lemma fault_blind_random_choice {A} (x : A) seq : fault_blind (random_choice x seq).
Proof. intros [c sc e k f lf] y. reflexivity. Qed.

Lemma fault_blind_random_choices {A} (x : A) pop k : fault_blind (random_choices x pop k).
Proof.
  induction k as [|k IH]; intros w y; [reflexivity|].
  cbn [random_choices].
  rewrite (fault_blind_random_choice x pop w y).
  destruct (random_choice x pop w) as [c w1]. cbn [fst snd].
  rewrite (IH w1 y).
  destruct (random_choices x pop k w1) as [cs w2]. reflexivity.
Qed.

Lemma fault_blind_generate_pnr n : fault_blind (generate_pnr n).
Proof.
  intros w y. unfold generate_pnr.
  rewrite (fault_blind_random_choices _ _ n w y).
  destruct (random_choices _ _ n w) as [cs w']. reflexivity.
Qed.

Lemma fault_blind_calculate_dynamic_price bf sa ts dep d :
  fault_blind (calculate_dynamic_price bf sa ts dep d).
Proof.
  intros w y. unfold calculate_dynamic_price.
  destruct d as [d|].
  - reflexivity.
  - rewrite (fault_blind_random_uniform _ _ w y).
    destruct (random_uniform _ _ w) as [u w']. reflexivity.
Qed.

Lemma fault_blind_fault_at {A} (f : World -> A * World) w :
  fault_blind f -> fault_at (f w).2 = fault_at w.
Proof.
  intros Hf. pose proof (Hf w (fault_at w)) as H.
  assert (Hw : with_fault w (fault_at w) = w) by (destruct w; reflexivity).
  rewrite Hw in H.
  apply (f_equal (fun r => fault_at r.2)) in H. cbn in H. exact H.
Qed.

Lemma bind_ret {A B} (a : A) (k : A -> M B) s : bind (ret a) k s = k a s.
Proof. reflexivity. Qed.

Lemma bind_raise {A B} e (k : A -> M B) s : bind (raise e) k s = (Raised e, s).
Proof. reflexivity. Qed.

Lemma bind_datetime_now {B} (k : datetime -> M B) db w :
  bind datetime_now k (db, w) = k (clock w) (db, w).
Proof. reflexivity. Qed.

Lemma bind_NOW {B} (k : datetime -> M B) db w :
  bind NOW k (db, w) = k (server_clock w) (db, w).
Proof. reflexivity. Qed.

Lemma bind_ambient {A B} (f : World -> A * World) (k : A -> M B) db w :
  bind (ambient f) k (db, w) = k (f w).1 (db, (f w).2).
Proof. unfold bind, ambient. destruct (f w). reflexivity. Qed.

Lemma execute_ok {A} (stmt : DB -> A * DB) db w :
  fault_at w = None -> execute stmt (db, w) = (Return (stmt db).1, ((stmt db).2, w)).
Proof. intros H. unfold execute. rewrite H. destruct (stmt db). reflexivity. Qed.

Lemma bind_execute_ok {A B} (stmt : DB -> A * DB) (k : A -> M B) db w :
  fault_at w = None -> bind (execute stmt) k (db, w) = k (stmt db).1 ((stmt db).2, w).
Proof. intros H. unfold bind. rewrite execute_ok by exact H. reflexivity. Qed.

Lemma bind_query_ok {A B} (q : DB -> A) (k : A -> M B) db w :
  fault_at w = None -> bind (query q) k (db, w) = k (q db) (db, w).
Proof. intros H. unfold query. rewrite bind_execute_ok by exact H. reflexivity. Qed.

(** A unit of work that raises leaves the tables as they were. *)
Lemma transaction_raised {A} (body : M A) db w e s' :
  transaction body (db, w) = (Raised e, s') -> s'.1 = db.
Proof.
  unfold transaction.
  destruct (bind body _ (db, w)) as [[a|e'] [db' w']]; intros H; inversion H; reflexivity.
Qed.

(** A unit of work whose body returns, in a world where the driver does not
    fault at the commit, returns what the body returns. *)
Lemma transaction_ok {A} (body : M A) db w a db' w' :
  body (db, w) = (Return a, (db', w')) -> fault_at w' = None ->
  transaction body (db, w) = (Return a, (db', w')).
Proof.
  intros Hb Hf. unfold transaction, bind at 1. rewrite Hb.
  rewrite bind_query_ok by exact Hf. reflexivity.
Qed.

Lemma transaction_body_raised {A} (body : M A) db w e db' w' :
  body (db, w) = (Raised e, (db', w')) ->
  transaction body (db, w) = (Raised e, (db, w')).
Proof. intros Hb. unfold transaction, bind at 1. rewrite Hb. reflexivity. Qed.

(** ** Faults only ever abort *)

Lemma faithful_ret {A} (a : A) : faithful (ret a).
Proof. intros db w a' db' w' H. inversion H. reflexivity. Qed.

Lemma faithful_raise {A} e : faithful (@raise A e).
Proof. intros db w a' db' w' H. inversion H. Qed.

Lemma faithful_bind {A B} (c : M A) (k : A -> M B) :
  faithful c -> (forall a, faithful (k a)) -> faithful (bind c k).
Proof.
  intros Hc Hk db w b db' w' H. unfold bind in *.
  destruct (c (db, w)) as [[a|e] [db1 w1]] eqn:E; [|inversion H].
  rewrite (Hc _ _ _ _ _ E). apply (Hk a). exact H.
Qed.

Lemma faithful_execute {A} (stmt : DB -> A * DB) : faithful (execute stmt).
Proof.
  intros db w a db' w' H. unfold execute in *. cbn [calm with_fault fault_at].
  destruct (fault_at w) as [[|k]|]; [inversion H| |];
    destruct (stmt db) as [a0 db0]; inversion H; subst; reflexivity.
Qed.

Lemma faithful_query {A} (q : DB -> A) : faithful (query q).
Proof. apply faithful_execute. Qed.

Lemma faithful_ambient {A} (f : World -> A * World) :
  fault_blind f -> faithful (ambient f).
Proof.
  intros Hf db w a db' w' H. unfold ambient, calm in *. rewrite (Hf w None).
  destruct (f w) as [a0 w0]. inversion H; subst. reflexivity.
Qed.

Lemma faithful_datetime_now : faithful datetime_now.
Proof. intros db w a db' w' H. inversion H; subst. reflexivity. Qed.

Lemma faithful_NOW : faithful NOW.
Proof. intros db w a db' w' H. inversion H; subst. reflexivity. Qed.

Lemma faithful_call_calculate_dynamic_price bf sa ts dep d :
  faithful (call_calculate_dynamic_price bf sa ts dep d).
Proof.
  unfold call_calculate_dynamic_price. destruct dep as [t|t]; [|apply faithful_raise].
  apply faithful_ambient. apply fault_blind_calculate_dynamic_price.
Qed.

Lemma faithful_transaction {A} (body : M A) : faithful body -> faithful (transaction body).
Proof.
  intros Hb db w a db' w' H. unfold transaction in *.
  pose proof (faithful_bind body (fun a => run query (fun _ => tt); ret a) Hb) as Hin.
  specialize (Hin (fun a0 => faithful_bind _ _ (faithful_query _) (fun _ => faithful_ret a0))).
  destruct (bind body _ (db, w)) as [[a0|e] [db1 w1]] eqn:E; [|inversion H].
  inversion H; subst. rewrite (Hin _ _ _ _ _ E). reflexivity.
Qed.

Lemma faithful_try_reraise {A} (body : M A) (handler : Exception -> M A) :
  faithful body -> (forall e s, exists e', handler e s = (Raised e', s)) ->
  faithful (try_except body handler).
Proof.
  intros Hb Hh db w a db' w' H. unfold try_except in *.
  destruct (body (db, w)) as [[a0|e] [db1 w1]] eqn:E.
  - inversion H; subst. rewrite (Hb _ _ _ _ _ E). reflexivity.
  - destruct (Hh e (db1, w1)) as [e' He']. rewrite He' in H. inversion H.
Qed.

(** ** Tables: keys, scans and counts *)

Lemma le_foldr_max (x : Z) (l : list Z) : x ∈ l -> x <= foldr Z.max 0 l.
Proof.
  induction l as [|y l IH]; intros H; [by apply elem_of_nil in H|].
  apply elem_of_cons in H as [->|H]; cbn [foldr]; [lia|].
  specialize (IH H). lia.
Qed.

Lemma next_key_fresh {V} (t : gmap Z V) : t !! next_key t = None.
Proof.
  destruct (t !! next_key t) as [v|] eqn:E; [|reflexivity].
  apply elem_of_map_to_list in E.
  assert (H : next_key t ∈ map fst (map_to_list t)).
  { apply list_elem_of_fmap. exists (next_key t, v). split; [reflexivity|exact E]. }
  apply le_foldr_max in H. unfold next_key in H at 1. lia.
Qed.

Global Instance key_le_trans {V} : Transitive (@key_le V).
Proof. intros x y z. unfold key_le. lia. Qed.

Global Instance key_le_total {V} : Total (@key_le V).
Proof. intros x y. unfold key_le. lia. Qed.

Lemma elem_of_rows {V} (t : gmap Z V) k v : (k, v) ∈ rows t <-> t !! k = Some v.
Proof. unfold rows. rewrite merge_sort_Permutation. apply elem_of_map_to_list. Qed.

Lemma find_split {A} (p : A -> bool) (l : list A) x :
  List.find p l = Some x ->
  exists l1 l2, l = l1 ++ x :: l2 /\ p x = true /\ forall y, y ∈ l1 -> p y = false.
Proof.
  induction l as [|a l IH]; cbn [List.find]; intros H; [discriminate|].
  destruct (p a) eqn:E.
  - inversion H; subst. exists [], l. split; [reflexivity|]. split; [exact E|].
    intros y Hy. by apply elem_of_nil in Hy.
  - destruct (IH H) as (l1 & l2 & -> & Hx & Hl1).
    exists (a :: l1), l2. split; [reflexivity|]. split; [exact Hx|].
    intros y Hy. apply elem_of_cons in Hy as [->|Hy]; [exact E|by apply Hl1].
Qed.

(** [first_row] returns the matching row with the least key. *)
Lemma first_row_least {V} (p : Z * V -> bool) (t : gmap Z V) k v :
  first_row p t = Some (k, v) ->
  t !! k = Some v /\ p (k, v) = true /\
  forall k' v', t !! k' = Some v' -> p (k', v') = true -> k <= k'.
Proof.
  unfold first_row. intros H.
  destruct (find_split _ _ _ H) as (l1 & l2 & Hl & Hp & Hl1).
  split; [|split; [exact Hp|]].
  - apply elem_of_rows. rewrite Hl. apply elem_of_app. right. by left.
  - intros k' v' Hk' Hp'. apply elem_of_rows in Hk'. rewrite Hl in Hk'.
    apply elem_of_app in Hk' as [Hin|Hin].
    + rewrite (Hl1 _ Hin) in Hp'. discriminate.
    + apply elem_of_cons in Hin as [Heq|Hin]; [inversion Heq; lia|].
      assert (Hs : StronglySorted key_le (rows t))
        by (unfold rows; apply StronglySorted_merge_sort; apply _).
      rewrite Hl in Hs. apply StronglySorted_app_1_r in Hs.
      apply StronglySorted_inv in Hs as [_ Hall].
      rewrite Forall_forall in Hall. exact (Hall _ Hin).
Qed.

Lemma first_row_None {V} (p : Z * V -> bool) (t : gmap Z V) k v :
  first_row p t = None -> t !! k = Some v -> p (k, v) = false.
Proof.
  unfold first_row. intros H Hk. apply elem_of_rows in Hk.
  apply list_elem_of_In in Hk. exact (find_none _ _ H _ Hk).
Qed.

Lemma first_row_found {V} (p : Z * V -> bool) (t : gmap Z V) k v :
  t !! k = Some v -> p (k, v) = true ->
  (forall k' v', t !! k' = Some v' -> p (k', v') = true -> k <= k') ->
  first_row p t = Some (k, v).
Proof.
  intros Hk Hp Hmin.
  destruct (first_row p t) as [[k0 v0]|] eqn:E.
  - destruct (first_row_least _ _ _ _ E) as (Hk0 & Hp0 & Hmin0).
    pose proof (Hmin _ _ Hk0 Hp0). pose proof (Hmin0 _ _ Hk Hp).
    assert (k0 = k) by lia. subst. rewrite Hk in Hk0. inversion Hk0. reflexivity.
  - rewrite (first_row_None _ _ _ _ E Hk) in Hp. discriminate.
Qed.

Lemma held_seats_insert fid k b (t : gmap Z Booking) :
  held_seats fid (<[k := b]> t) = held_seats fid (delete k t) + seat_of fid k b.
Proof.
  unfold held_seats, seat_of. rewrite <- (insert_delete_eq t).
  rewrite map_filter_insert. case_decide.
  - rewrite map_size_insert_None; [lia|].
    apply map_lookup_filter_None. left. apply lookup_delete_eq.
  - rewrite delete_delete_eq. lia.
Qed.

Lemma held_seats_lookup fid k b (t : gmap Z Booking) :
  t !! k = Some b -> held_seats fid t = held_seats fid (delete k t) + seat_of fid k b.
Proof. intros H. rewrite <- (insert_id t k b H) at 1. apply held_seats_insert. Qed.

Lemma held_seats_fresh fid k b (t : gmap Z Booking) :
  t !! k = None -> held_seats fid (<[k := b]> t) = held_seats fid t + seat_of fid k b.
Proof. intros H. rewrite held_seats_insert, delete_id by exact H. reflexivity. Qed.

Lemma held_seats_alter fid k b f (t : gmap Z Booking) :
  t !! k = Some b ->
  held_seats fid (alter f k t) = held_seats fid t - seat_of fid k b + seat_of fid k (f b).
Proof.
  intros H. rewrite (held_seats_lookup fid k b t H).
  assert (Ha : alter f k t = <[k := f b]> t).
  { apply map_eq. intros j. destruct (decide (k = j)) as [->|Hne].
    - rewrite lookup_alter_eq, lookup_insert_eq, H. reflexivity.
    - rewrite lookup_alter_ne, lookup_insert_ne by exact Hne. reflexivity. }
  rewrite Ha, held_seats_insert. lia.
Qed.

(** ** Every handler is faithful *)

Create HintDb blind discriminated.
#[local] Hint Resolve fault_blind_draw fault_blind_random_random fault_blind_random_uniform
  fault_blind_random_choice fault_blind_random_choices fault_blind_generate_pnr
  fault_blind_calculate_dynamic_price : blind.

Ltac faithful_step :=
  match goal with
  | |- faithful (ret _) => apply faithful_ret
  | |- faithful (raise _) => apply faithful_raise
  | |- faithful (query _) => apply faithful_query
  | |- faithful (execute _) => apply faithful_execute
  | |- faithful datetime_now => apply faithful_datetime_now
  | |- faithful NOW => apply faithful_NOW
  | |- faithful (call_calculate_dynamic_price _ _ _ _ _) =>
      apply faithful_call_calculate_dynamic_price
  | |- faithful (ambient _) => apply faithful_ambient; auto with blind
  | |- faithful (transaction _) => apply faithful_transaction
  | |- faithful (bind _ _) => apply faithful_bind; [|intros ?]
  | |- faithful (match ?x with _ => _ end) => destruct x
  | |- faithful (let _ := _ in _) => cbv zeta
  end.

Lemma faithful_read_back bid : faithful (read_back bid).
Proof. unfold read_back. repeat faithful_step. Qed.

Lemma faithful_start_booking req : faithful (start_booking req).
Proof.
  unfold start_booking, start_booking_validate, start_booking_reserve,
    start_booking_respond.
  apply faithful_bind; [repeat faithful_step|intros _].
  apply faithful_bind.
  - apply faithful_try_reraise.
    + repeat faithful_step.
    + intros [c d| |m] s; eexists; reflexivity.
  - intros [[[bid pid] sn] pr]. repeat faithful_step.
Qed.

Lemma faithful_confirm_payment req : faithful (confirm_payment req).
Proof.
  unfold confirm_payment.
  apply faithful_bind; [repeat faithful_step|intros [b|]]; [|faithful_step].
  destruct (negb _); [faithful_step|].
  apply faithful_bind; [repeat faithful_step|intros success].
  apply faithful_try_reraise; [|intros e s; eexists; reflexivity].
  apply faithful_transaction. apply faithful_bind; [faithful_step|intros _].
  destruct success; repeat first [apply faithful_read_back | faithful_step].
Qed.

Lemma faithful_cancel_booking tk req : faithful (cancel_booking tk req).
Proof.
  unfold cancel_booking.
  apply faithful_bind; [repeat faithful_step|intros [[bid b]|]]; [|faithful_step].
  destruct (bool_decide _); [faithful_step|].
  apply faithful_try_reraise; [|intros e s; eexists; reflexivity].
  repeat first [apply faithful_read_back | faithful_step].
Qed.

(** ** A handler that raises leaves the tables as they were *)

Lemma query_tables {A} (q : DB -> A) db w r s' : query q (db, w) = (r, s') -> s'.1 = db.
Proof.
  unfold query, execute. destruct (fault_at w) as [[|k]|]; intros H; inversion H; reflexivity.
Qed.

Lemma try_reraise_raised {A} (body : M A) (handler : Exception -> M A) db w e s' :
  (forall e s, exists e', handler e s = (Raised e', s)) ->
  try_except (transaction body) handler (db, w) = (Raised e, s') -> s'.1 = db.
Proof.
  intros Hh. unfold try_except.
  destruct (transaction body (db, w)) as [[a|e0] s0] eqn:E; intros H; [inversion H|].
  destruct (Hh e0 s0) as [e' He']. rewrite He' in H. inversion H; subst.
  exact (transaction_raised _ _ _ _ _ E).
Qed.

Lemma start_booking_raised req db w e s' :
  start_booking req (db, w) = (Raised e, s') -> s'.1 = db.
Proof.
  unfold start_booking, start_booking_validate, bind at 1 2.
  destruct (query _ (db, w)) as [[[f|]|e0] [db1 w1]] eqn:E;
    pose proof (query_tables _ _ _ _ _ E) as Hq; cbn in Hq; subst db1;
    cbn; try (intros H; inversion H; reflexivity).
  unfold bind.
  destruct (start_booking_reserve req (db, w1)) as [[[[[bid pid] sn] pr]|e0] [db2 w2]] eqn:E2.
  - cbn. intros H; inversion H.
  - intros H; inversion H; subst. unfold start_booking_reserve in E2.
    apply try_reraise_raised in E2; [exact E2|].
    intros [c d| |m] s; eexists; reflexivity.
Qed.

Lemma confirm_payment_raised req db w e s' :
  confirm_payment req (db, w) = (Raised e, s') -> s'.1 = db.
Proof.
  unfold confirm_payment, bind at 1.
  destruct (query _ (db, w)) as [[[b|]|e0] [db1 w1]] eqn:E;
    pose proof (query_tables _ _ _ _ _ E) as Hq; cbn in Hq; subst db1;
    cbn; try (intros H; inversion H; reflexivity).
  destruct (negb _); [intros H; inversion H; reflexivity|].
  unfold bind at 1.
  destruct (simulate_success req) as [ok|].
  - cbn. apply try_reraise_raised. intros e1 s; eexists; reflexivity.
  - unfold ambient at 1. destruct (random_choice true [false; true] w1) as [ok w2].
    apply try_reraise_raised. intros e1 s; eexists; reflexivity.
Qed.

Lemma cancel_booking_raised tk req db w e s' :
  cancel_booking tk req (db, w) = (Raised e, s') -> s'.1 = db.
Proof.
  unfold cancel_booking, bind at 1.
  destruct (query _ (db, w)) as [[[[bid b]|]|e0] [db1 w1]] eqn:E;
    pose proof (query_tables _ _ _ _ _ E) as Hq; cbn in Hq; subst db1;
    cbn; try (intros H; inversion H; reflexivity).
  destruct (bool_decide _); [intros H; inversion H; reflexivity|].
  apply try_reraise_raised. intros e1 s; eexists; reflexivity.
Qed.

(** ** The handlers in a calm world *)

Lemma start_booking_validate_calm req db w :
  fault_at w = None ->
  start_booking_validate req (db, w) =
  match Flights db !! req_flight_id req with
  | None => (Raised (HTTPException 404 "Flight not found"), (db, w))
  | Some _ => (Return tt, (db, w))
  end.
Proof.
  intros Hw. unfold start_booking_validate. rewrite bind_query_ok by exact Hw.
  unfold select_flight. destruct (Flights db !! req_flight_id req); reflexivity.
Qed.

Lemma start_booking_reserve_full req db w f :
  fault_at w = None -> Flights db !! req_flight_id req = Some f ->
  seats_available f <= 0 ->
  start_booking_reserve req (db, w) =
  (Raised (HTTPException 409 "No seats available"), (db, w)).
Proof.
  intros Hw Hf Hs. unfold start_booking_reserve, try_except.
  rewrite (transaction_body_raised _ db w (HTTPException 409 "No seats available") db w);
    [reflexivity|].
  rewrite bind_query_ok by exact Hw. unfold select_flight. rewrite Hf.
  destruct (Z.leb_spec (seats_available f) 0); [reflexivity|lia].
Qed.

Lemma clock_calculate_dynamic_price bf sa ts dep d w :
  clock (calculate_dynamic_price bf sa ts dep d w).2 = clock w /\
  server_clock (calculate_dynamic_price bf sa ts dep d w).2 = server_clock w.
Proof.
  unfold calculate_dynamic_price, random_uniform, random_random, draw.
  destruct d, w; split; reflexivity.
Qed.

Lemma start_booking_reserve_held req db w f t :
  fault_at w = None -> Flights db !! req_flight_id req = Some f ->
  0 < seats_available f -> departure_date_time f = aware t ->
  exists w',
    fault_at w' = None /\ clock w' = clock w /\
    start_booking_reserve req (db, w) =
    (Return (next_key (Bookings db), (resolve_passenger req db).1, seat_label f,
             held_price f w),
     (held_tables req f db w, w')).
Proof.
  intros Hw Hf Hs Ht.
  set (p := calculate_dynamic_price (base_fare f) (seats_available f) (total_seats f)
              t None w).
  exists p.2.
  assert (Hw' : fault_at p.2 = None).
  { unfold p. rewrite fault_blind_fault_at by auto with blind. exact Hw. }
  destruct (clock_calculate_dynamic_price (base_fare f) (seats_available f) (total_seats f)
              t None w) as [Hc Hsc]. fold p in Hc, Hsc.
  split; [exact Hw'|]. split; [exact Hc|].
  unfold start_booking_reserve, try_except.
  erewrite transaction_ok; [reflexivity| |exact Hw'].
  rewrite bind_query_ok by exact Hw. unfold select_flight at 1. rewrite Hf.
  destruct (Z.leb_spec (seats_available f) 0); [lia|].
  rewrite bind_query_ok by exact Hw.
  unfold held_tables, held_booking, held_price, resolve_passenger, seat_label.
  rewrite Ht. cbn [reading_of]. fold p.
  destruct (select_passenger_id (passenger_email req) db) as [pid|] eqn:Ep.
  - rewrite bind_ret, bind_query_ok by exact Hw. unfold select_flight. rewrite Hf.
    cbn [fmap option_fmap option_map]. rewrite Ht.
    rewrite bind_datetime_now. unfold call_calculate_dynamic_price.
    rewrite bind_ambient. fold p. rewrite bind_NOW, Hsc.
    rewrite bind_execute_ok by exact Hw'.
    rewrite bind_execute_ok by exact Hw'. destruct db; reflexivity.
  - rewrite bind_execute_ok, bind_query_ok by exact Hw. unfold select_flight.
    cbn [insert_passenger fst snd set_Passengers Flights]. rewrite Hf.
    cbn [fmap option_fmap option_map]. rewrite Ht.
    rewrite bind_datetime_now. unfold call_calculate_dynamic_price.
    rewrite bind_ambient. fold p. rewrite bind_NOW, Hsc.
    rewrite bind_execute_ok by exact Hw'.
    rewrite bind_execute_ok by exact Hw'. reflexivity.
Qed.

(** On a row whose departure is naive the pricing raises [TypeError] under
    the lock: the transaction is rolled back and the call answers 500. *)
Lemma start_booking_reserve_naive req db w f t :
  fault_at w = None -> Flights db !! req_flight_id req = Some f ->
  0 < seats_available f -> departure_date_time f = naive t ->
  start_booking_reserve req (db, w) =
  (Raised (HTTPException 500
             "Could not start booking: can't subtract offset-naive and offset-aware datetimes"),
   (db, w)).
Proof.
  intros Hw Hf Hs Ht. unfold start_booking_reserve, try_except.
  match goal with
  | |- context [transaction ?body (db, w)] =>
      assert (E : exists db1,
        body (db, w)
        = (Raised (TypeError "can't subtract offset-naive and offset-aware datetimes"),
           (db1, w)))
  end.
  { rewrite bind_query_ok by exact Hw. unfold select_flight at 1. rewrite Hf.
    destruct (Z.leb_spec (seats_available f) 0); [lia|].
    rewrite bind_query_ok by exact Hw.
    destruct (select_passenger_id (passenger_email req) db) as [pid|] eqn:Ep.
    - rewrite bind_ret, bind_query_ok by exact Hw. unfold select_flight. rewrite Hf.
      cbn [fmap option_fmap option_map]. rewrite Ht. eexists. reflexivity.
    - rewrite bind_execute_ok, bind_query_ok by exact Hw. unfold select_flight.
      cbn [insert_passenger fst snd set_Passengers Flights]. rewrite Hf.
      cbn [fmap option_fmap option_map]. rewrite Ht. eexists. reflexivity. }
  destruct E as [db1 E]. rewrite (transaction_body_raised _ _ _ _ _ _ E). reflexivity.
Qed.

Lemma start_booking_calm req db w :
  fault_at w = None ->
  match Flights db !! req_flight_id req with
  | None =>
      start_booking req (db, w) = (Raised (HTTPException 404 "Flight not found"), (db, w))
  | Some f =>
      if seats_available f <=? 0 then
        start_booking req (db, w) =
        (Raised (HTTPException 409 "No seats available"), (db, w))
      else
        match departure_date_time f with
        | aware _ =>
            exists w', fault_at w' = None /\
              start_booking req (db, w) =
              (Return (held_response req f db w), (held_tables req f db w, w'))
        | naive _ =>
            start_booking req (db, w) =
            (Raised (HTTPException 500
                       "Could not start booking: can't subtract offset-naive and offset-aware datetimes"),
             (db, w))
        end
  end.
Proof.
  intros Hw. pose proof (start_booking_validate_calm req db w Hw) as Hv.
  destruct (Flights db !! req_flight_id req) as [f|] eqn:Hf.
  2: { unfold start_booking, bind at 1. rewrite Hv. reflexivity. }
  destruct (Z.leb_spec (seats_available f) 0) as [Hs|Hs].
  - unfold start_booking, bind. rewrite Hv.
    rewrite (start_booking_reserve_full req db w f Hw Hf Hs). reflexivity.
  - destruct (departure_date_time f) as [t|t] eqn:Ht.
    + unfold start_booking, bind. rewrite Hv.
      destruct (start_booking_reserve_held req db w f t Hw Hf Hs Ht) as (w' & Hw' & Hc & ->).
      exists w'. split; [exact Hw'|]. unfold start_booking_respond.
      rewrite bind_datetime_now. unfold ret, held_response. rewrite Hc. reflexivity.
    + unfold start_booking, bind. rewrite Hv.
      rewrite (start_booking_reserve_naive req db w f t Hw Hf Hs Ht). reflexivity.
Qed.

Lemma clock_random_choice {A} (x : A) seq w :
  clock (random_choice x seq w).2 = clock w /\
  server_clock (random_choice x seq w).2 = server_clock w.
Proof. destruct w; split; reflexivity. Qed.

Lemma clock_random_choices {A} (x : A) pop k w :
  clock (random_choices x pop k w).2 = clock w /\
  server_clock (random_choices x pop k w).2 = server_clock w.
Proof.
  revert w. induction k as [|k IH]; intros w; [split; reflexivity|].
  cbn [random_choices].
  pose proof (clock_random_choice x pop w) as [H1 H1'].
  destruct (random_choice x pop w) as [c w1]. cbn [snd] in H1, H1'.
  pose proof (IH w1) as [H2 H2'].
  destruct (random_choices x pop k w1) as [cs w2]. cbn [snd] in *. split; congruence.
Qed.

Lemma clock_generate_pnr n w :
  clock (generate_pnr n w).2 = clock w /\
  server_clock (generate_pnr n w).2 = server_clock w.
Proof.
  unfold generate_pnr. pose proof (clock_random_choices "A"%char
    (tail Py.ascii_uppercase_digits) n w) as H.
  destruct (random_choices _ _ n w) as [cs w']. exact H.
Qed.

Lemma payment_outcome_world req w :
  fault_at (payment_outcome req w).2 = fault_at w /\
  server_clock (payment_outcome req w).2 = server_clock w.
Proof.
  unfold payment_outcome. destruct (simulate_success req); [split; reflexivity|].
  split; [apply fault_blind_fault_at; auto with blind|apply clock_random_choice].
Qed.

Lemma read_back_calm bid b db w :
  fault_at w = None -> Bookings db !! bid = Some b ->
  read_back bid (db, w) = (Return (response_of bid b), (db, w)).
Proof.
  intros Hw Hb. unfold read_back. rewrite bind_query_ok by exact Hw.
  unfold select_booking. rewrite Hb. reflexivity.
Qed.

Lemma confirm_payment_calm req db w :
  fault_at w = None ->
  match Bookings db !! booking_id req with
  | None =>
      confirm_payment req (db, w) =
      (Raised (HTTPException 404 "Booking not found"), (db, w))
  | Some b =>
      if decide (status b = PENDING) then
        exists w', fault_at w' = None /\
          confirm_payment req (db, w) =
          if (payment_outcome req w).1 then
            (Return (response_of (booking_id req)
                       (set_confirmed (issued_pnr req w) (server_clock w) b)),
             (paid_tables req db w, w'))
          else
            (Return (response_of (booking_id req) (set_payment_failed (server_clock w) b)),
             (failed_tables req b db w, w'))
      else
        confirm_payment req (db, w) =
        (Raised (HTTPException 400
                   ("Booking not in PENDING state (current: "
                    ++ status_name (status b) ++ ")")), (db, w))
  end.
Proof.
  intros Hw.
  assert (Hq : forall r, Bookings db !! booking_id req = r ->
    confirm_payment req (db, w) =
    match r with
    | None => raise (HTTPException 404 "Booking not found")
    | Some booking =>
        if negb (bool_decide (status booking = PENDING)) then
          raise (HTTPException 400
                   ("Booking not in PENDING state (current: "
                    ++ status_name (status booking) ++ ")"))
        else
          do success <-
            match simulate_success req with
            | None => ambient (random_choice true [false; true])
            | Some b => ret b
            end;
          try_except
            (transaction (
               run query (select_flight (flight_id booking));
               if success then
                 do pnr <- ambient (generate_pnr 6);
                 do now <- NOW;
                 run execute (update_booking (set_confirmed pnr now) (booking_id req));
                 read_back (booking_id req)
               else
                 do now <- NOW;
                 run execute (update_booking (set_payment_failed now) (booking_id req));
                 run execute (update_seats_by 1 (flight_id booking));
                 read_back (booking_id req)))
            (fun e => raise (HTTPException 500 ("Payment update error: " ++ str_exception e)))
    end (db, w)).
  { intros r <-. unfold confirm_payment. rewrite bind_query_ok by exact Hw. reflexivity. }
  destruct (Bookings db !! booking_id req) as [b|] eqn:Hb;
    [|rewrite (Hq None eq_refl); reflexivity].
  rewrite (Hq (Some b) eq_refl). clear Hq.
  destruct (decide (status b = PENDING)) as [Hp|Hp].
  2: { rewrite bool_decide_eq_false_2 by exact Hp. reflexivity. }
  rewrite bool_decide_eq_true_2 by exact Hp. cbn [negb].
  destruct (payment_outcome_world req w) as [Hf1 Hc1].
  assert (E1 : forall B (k : bool -> M B),
    bind (match simulate_success req with
          | None => ambient (random_choice true [false; true])
          | Some ok => ret ok
          end) k (db, w) = k (payment_outcome req w).1 (db, (payment_outcome req w).2)).
  { intros B k. unfold payment_outcome. destruct (simulate_success req).
    - reflexivity.
    - apply bind_ambient. }
  rewrite E1. clear E1. unfold issued_pnr.
  set (w1 := (payment_outcome req w).2) in *.
  assert (Hw1 : fault_at w1 = None) by congruence.
  destruct (payment_outcome req w).1; unfold try_except.
  - exists (generate_pnr 6 w1).2.
    assert (Hw2 : fault_at (generate_pnr 6 w1).2 = None).
    { rewrite fault_blind_fault_at by auto with blind. exact Hw1. }
    split; [exact Hw2|].
    erewrite transaction_ok; [reflexivity| |exact Hw2].
    rewrite bind_query_ok by exact Hw1.
    rewrite bind_ambient, bind_NOW, bind_execute_ok by exact Hw2.
    rewrite (proj2 (clock_generate_pnr 6 w1)), Hc1.
    cbn [update_booking fst snd].
    erewrite read_back_calm; [reflexivity|exact Hw2|].
    cbn [Bookings set_Bookings]. rewrite lookup_alter_eq, Hb. reflexivity.
  - exists w1. split; [exact Hw1|].
    erewrite transaction_ok; [reflexivity| |exact Hw1].
    rewrite bind_query_ok by exact Hw1.
    rewrite bind_NOW, bind_execute_ok by exact Hw1.
    rewrite bind_execute_ok by exact Hw1. rewrite Hc1.
    cbn [update_booking update_seats_by fst snd].
    erewrite read_back_calm; [reflexivity|exact Hw1|].
    cbn [Bookings set_Bookings set_Flights]. rewrite lookup_alter_eq, Hb. reflexivity.
Qed.

Lemma cancel_booking_calm tk req db w :
  fault_at w = None ->
  match select_booking_by_pnr_or_id tk (req_pnr req) db with
  | None =>
      cancel_booking tk req (db, w) =
      (Raised (HTTPException 404 "Booking not found"), (db, w))
  | Some (bid, b) =>
      if decide (status b = CANCELLED) then
        cancel_booking tk req (db, w) =
        (Raised (HTTPException 400 "Booking already cancelled"), (db, w))
      else
        cancel_booking tk req (db, w) =
        (Return (response_of bid (set_cancelled b)), (cancelled_tables bid b db, w))
  end.
Proof.
  intros Hw.
  destruct (select_booking_by_pnr_or_id tk (req_pnr req) db) as [[bid b]|] eqn:E.
  2: { unfold cancel_booking. rewrite bind_query_ok by exact Hw. rewrite E. reflexivity. }
  destruct (decide (status b = CANCELLED)) as [Hc|Hc].
  { unfold cancel_booking. rewrite bind_query_ok by exact Hw. rewrite E.
    rewrite bool_decide_eq_true_2 by exact Hc. reflexivity. }
  unfold cancel_booking. rewrite bind_query_ok by exact Hw. rewrite E.
  rewrite bool_decide_eq_false_2 by exact Hc. unfold try_except.
  erewrite transaction_ok; [reflexivity| |exact Hw].
  rewrite bind_query_ok by exact Hw.
  rewrite bind_execute_ok by exact Hw. rewrite bind_execute_ok by exact Hw.
  cbn [update_booking update_seats_by fst snd].
  erewrite read_back_calm; [reflexivity|exact Hw|].
  cbn [Bookings set_Bookings set_Flights]. rewrite lookup_alter_eq.
  apply first_row_least in E as [Hb _]. rewrite Hb. reflexivity.
Qed.

(** ** Confirmation codes *)

Lemma random_choice_in {A} (x : A) seq w : (random_choice x seq w).1 ∈ x :: seq.
Proof.
  unfold random_choice, draw. cbn [fst].
  apply list_elem_of_In, nth_In.
  pose proof (Z.mod_pos_bound (entropy w (cursor w)) (Z.of_nat (length (x :: seq)))) as H.
  cbn [length] in *. lia.
Qed.

Lemma random_choices_spec {A} (x : A) pop k w :
  length (random_choices x pop k w).1 = k /\
  Forall (fun c => c ∈ x :: pop) (random_choices x pop k w).1.
Proof.
  revert w. induction k as [|k IH]; intros w; cbn [random_choices].
  - split; [reflexivity|constructor].
  - pose proof (random_choice_in x pop w) as Hc.
    destruct (random_choice x pop w) as [c w1]. cbn [fst] in Hc.
    destruct (IH w1) as [Hl Hall].
    destruct (random_choices x pop k w1) as [cs w2]. cbn [fst] in *.
    split; [cbn [length]; congruence|constructor; assumption].
Qed.

Lemma length_string_of_list_ascii cs : String.length (string_of_list_ascii cs) = length cs.
Proof. induction cs as [|c cs IH]; cbn; congruence. Qed.

Lemma generate_pnr_well_formed w : well_formed_pnr (generate_pnr 6 w).1.
Proof.
  unfold generate_pnr, well_formed_pnr.
  destruct (random_choices_spec "A"%char (tail Py.ascii_uppercase_digits) 6 w) as [Hl Hall].
  destruct (random_choices _ _ 6 w) as [cs w']. cbn [fst] in *.
  rewrite length_string_of_list_ascii, list_ascii_of_string_of_list_ascii.
  split; [exact Hl|].
  eapply Forall_impl; [exact Hall|]. intros c Hc. cbv beta in Hc.
  assert (Hpop : Forall (fun c => is_upper_alnum c = true)
                   ("A"%char :: tail Py.ascii_uppercase_digits)).
  { vm_compute. repeat constructor. }
  rewrite Forall_forall in Hpop. exact (Hpop c Hc).
Qed.

Lemma alter_present {V} (g : V -> V) k v (t : gmap Z V) :
  t !! k = Some v -> alter g k t = <[k := g v]> t.
Proof.
  intros H. apply map_eq. intros j. destruct (decide (k = j)) as [->|Hne].
  - rewrite lookup_alter_eq, lookup_insert_eq, H. reflexivity.
  - rewrite lookup_alter_ne, lookup_insert_ne by exact Hne. reflexivity.
Qed.

(** ** Holds *)

(** [start_booking], the driver not faulting: on a flight id that no
    flight has it fails with 404 "Flight not found"; on a flight with no
    seat left under the lock it fails with 409 "No seats available"; on a
    flight with a seat left whose departure is read as a naive datetime it
    fails with 500, the pricing having raised; on a flight with a seat left
    whose departure is read as an aware datetime it inserts exactly one
    booking, PENDING, under a fresh key, and takes exactly one seat off the
    flight.  Whenever it fails, for whatever reason, the tables are as
    before the call. *)
Theorem start_booking_contract (req : StartBookingRequest) (db : DB) (w : World) :
  (fault_at w = None ->
     (Flights db !! req_flight_id req = None ->
        start_booking req (db, w) =
        (Raised (HTTPException 404 "Flight not found"), (db, w)))
     /\ (forall f, Flights db !! req_flight_id req = Some f -> seats_available f = 0 ->
        start_booking req (db, w) =
        (Raised (HTTPException 409 "No seats available"), (db, w)))
     /\ (forall f t, Flights db !! req_flight_id req = Some f -> 0 < seats_available f ->
        departure_date_time f = naive t ->
        start_booking req (db, w) =
        (Raised (HTTPException 500
                   "Could not start booking: can't subtract offset-naive and offset-aware datetimes"),
         (db, w)))
     /\ (forall f t, Flights db !! req_flight_id req = Some f -> 0 < seats_available f ->
        departure_date_time f = aware t ->
        exists resp db' w' bid b,
          start_booking req (db, w) = (Return resp, (db', w')) /\
          r_booking_id resp = bid /\ r_status resp = PENDING /\ r_pnr resp = None /\
          Bookings db !! bid = None /\
          Bookings db' = <[bid := b]> (Bookings db) /\
          status b = PENDING /\ flight_id b = req_flight_id req /\
          Flights db' =
            <[req_flight_id req := set_seats (seats_available f - 1) f]> (Flights db)))
  /\ (forall e s', start_booking req (db, w) = (Raised e, s') -> s'.1 = db).
Proof.
  split; [|intros e s'; apply start_booking_raised].
  intros Hw. pose proof (start_booking_calm req db w Hw) as H.
  split; [|split; [|split]].
  - intros Hf. rewrite Hf in H. exact H.
  - intros f Hf Hs. rewrite Hf in H.
    destruct (Z.leb_spec (seats_available f) 0); [exact H|lia].
  - intros f t Hf Hs Ht. rewrite Hf, Ht in H.
    destruct (Z.leb_spec (seats_available f) 0); [lia|exact H].
  - intros f t Hf Hs Ht. rewrite Hf, Ht in H.
    destruct (Z.leb_spec (seats_available f) 0); [lia|].
    destruct H as (w' & _ & H).
    exists (held_response req f db w), (held_tables req f db w), w',
      (next_key (Bookings db)), (held_booking req f db w).
    split; [exact H|]. repeat split.
    + apply next_key_fresh.
    + unfold held_tables. cbn [Flights].
      rewrite (alter_present _ _ _ _ Hf). reflexivity.
Qed.

(** ** Payments *)

Lemma released_flights_lookup fid f db :
  Flights db !! fid = Some f ->
  released_flights fid db = <[fid := set_seats (seats_available f + 1) f]> (Flights db).
Proof.
  intros H. unfold released_flights.
  exact (alter_present (fun f => set_seats (seats_available f + 1) f) _ _ _ H).
Qed.

(** Payments that do not overlap.  [confirm_payment] fails with 404 "Booking not found" on an unknown
    booking id and with 400 "Booking not in PENDING state" on a booking
    that is not PENDING.  On a PENDING booking (the driver not faulting) it
    returns, and when the payment result, forced or drawn, is a success
    the booking becomes CONFIRMED and PAID with a confirmation code of six
    uppercase letters or digits and the flights are untouched; when it is
    a failure the booking becomes CANCELLED and FAILED and its flight gets
    exactly one seat back.  Either way a payment of the same booking that
    starts on the tables this one has left is refused with the 400 error. *)
Theorem confirm_payment_contract (req : PaymentRequest) (db : DB) (w : World) :
  fault_at w = None ->
  (Bookings db !! booking_id req = None ->
     confirm_payment req (db, w) =
     (Raised (HTTPException 404 "Booking not found"), (db, w)))
  /\ (forall b, Bookings db !! booking_id req = Some b -> status b <> PENDING ->
     confirm_payment req (db, w) =
     (Raised (HTTPException 400
                ("Booking not in PENDING state (current: "
                 ++ status_name (status b) ++ ")")), (db, w)))
  /\ (forall b, Bookings db !! booking_id req = Some b -> status b = PENDING ->
     exists resp db' w' b',
       confirm_payment req (db, w) = (Return resp, (db', w')) /\
       resp = response_of (booking_id req) b' /\
       Bookings db' = <[booking_id req := b']> (Bookings db) /\
       ((payment_outcome req w).1 = true ->
          status b' = CONFIRMED /\ payment_status b' = PAID /\
          (exists code, pnr b' = Some code /\ well_formed_pnr code) /\
          Flights db' = Flights db) /\
       ((payment_outcome req w).1 = false ->
          status b' = CANCELLED /\ payment_status b' = FAILED /\
          forall f, Flights db !! flight_id b = Some f ->
            Flights db' =
              <[flight_id b := set_seats (seats_available f + 1) f]> (Flights db)) /\
       (forall req2 w2, booking_id req2 = booking_id req -> fault_at w2 = None ->
          confirm_payment req2 (db', w2) =
          (Raised (HTTPException 400
                     ("Booking not in PENDING state (current: "
                      ++ status_name (status b') ++ ")")), (db', w2)))).
Proof.
  intros Hw. pose proof (confirm_payment_calm req db w Hw) as H.
  split; [|split].
  - intros Hb. rewrite Hb in H. exact H.
  - intros b Hb Hp. rewrite Hb in H. destruct (decide (status b = PENDING)); [done|exact H].
  - intros b Hb Hp. rewrite Hb in H. destruct (decide (status b = PENDING)); [|done].
    destruct H as (w' & _ & H).
    assert (Hsecond : forall db' b', Bookings db' !! booking_id req = Some b' ->
              status b' <> PENDING ->
              forall req2 w2, booking_id req2 = booking_id req -> fault_at w2 = None ->
              confirm_payment req2 (db', w2) =
              (Raised (HTTPException 400
                         ("Booking not in PENDING state (current: "
                          ++ status_name (status b') ++ ")")), (db', w2))).
    { intros db' b' Hb' Hs req2 w2 Hid Hw2.
      pose proof (confirm_payment_calm req2 db' w2 Hw2) as H2.
      rewrite Hid, Hb' in H2. destruct (decide (status b' = PENDING)); [done|exact H2]. }
    destruct (payment_outcome req w).1 eqn:Eo.
    + exists (response_of (booking_id req) (set_confirmed (issued_pnr req w) (server_clock w) b)),
        (paid_tables req db w), w', (set_confirmed (issued_pnr req w) (server_clock w) b).
      split; [exact H|]. split; [reflexivity|].
      assert (Ht : Bookings (paid_tables req db w) =
                   <[booking_id req := set_confirmed (issued_pnr req w) (server_clock w) b]>
                     (Bookings db)).
      { unfold paid_tables. cbn [Bookings set_Bookings]. apply alter_present. exact Hb. }
      split; [exact Ht|]. split; [|split; [discriminate|]].
      * intros _. repeat split.
        exists (issued_pnr req w). split; [reflexivity|apply generate_pnr_well_formed].
      * apply Hsecond; [|discriminate]. rewrite Ht. apply lookup_insert_eq.
    + exists (response_of (booking_id req) (set_payment_failed (server_clock w) b)),
        (failed_tables req b db w), w', (set_payment_failed (server_clock w) b).
      split; [exact H|]. split; [reflexivity|].
      assert (Ht : Bookings (failed_tables req b db w) =
                   <[booking_id req := set_payment_failed (server_clock w) b]> (Bookings db)).
      { unfold failed_tables. cbn [Bookings]. apply alter_present. exact Hb. }
      split; [exact Ht|]. split; [discriminate|split].
      * intros _. repeat split. intros f Hf. apply released_flights_lookup. exact Hf.
      * apply Hsecond; [|discriminate]. rewrite Ht. apply lookup_insert_eq.
Qed.

(** ** Cancellations *)

(** No booking has the code or compares equal to it by key. *)
Lemma select_none tk code db :
  (forall bid b, Bookings db !! bid = Some b -> pnr b <> Some code /\ tk code bid = false) ->
  select_booking_by_pnr_or_id tk code db = None.
Proof.
  intros Hno. unfold select_booking_by_pnr_or_id.
  destruct (first_row _ (Bookings db)) as [[bid b]|] eqn:E; [|reflexivity].
  apply first_row_least in E as (Hb & Hp & _). cbn [fst snd] in Hp.
  destruct (Hno bid b Hb) as [H1 H2]. rewrite H2, bool_decide_eq_false_2 in Hp by exact H1.
  discriminate.
Qed.

Lemma select_after_cancel tk code db bid b :
  select_booking_by_pnr_or_id tk code db = Some (bid, b) ->
  select_booking_by_pnr_or_id tk code (cancelled_tables bid b db)
  = Some (bid, set_cancelled b).
Proof.
  unfold select_booking_by_pnr_or_id. intros E.
  apply first_row_least in E as (Hb & Hp & Hmin).
  apply first_row_found.
  - cbn [cancelled_tables Bookings]. rewrite lookup_alter_eq, Hb. reflexivity.
  - exact Hp.
  - intros k' v' Hk' Hp'. cbn [cancelled_tables Bookings] in Hk'.
    destruct (decide (bid = k')) as [->|Hne]; [lia|].
    rewrite lookup_alter_ne in Hk' by exact Hne. exact (Hmin _ _ Hk' Hp').
Qed.

(** Cancellations that do not overlap.  [cancel_booking] fails with 404 "Booking not found" when no booking
    has the confirmation code or the key the request names, and with 400
    "Booking already cancelled" when the booking it finds is CANCELLED.
    Otherwise (the driver not faulting) it sets that booking's status to
    CANCELLED, leaves its payment status as it was, gives its flight
    exactly one seat back, and a cancellation with the same request that
    starts on the tables this one has left is refused with the 400 error,
    changing nothing. *)
Theorem cancel_booking_contract (text_is_key : string -> Z -> bool)
    (req : CancelRequest) (db : DB) (w : World) :
  fault_at w = None ->
  ((forall bid b, Bookings db !! bid = Some b ->
      pnr b <> Some (req_pnr req) /\ text_is_key (req_pnr req) bid = false) ->
     cancel_booking text_is_key req (db, w) =
     (Raised (HTTPException 404 "Booking not found"), (db, w)))
  /\ (forall bid b,
     select_booking_by_pnr_or_id text_is_key (req_pnr req) db = Some (bid, b) ->
     Bookings db !! bid = Some b /\
     (pnr b = Some (req_pnr req) \/ text_is_key (req_pnr req) bid = true) /\
     (status b = CANCELLED ->
        cancel_booking text_is_key req (db, w) =
        (Raised (HTTPException 400 "Booking already cancelled"), (db, w))) /\
     (status b <> CANCELLED ->
        exists resp db' b',
          cancel_booking text_is_key req (db, w) = (Return resp, (db', w)) /\
          resp = response_of bid b' /\
          Bookings db' = <[bid := b']> (Bookings db) /\
          status b' = CANCELLED /\ payment_status b' = payment_status b /\
          (forall f, Flights db !! flight_id b = Some f ->
             Flights db' =
               <[flight_id b := set_seats (seats_available f + 1) f]> (Flights db)) /\
          (forall w2, fault_at w2 = None ->
             cancel_booking text_is_key req (db', w2) =
             (Raised (HTTPException 400 "Booking already cancelled"), (db', w2))))).
Proof.
  intros Hw. pose proof (cancel_booking_calm text_is_key req db w Hw) as H.
  split.
  - intros Hno. rewrite (select_none _ _ _ Hno) in H. exact H.
  - intros bid b E. rewrite E in H.
    pose proof E as E'. unfold select_booking_by_pnr_or_id in E'.
    apply first_row_least in E' as (Hb & Hp & _). cbn [fst snd] in Hp.
    split; [exact Hb|]. split.
    { apply orb_true_iff in Hp as [Hp|Hp]; [left|right; exact Hp].
      apply bool_decide_eq_true in Hp. exact Hp. }
    split.
    + intros Hc. destruct (decide (status b = CANCELLED)); [exact H|done].
    + intros Hc. destruct (decide (status b = CANCELLED)); [done|].
      exists (response_of bid (set_cancelled b)), (cancelled_tables bid b db),
        (set_cancelled b).
      split; [exact H|]. split; [reflexivity|]. split.
      { unfold cancelled_tables. cbn [Bookings]. apply alter_present. exact Hb. }
      split; [reflexivity|]. split; [reflexivity|]. split.
      { intros f Hf. apply released_flights_lookup. exact Hf. }
      intros w2 Hw2.
      pose proof (cancel_booking_calm text_is_key req (cancelled_tables bid b db) w2 Hw2) as H2.
      rewrite (select_after_cancel _ _ _ _ _ E) in H2.
      destruct (decide (status (set_cancelled b) = CANCELLED)); [exact H2|done].
Qed.

(** ** The tables after a call, in any world *)

Lemma start_booking_tables req db w :
  (start_booking req (db, w)).2.1 = db \/
  exists f, Flights db !! req_flight_id req = Some f /\ 0 < seats_available f /\
    (start_booking req (db, w)).2.1 = held_tables req f db (calm w).
Proof.
  destruct (start_booking req (db, w)) as [[resp|e] [db' w']] eqn:E.
  2: { left. exact (start_booking_raised _ _ _ _ _ E). }
  right. apply faithful_start_booking in E.
  pose proof (start_booking_calm req db (calm w) eq_refl) as H.
  destruct (Flights db !! req_flight_id req) as [f|]; [|congruence].
  destruct (Z.leb_spec (seats_available f) 0); [congruence|].
  destruct (departure_date_time f); [|congruence].
  destruct H as (w2 & _ & H). exists f. split; [reflexivity|]. split; [lia|].
  cbn [fst snd]. congruence.
Qed.

Lemma confirm_payment_tables req db w :
  (confirm_payment req (db, w)).2.1 = db \/
  exists b, Bookings db !! booking_id req = Some b /\ status b = PENDING /\
    ((confirm_payment req (db, w)).2.1 = paid_tables req db (calm w) \/
     (confirm_payment req (db, w)).2.1 = failed_tables req b db (calm w)).
Proof.
  destruct (confirm_payment req (db, w)) as [[resp|e] [db' w']] eqn:E.
  2: { left. exact (confirm_payment_raised _ _ _ _ _ E). }
  right. apply faithful_confirm_payment in E.
  pose proof (confirm_payment_calm req db (calm w) eq_refl) as H.
  destruct (Bookings db !! booking_id req) as [b|]; [|congruence].
  destruct (decide (status b = PENDING)) as [Hp|Hp]; [|congruence].
  destruct H as (w2 & _ & H). exists b. split; [reflexivity|]. split; [exact Hp|].
  cbn [fst snd]. destruct (payment_outcome req (calm w)).1; [left|right]; congruence.
Qed.

Lemma cancel_booking_tables tk req db w :
  (cancel_booking tk req (db, w)).2.1 = db \/
  exists bid b, Bookings db !! bid = Some b /\ status b <> CANCELLED /\
    (cancel_booking tk req (db, w)).2.1 = cancelled_tables bid b db.
Proof.
  destruct (cancel_booking tk req (db, w)) as [[resp|e] [db' w']] eqn:E.
  2: { left. exact (cancel_booking_raised _ _ _ _ _ _ E). }
  right. apply faithful_cancel_booking in E.
  pose proof (cancel_booking_calm tk req db (calm w) eq_refl) as H.
  destruct (select_booking_by_pnr_or_id tk (req_pnr req) db) as [[bid b]|] eqn:Es;
    [|congruence].
  destruct (decide (status b = CANCELLED)) as [Hc|Hc]; [congruence|].
  exists bid, b. unfold select_booking_by_pnr_or_id in Es.
  apply first_row_least in Es as (Hb & _). split; [exact Hb|]. split; [exact Hc|].
  cbn [fst snd]. congruence.
Qed.

(** ** The ledger and the bookings *)

Lemma seat_of_cases fid k b :
  seat_of fid k b = if decide (flight_id b = fid) then
                      (if holds_seat b then 1 else 0) else 0.
Proof.
  unfold seat_of.
  destruct (decide (holds_seat_on fid (k, b))) as [[H1 H2]|Hn]; cbn [snd] in *.
  - rewrite decide_True, H2 by exact H1. reflexivity.
  - destruct (decide (flight_id b = fid)) as [H1|H1]; [|reflexivity].
    destruct (holds_seat b) eqn:H2; [|reflexivity].
    exfalso. apply Hn. split; [exact H1|exact H2].
Qed.

Lemma balanced_hold req f db w :
  Flights db !! req_flight_id req = Some f ->
  ledger_balanced db -> ledger_balanced (held_tables req f db w).
Proof.
  intros Hf Hbal fid f' Hf'. unfold held_tables in *. cbn [Flights Bookings] in *.
  rewrite held_seats_fresh by apply next_key_fresh.
  rewrite seat_of_cases. cbn [held_booking flight_id holds_seat status].
  destruct (decide (req_flight_id req = fid)) as [<-|Hne].
  - rewrite lookup_alter_eq, Hf in Hf'. inversion Hf'; subst. cbn.
    pose proof (Hbal _ _ Hf). lia.
  - rewrite lookup_alter_ne in Hf' by exact Hne. pose proof (Hbal _ _ Hf'). lia.
Qed.

Lemma balanced_keep (g : Booking -> Booking) bid b db :
  Bookings db !! bid = Some b ->
  flight_id (g b) = flight_id b -> holds_seat (g b) = holds_seat b ->
  ledger_balanced db -> ledger_balanced (set_Bookings db (alter g bid (Bookings db))).
Proof.
  intros Hb Hfl Hh Hbal fid f Hf. cbn [set_Bookings Flights Bookings] in *.
  rewrite (held_seats_alter fid bid b g _ Hb), !seat_of_cases, Hfl, Hh.
  pose proof (Hbal _ _ Hf). lia.
Qed.

Lemma balanced_release (g : Booking -> Booking) bid b db ps fh :
  Bookings db !! bid = Some b ->
  flight_id (g b) = flight_id b -> holds_seat b = true -> holds_seat (g b) = false ->
  ledger_balanced db ->
  ledger_balanced (mkDB (released_flights (flight_id b) db) (alter g bid (Bookings db)) ps fh).
Proof.
  intros Hb Hfl Hh Hh' Hbal fid f Hf. cbn [Flights Bookings] in *.
  rewrite (held_seats_alter fid bid b g _ Hb), !seat_of_cases, Hfl, Hh, Hh'.
  unfold released_flights in Hf.
  destruct (decide (flight_id b = fid)) as [<-|Hne].
  - rewrite lookup_alter in Hf. rewrite decide_True in Hf by reflexivity.
    destruct (Flights db !! flight_id b) as [f0|] eqn:Hf0; [|discriminate].
    inversion Hf; subst. cbn. pose proof (Hbal _ _ Hf0). lia.
  - rewrite lookup_alter_ne in Hf by exact Hne. pose proof (Hbal _ _ Hf). lia.
Qed.

Lemma balanced_after tk c w db :
  is_booking_call c = true -> ledger_balanced db -> ledger_balanced (after tk c w db).
Proof.
  intros Hc Hbal. destruct c as [req|req|req|]; [| | |discriminate]; cbn [after].
  - destruct (start_booking_tables req db w) as [->|(f & Hf & _ & ->)]; [exact Hbal|].
    apply balanced_hold; assumption.
  - destruct (confirm_payment_tables req db w) as [->|(b & Hb & Hp & [->| ->])];
      [exact Hbal| |].
    + apply (balanced_keep _ _ b); try assumption; try reflexivity.
      unfold holds_seat. cbn. rewrite Hp. reflexivity.
    + apply balanced_release; try assumption; try reflexivity.
      unfold holds_seat. rewrite Hp. reflexivity.
  - destruct (cancel_booking_tables tk req db w) as [->|(bid & b & Hb & Hs & ->)];
      [exact Hbal|].
    apply balanced_release; try assumption; try reflexivity.
    unfold holds_seat. destruct (status b); [reflexivity|reflexivity|done].
Qed.

(** Calls that do not overlap.  When the seat ledger agrees with the
    bookings, it still does after any sequence of hold, pay and cancel
    calls made one after the other, whatever their requests, results and
    worlds: for every flight, [seats_available] is [total_seats] less the
    number of its PENDING or CONFIRMED bookings. *)
Theorem seats_match_bookings (text_is_key : string -> Z -> bool)
    (calls : list (Call * World)) (db : DB) :
  Forall (fun c => is_booking_call c.1 = true) calls ->
  ledger_balanced db ->
  forall fid f, Flights (after_all text_is_key calls db) !! fid = Some f ->
    seats_available f
    = total_seats f - held_seats fid (Bookings (after_all text_is_key calls db)).
Proof.
  revert db. induction calls as [|[c w] calls IH]; intros db Hcalls Hbal.
  - exact Hbal.
  - inversion Hcalls; subst. cbn [after_all]. apply IH; [assumption|].
    apply balanced_after; assumption.
Qed.

(** ** Seat bounds without the simulator *)

Lemma nonnegative_release fid db bs ps fh :
  seats_nonnegative db -> seats_nonnegative (mkDB (released_flights fid db) bs ps fh).
Proof.
  intros Hn k f Hf. cbn [Flights] in Hf. unfold released_flights in Hf.
  rewrite lookup_alter in Hf. case_decide.
  - destruct (Flights db !! fid) as [f0|] eqn:E; [|discriminate].
    inversion Hf; subst. cbn. pose proof (Hn _ _ E). lia.
  - exact (Hn _ _ Hf).
Qed.

Lemma nonnegative_after tk c w db :
  is_booking_call c = true -> seats_nonnegative db -> seats_nonnegative (after tk c w db).
Proof.
  intros Hc Hn. destruct c as [req|req|req|]; [| | |discriminate]; cbn [after].
  - destruct (start_booking_tables req db w) as [->|(f & Hf & Hs & ->)]; [exact Hn|].
    intros k f' Hf'. unfold held_tables in Hf'. cbn [Flights] in Hf'.
    rewrite lookup_alter in Hf'. case_decide.
    + rewrite Hf in Hf'. inversion Hf'; subst. cbn. lia.
    + exact (Hn _ _ Hf').
  - destruct (confirm_payment_tables req db w) as [->|(b & Hb & Hp & [->| ->])];
      [exact Hn|exact Hn|].
    apply nonnegative_release. exact Hn.
  - destruct (cancel_booking_tables tk req db w) as [->|(bid & b & Hb & Hs & ->)];
      [exact Hn|].
    apply nonnegative_release. exact Hn.
Qed.

Lemma held_seats_nonneg fid t : 0 <= held_seats fid t.
Proof. unfold held_seats. lia. Qed.

(** ** The simulator leaves the bookings alone *)

Lemma bookings_kept_ret {A} (a : A) : bookings_kept (ret a).
Proof. intros db w. reflexivity. Qed.

Lemma bookings_kept_ambient {A} (f : World -> A * World) : bookings_kept (ambient f).
Proof. intros db w. unfold ambient. destruct (f w). reflexivity. Qed.

Lemma bookings_kept_datetime_now : bookings_kept datetime_now.
Proof. intros db w. reflexivity. Qed.

Lemma bookings_kept_execute {A} (stmt : DB -> A * DB) :
  (forall db, Bookings (stmt db).2 = Bookings db) -> bookings_kept (execute stmt).
Proof.
  intros Hs db w. unfold execute. specialize (Hs db).
  destruct (fault_at w) as [[|k]|]; [reflexivity| |]; destruct (stmt db); exact Hs.
Qed.

Lemma bookings_kept_bind {A B} (c : M A) (k : A -> M B) :
  bookings_kept c -> (forall a, bookings_kept (k a)) -> bookings_kept (bind c k).
Proof.
  intros Hc Hk db w. unfold bind. specialize (Hc db w).
  destruct (c (db, w)) as [[a|e] [db1 w1]]; cbn [fst snd] in *; [|exact Hc].
  rewrite (Hk a db1 w1). exact Hc.
Qed.

Lemma bookings_kept_simulate_flight f : bookings_kept (simulate_flight f).
Proof.
  unfold simulate_flight.
  repeat first
    [ apply bookings_kept_bind; [|intros ?]
    | apply bookings_kept_ambient
    | apply bookings_kept_datetime_now
    | apply bookings_kept_execute; intros db; reflexivity ].
Qed.

Lemma bookings_kept_for_each {A} (l : list A) (body : A -> M unit) :
  (forall x, bookings_kept (body x)) -> bookings_kept (for_each l body).
Proof.
  intros Hb. induction l as [|x l IH]; cbn [for_each].
  - apply bookings_kept_ret.
  - apply bookings_kept_bind; [apply Hb|intros _; exact IH].
Qed.

Lemma bookings_kept_transaction {A} (body : M A) :
  bookings_kept body -> bookings_kept (transaction body).
Proof.
  intros Hb db w. unfold transaction.
  assert (Hin : bookings_kept (do a <- body; run query (fun _ => tt); ret a)).
  { apply bookings_kept_bind; [exact Hb|intros a].
    apply bookings_kept_bind; [|intros _; apply bookings_kept_ret].
    apply bookings_kept_execute. reflexivity. }
  specialize (Hin db w).
  destruct (bind body _ (db, w)) as [[a|e] [db1 w1]]; [exact Hin|reflexivity].
Qed.

Lemma bookings_kept_simulate_tick : bookings_kept simulate_tick.
Proof.
  intros db w. unfold simulate_tick, try_except.
  pose proof (bookings_kept_transaction
    (do flights <- query select_all_flights; for_each flights simulate_flight)) as H.
  assert (Hb : bookings_kept
    (do flights <- query select_all_flights; for_each flights simulate_flight)).
  { apply bookings_kept_bind; [apply bookings_kept_execute; reflexivity|intros l].
    apply bookings_kept_for_each. apply bookings_kept_simulate_flight. }
  specialize (H Hb db w).
  destruct (transaction _ (db, w)) as [[a|e] [db1 w1]]; exact H.
Qed.

(** ** Confirmation codes and statuses *)

Lemma codes_insert db bid b t :
  codes_consistent db -> code_consistent b ->
  Bookings t = <[bid := b]> (Bookings db) -> codes_consistent t.
Proof.
  intros Hc Hb Ht k b' Hk. rewrite Ht in Hk.
  destruct (decide (bid = k)) as [->|Hne].
  - rewrite lookup_insert_eq in Hk. inversion Hk; subst. exact Hb.
  - rewrite lookup_insert_ne in Hk by exact Hne. exact (Hc _ _ Hk).
Qed.

Lemma codes_after tk c w db : codes_consistent db -> codes_consistent (after tk c w db).
Proof.
  intros Hc. destruct c as [req|req|req|]; cbn [after].
  - destruct (start_booking_tables req db w) as [->|(f & Hf & _ & ->)]; [exact Hc|].
    eapply codes_insert; [exact Hc| |reflexivity].
    unfold code_consistent, held_booking. cbn. split; [discriminate|]. split; [reflexivity|].
    split; [intros [x Hx]|]; discriminate.
  - destruct (confirm_payment_tables req db w) as [->|(b & Hb & Hp & [->| ->])];
      [exact Hc| |].
    + eapply codes_insert; [exact Hc| |].
      2: { unfold paid_tables. cbn [Bookings set_Bookings]. apply alter_present. exact Hb. }
      unfold code_consistent. cbn. split; [eauto|]. split; [discriminate|]. split; eauto.
    + eapply codes_insert; [exact Hc| |].
      2: { unfold failed_tables. cbn [Bookings]. apply alter_present. exact Hb. }
      destruct (Hc _ _ Hb) as (_ & Hnone & _). specialize (Hnone Hp).
      unfold code_consistent. cbn. rewrite Hnone.
      split; [discriminate|]. split; [discriminate|]. split; [intros [x Hx]|]; discriminate.
  - destruct (cancel_booking_tables tk req db w) as [->|(bid & b & Hb & Hs & ->)];
      [exact Hc|].
    eapply codes_insert; [exact Hc| |].
    2: { unfold cancelled_tables. cbn [Bookings]. apply alter_present. exact Hb. }
    destruct (Hc _ _ Hb) as (_ & _ & Hiff).
    unfold code_consistent. cbn. split; [discriminate|]. split; [discriminate|exact Hiff].
  - intros bid b Hb. rewrite bookings_kept_simulate_tick in Hb. exact (Hc _ _ Hb).
Qed.

(** Calls that do not overlap.  In every state reached by hold, pay,
    cancel and simulator calls made one after the other, from tables where
    it holds, a CONFIRMED booking has a confirmation code, a PENDING
    booking has none, and a booking has a code exactly when its payment
    status is PAID. *)
Theorem codes_follow_payment (text_is_key : string -> Z -> bool)
    (calls : list (Call * World)) (db : DB) :
  codes_consistent db ->
  forall bid b, Bookings (after_all text_is_key calls db) !! bid = Some b ->
    (status b = CONFIRMED -> is_Some (pnr b)) /\
    (status b = PENDING -> pnr b = None) /\
    (is_Some (pnr b) <-> payment_status b = PAID).
Proof.
  revert db. induction calls as [|[c w] calls IH]; intros db Hc.
  - exact Hc.
  - cbn [after_all]. apply IH. apply codes_after. exact Hc.
Qed.

(** ** Pricing *)


























Lemma digits2_pos_lower m : 2 ^ (Z.pos (digits2_pos m) - 1) <= Z.pos m.
Proof.
  induction m as [m IH|m IH|]; cbn [digits2_pos]; [| |reflexivity].
  - rewrite Pos2Z.inj_succ. replace (Z.succ (Z.pos (digits2_pos m)) - 1)
      with (Z.succ (Z.pos (digits2_pos m) - 1)) by lia.
    rewrite Z.pow_succ_r by lia. lia.
  - rewrite Pos2Z.inj_succ. replace (Z.succ (Z.pos (digits2_pos m)) - 1)
      with (Z.succ (Z.pos (digits2_pos m) - 1)) by lia.
    rewrite Z.pow_succ_r by lia. lia.
Qed.

(** The mantissa of a normal binary64 value has 53 bits. *)
Lemma normal_mantissa (x : float) s m e :
  Prim2SF x = S754_finite s m e -> -1074 < e -> 4503599627370496 <= Z.pos m.
Proof.
  intros Hx He. pose proof (Prim2SF_valid x) as Hv. rewrite Hx in Hv.
  unfold valid_binary, bounded, canonical_mantissa, fexp, emin in Hv.
  apply andb_true_iff in Hv as [Hc _]. apply Z.eqb_eq in Hc.
  change (3 - emax - prec) with (-1074) in Hc. change prec with 53 in Hc.
  assert (Hd : Z.pos (digits2_pos m) = 53) by lia.
  pose proof (digits2_pos_lower m) as Hl. rewrite Hd in Hl.
  change (2 ^ (53 - 1)) with 4503599627370496 in Hl. exact Hl.
Qed.




























(** C9 (as amended): with an explicit demand signal, the price is fixed by
    the arguments and by what the wall clock reads when the function runs:
    two calls in worlds whose clocks agree return the same price, whatever
    the state of the random module, which is left untouched.  The clock is
    ambient: the function takes no [now] argument. *)
Theorem price_fixed_by_arguments_and_clock (base : float) (seats total : Z)
    (departure : datetime) (demand : float) (w1 w2 : World) :
  clock w1 = clock w2 ->
  (calculate_dynamic_price base seats total departure (Some demand) w1).1
  = (calculate_dynamic_price base seats total departure (Some demand) w2).1
  /\ (calculate_dynamic_price base seats total departure (Some demand) w1).2 = w1.
Proof.
  intros H. unfold calculate_dynamic_price. cbn [fst snd]. rewrite H. split; reflexivity.
Qed.

(** ** Seat bounds *)

Lemma nonnegative_kept_ret {A} (a : A) : nonnegative_kept (ret a).
Proof. intros db w H. exact H. Qed.

Lemma nonnegative_kept_ambient {A} (f : World -> A * World) : nonnegative_kept (ambient f).
Proof. intros db w H. unfold ambient. destruct (f w). exact H. Qed.

Lemma nonnegative_kept_datetime_now : nonnegative_kept datetime_now.
Proof. intros db w H. exact H. Qed.

Lemma nonnegative_kept_execute {A} (stmt : DB -> A * DB) :
  (forall db, seats_nonnegative db -> seats_nonnegative (stmt db).2) ->
  nonnegative_kept (execute stmt).
Proof.
  intros Hs db w H. unfold execute. specialize (Hs db H).
  destruct (fault_at w) as [[|k]|]; [exact H| |]; destruct (stmt db); exact Hs.
Qed.

Lemma nonnegative_kept_bind {A B} (c : M A) (k : A -> M B) :
  nonnegative_kept c -> (forall a, nonnegative_kept (k a)) -> nonnegative_kept (bind c k).
Proof.
  intros Hc Hk db w H. unfold bind. specialize (Hc db w H).
  destruct (c (db, w)) as [[a|e] [db1 w1]]; cbn [fst snd] in *; [|exact Hc].
  exact (Hk a db1 w1 Hc).
Qed.

Lemma nonnegative_update_seats_to s fid db :
  0 <= s -> seats_nonnegative db -> seats_nonnegative (update_seats_to s fid db).2.
Proof.
  intros Hs Hn k f Hf. cbn [update_seats_to snd set_Flights Flights] in Hf.
  rewrite lookup_alter in Hf. case_decide.
  - destruct (Flights db !! fid) as [f0|]; [|discriminate]. inversion Hf; subst. exact Hs.
  - exact (Hn _ _ Hf).
Qed.

Lemma nonnegative_kept_simulate_flight f : nonnegative_kept (simulate_flight f).
Proof.
  unfold simulate_flight.
  apply nonnegative_kept_bind; [apply nonnegative_kept_ambient|intros change].
  apply nonnegative_kept_bind.
  { apply nonnegative_kept_execute. intros db. apply nonnegative_update_seats_to. lia. }
  intros _.
  repeat first
    [ apply nonnegative_kept_bind; [|intros ?]
    | apply nonnegative_kept_ambient
    | apply nonnegative_kept_datetime_now
    | apply nonnegative_kept_execute; intros db H; exact H ].
Qed.

Lemma nonnegative_kept_for_each {A} (l : list A) (body : A -> M unit) :
  (forall x, nonnegative_kept (body x)) -> nonnegative_kept (for_each l body).
Proof.
  intros Hb. induction l as [|x l IH]; cbn [for_each].
  - apply nonnegative_kept_ret.
  - apply nonnegative_kept_bind; [apply Hb|intros _; exact IH].
Qed.

Lemma nonnegative_kept_simulate_tick : nonnegative_kept simulate_tick.
Proof.
  intros db w H. unfold simulate_tick, try_except, transaction.
  match goal with
  | |- context [bind ?body ?commit (db, w)] =>
      assert (Hin : nonnegative_kept (bind body commit))
  end.
  { apply nonnegative_kept_bind.
    - apply nonnegative_kept_bind.
      + apply nonnegative_kept_execute. intros d Hd. exact Hd.
      + intros l. apply nonnegative_kept_for_each. apply nonnegative_kept_simulate_flight.
    - intros a. apply nonnegative_kept_bind; [|intros _; apply nonnegative_kept_ret].
      apply nonnegative_kept_execute. intros d Hd. exact Hd. }
  specialize (Hin db w H).
  destruct (bind _ _ (db, w)) as [[a|e] [db1 w1]]; [exact Hin|exact H].
Qed.

Lemma nonnegative_after_any tk c w db :
  seats_nonnegative db -> seats_nonnegative (after tk c w db).
Proof.
  intros Hn. destruct c as [req|req|req|].
  - apply (nonnegative_after tk (Hold req)); [reflexivity|exact Hn].
  - apply (nonnegative_after tk (Pay req)); [reflexivity|exact Hn].
  - apply (nonnegative_after tk (Cancel req)); [reflexivity|exact Hn].
  - cbn [after]. exact (nonnegative_kept_simulate_tick db w Hn).
Qed.

Lemma nonnegative_after_all tk calls db :
  seats_nonnegative db -> seats_nonnegative (after_all tk calls db).
Proof.
  revert db. induction calls as [|[c w] calls IH]; intros db Hn; [exact Hn|].
  cbn [after_all]. apply IH. apply nonnegative_after_any. exact Hn.
Qed.

Lemma balanced_after_all tk calls db :
  Forall (fun c => is_booking_call c.1 = true) calls ->
  ledger_balanced db -> ledger_balanced (after_all tk calls db).
Proof.
  revert db. induction calls as [|[c w] calls IH]; intros db Hcalls Hbal; [exact Hbal|].
  inversion Hcalls; subst. cbn [after_all]. apply IH; [assumption|].
  apply balanced_after; assumption.
Qed.

(** Calls that do not overlap.  From tables with no negative seat count,
    no sequence of hold, pay, cancel and simulator calls made one after the
    other makes a seat count negative; and from tables where the ledger
    agrees with the bookings, every such sequence of hold, pay and cancel
    calls keeps every seat count within the capacity of its flight. *)
Theorem seats_within_bounds (text_is_key : string -> Z -> bool)
    (calls : list (Call * World)) (db : DB) :
  seats_nonnegative db ->
  (forall fid f, Flights (after_all text_is_key calls db) !! fid = Some f ->
     0 <= seats_available f) /\
  (Forall (fun c => is_booking_call c.1 = true) calls -> ledger_balanced db ->
   forall fid f, Flights (after_all text_is_key calls db) !! fid = Some f ->
     seats_available f <= total_seats f).
Proof.
  intros Hn. split; [exact (nonnegative_after_all _ _ _ Hn)|].
  intros Hcalls Hbal fid f Hf.
  pose proof (balanced_after_all text_is_key calls db Hcalls Hbal fid f Hf).
  pose proof (held_seats_nonneg fid (Bookings (after_all text_is_key calls db))). lia.
Qed.

(** ** The simulator under a fault *)

Lemma bind_execute_fault_now {A B} (stmt : DB -> A * DB) (k : A -> M B) db w :
  fault_at w = Some O ->
  bind (execute stmt) k (db, w) = (Raised DBAPIError, (db, after_fault w)).
Proof. intros H. unfold bind, execute. rewrite H. reflexivity. Qed.

Lemma bind_execute_fault_later {A B} (stmt : DB -> A * DB) (k : A -> M B) db w n :
  fault_at w = Some (S n) ->
  bind (execute stmt) k (db, w) = k (stmt db).1 ((stmt db).2, with_fault w (Some n)).
Proof. intros H. unfold bind, execute. rewrite H. destruct (stmt db). reflexivity. Qed.

Lemma execute_fault_now {A} (stmt : DB -> A * DB) db w :
  fault_at w = Some O -> execute stmt (db, w) = (Raised DBAPIError, (db, after_fault w)).
Proof. intros H. unfold execute. rewrite H. reflexivity. Qed.

Lemma execute_fault_later {A} (stmt : DB -> A * DB) db w n :
  fault_at w = Some (S n) ->
  execute stmt (db, w) = (Return (stmt db).1, ((stmt db).2, with_fault w (Some n))).
Proof. intros H. unfold execute. rewrite H. destruct (stmt db). reflexivity. Qed.

Lemma simulate_flight_fault f db w k :
  fault_at w = Some k ->
  match simulate_flight f (db, w) with
  | (Raised _, _) => (k < 2)%nat
  | (Return _, (_, w')) => (2 <= k)%nat /\ fault_at w' = Some (k - 2)%nat
  end.
Proof.
  intros Hw. unfold simulate_flight. rewrite bind_ambient.
  set (w1 := (random_choice (-3) [-2; -1; 0; 1; 2] w).2).
  assert (Hw1 : fault_at w1 = Some k).
  { unfold w1. rewrite fault_blind_fault_at by auto with blind. exact Hw. }
  destruct k as [|k].
  { rewrite bind_execute_fault_now by exact Hw1. lia. }
  rewrite (bind_execute_fault_later _ _ _ _ k) by exact Hw1.
  rewrite bind_ambient, bind_datetime_now, bind_ambient.
  match goal with
  | |- context [execute ?stmt (?d, ?w2)] =>
      assert (Hw2 : fault_at w2 = Some k);
      [ rewrite !fault_blind_fault_at by auto with blind; reflexivity
      | destruct k as [|k];
        [ rewrite execute_fault_now by exact Hw2; lia
        | rewrite (execute_fault_later _ _ _ k) by exact Hw2 ] ]
  end.
  cbn [fst snd fault_at with_fault]. split; [lia|]. f_equal. lia.
Qed.

Lemma for_each_fault l db w k :
  fault_at w = Some k ->
  match for_each l simulate_flight (db, w) with
  | (Raised _, _) => (k < 2 * length l)%nat
  | (Return _, (_, w')) => (2 * length l <= k)%nat /\ fault_at w' = Some (k - 2 * length l)%nat
  end.
Proof.
  revert db w k. induction l as [|f l IH]; intros db w k Hw; cbn [for_each length].
  - cbn. split; [lia|]. rewrite Hw. f_equal. lia.
  - unfold bind. pose proof (simulate_flight_fault f db w k Hw) as Hf.
    destruct (simulate_flight f (db, w)) as [[[]|e] [db1 w1]]; [|lia].
    destruct Hf as [Hk Hw1]. specialize (IH db1 w1 _ Hw1).
    destruct (for_each l simulate_flight (db1, w1)) as [[[]|e] [db2 w2]]; [|lia].
    destruct IH as [Hk2 Hw2]. split; [lia|]. rewrite Hw2. f_equal. lia.
Qed.

Lemma length_rows {V} (t : gmap Z V) : length (rows t) = size t.
Proof.
  unfold rows. rewrite (Permutation_length (merge_sort_Permutation _ _)).
  apply length_map_to_list.
Qed.

Lemma simulate_tick_fault db w k :
  fault_at w = Some k -> (k < 2 * size (Flights db) + 2)%nat ->
  exists w', simulate_tick (db, w) = (Return tt, (db, w')).
Proof.
  intros Hw Hk. unfold simulate_tick, try_except, transaction.
  match goal with
  | |- context [bind ?body ?commit (db, w)] =>
      assert (Hr : exists e s, bind body commit (db, w) = (Raised e, s))
  end.
  { destruct k as [|k].
    { unfold bind at 1. unfold query at 1. rewrite bind_execute_fault_now by exact Hw.
      eauto. }
    unfold bind at 1. unfold query at 1.
    rewrite (bind_execute_fault_later _ _ _ _ k) by exact Hw. cbn [fst snd].
    pose proof (for_each_fault (select_all_flights db) db (with_fault w (Some k)) k eq_refl)
      as Hf.
    unfold select_all_flights in *. rewrite length_rows in Hf.
    destruct (for_each _ simulate_flight _) as [[[]|e] [db1 w1]]; [|eauto].
    destruct Hf as [Hge Hw1].
    assert (Hz : fault_at w1 = Some O) by (rewrite Hw1; f_equal; lia).
    unfold query. rewrite bind_execute_fault_now by exact Hz. eauto. }
  destruct Hr as (e & [db1 w1] & ->). eauto.
Qed.

(** C10 (as amended): when the driver faults at any statement of a tick
    of the simulator (the read of the flights, the two statements of any
    flight, or the commit), the tick ends without an exception, none of
    its seat changes or fare-history appends is kept (the tables are those
    before the tick), and [simulate_market] goes on with its next tick. *)
Theorem tick_failure_rolls_back (db : DB) (w : World) (k : nat) (ticks : list World) :
  fault_at w = Some k -> (k < 2 * size (Flights db) + 2)%nat ->
  (exists w', simulate_tick (db, w) = (Return tt, (db, w'))) /\
  simulate_market (w :: ticks) db = simulate_market ticks db.
Proof.
  intros Hw Hk. destruct (simulate_tick_fault db w k Hw Hk) as [w' H].
  split; [exists w'; exact H|]. cbn [simulate_market]. rewrite H. reflexivity.
Qed.

(** ** Traces on the example data *)

(** The example flight has two seats, one of them held.  The booking is
    paid for, a tick of the simulator raises the count of available seats
    to two, and the booking is cancelled: the flight then has three seats
    available out of two. *)
Lemma release_exceeds_capacity :
  ~ (forall fid f,
       Flights (after_all decimal_key release_after_tick example_held_db) !! fid = Some f ->
       0 <= seats_available f <= total_seats f).
Proof.
  intros H.
  assert (E : exists f,
    Flights (after_all decimal_key release_after_tick example_held_db) !! 1 = Some f /\
    total_seats f = 2 /\ seats_available f = 3).
  { eexists. split; [vm_compute; reflexivity|]. split; reflexivity. }
  destruct E as (f & Hf & Ht & Hs). specialize (H 1 f Hf). lia.
Qed.

(** Behind a driver that decodes aware datetimes, two holds take the two
    seats; the failed payment of the first gives one back, the second
    booking is confirmed with a six-character code. *)
Example two_holds_scenario :
  seats_available <$> Flights (after_all decimal_key two_holds aware_db) !! 1 = Some 1 /\
  status <$> Bookings (after_all decimal_key two_holds aware_db) !! 1 = Some CANCELLED /\
  status <$> Bookings (after_all decimal_key two_holds aware_db) !! 2 = Some CONFIRMED /\
  pnr <$> Bookings (after_all decimal_key two_holds aware_db) !! 2 = Some (Some "4BIPW3").
Proof. vm_compute. repeat split. Qed.

Lemma example_db_balanced : ledger_balanced example_db.
Proof.
  intros fid f H. unfold example_db in H. cbn [Flights] in H.
  apply lookup_singleton_Some in H as [<- <-]. reflexivity.
Qed.

Lemma example_db_codes : codes_consistent example_db.
Proof. intros bid b H. unfold example_db in H. cbn [Bookings] in H. by rewrite lookup_empty in H. Qed.

Lemma example_db_nonnegative : seats_nonnegative example_db.
Proof.
  intros fid f H. unfold example_db in H. cbn [Flights] in H.
  apply lookup_singleton_Some in H as [<- <-]. cbn. lia.
Qed.

Lemma example_held_lookup : Bookings example_held_db !! 1 = Some example_held_booking.
Proof. vm_compute. reflexivity. Qed.

Lemma example_cancel_lookup :
  select_booking_by_pnr_or_id decimal_key "1" example_held_db
  = Some (1, example_held_booking).
Proof. vm_compute. reflexivity. Qed.

(** After the payment of the held booking and its cancellation, the
    booking is CANCELLED and still carries its confirmation code. *)
Lemma cancelled_booking_keeps_code :
  ~ (forall bid b,
       Bookings (after_all decimal_key cancel_after_payment example_held_db) !! bid = Some b ->
       (is_Some (pnr b) <-> status b = CONFIRMED)).
Proof.
  intros H.
  assert (E : exists b,
    Bookings (after_all decimal_key cancel_after_payment example_held_db) !! 1 = Some b /\
    status b = CANCELLED /\ is_Some (pnr b)).
  { eexists. split; [vm_compute; reflexivity|]. split; [reflexivity|]. eexists. reflexivity. }
  destruct E as (b & Hb & Hs & Hp). apply (H 1 b Hb) in Hp. congruence.
Qed.


(** The same explicit arguments give 900 ten days before the departure and
    1550 one hour before it. *)
Lemma price_depends_on_ambient_clock :
  (calculate_dynamic_price 1000 50 100 (timedelta_days 10) (Some 0%float)
     (constant_world 0 None)).1
  <> (calculate_dynamic_price 1000 50 100 (timedelta_days 10) (Some 0%float) late_world).1.
Proof.
  intros H. apply (f_equal (fun x => (x <? 1000)%float)) in H.
  vm_compute in H. discriminate.
Qed.

Lemma price_fixed_by_arguments_and_clock_witness :
  (calculate_dynamic_price 1000 50 100 (timedelta_days 10) (Some 0%float)
     (constant_world 0 None)).1
  = (calculate_dynamic_price 1000 50 100 (timedelta_days 10) (Some 0%float)
       (constant_world 7 (Some 3%nat))).1
  /\ (calculate_dynamic_price 1000 50 100 (timedelta_days 10) (Some 0%float)
        (constant_world 0 None)).2 = constant_world 0 None.
Proof.
  apply (price_fixed_by_arguments_and_clock 1000 50 100 (timedelta_days 10) 0%float
           (constant_world 0 None) (constant_world 7 (Some 3%nat))).
  reflexivity.
Defined.

(** The driver faults at the update of flight 2, in a tick that takes one
    seat off every flight when nothing fails: flight 3 is not updated, and
    the seat change and the fare-history row of flight 1 are gone. *)
Lemma tick_failure_skips_other_flights :
  (seats_available <$> Flights (simulate_tick (three_flights, constant_world 2 None)).2.1 !! 1
   = Some 4 /\
   seats_available <$> Flights (simulate_tick (three_flights, constant_world 2 None)).2.1 !! 3
   = Some 4 /\
   length (FareHistory (simulate_tick (three_flights, constant_world 2 None)).2.1) = 3%nat)
  /\
  (seats_available <$>
     Flights (simulate_tick (three_flights, constant_world 2 (Some 3%nat))).2.1 !! 1
   = Some 5 /\
   seats_available <$>
     Flights (simulate_tick (three_flights, constant_world 2 (Some 3%nat))).2.1 !! 3
   = Some 5 /\
   FareHistory (simulate_tick (three_flights, constant_world 2 (Some 3%nat))).2.1 = []).
Proof. vm_compute. repeat split. Qed.

Lemma tick_failure_rolls_back_witness :
  (exists w', simulate_tick (three_flights, constant_world 2 (Some 3%nat))
              = (Return tt, (three_flights, w'))) /\
  simulate_market [constant_world 2 (Some 3%nat); constant_world 2 None] three_flights
  = simulate_market [constant_world 2 None] three_flights.
Proof.
  apply (tick_failure_rolls_back three_flights (constant_world 2 (Some 3%nat)) 3
           [constant_world 2 None]).
  - reflexivity.
  - vm_compute. lia.
Defined.

(** * Further properties of the code *)

(** ** Calls that return, in any world *)

Lemma start_booking_returned req db w resp db' w' :
  start_booking req (db, w) = (Return resp, (db', w')) ->
  exists f, Flights db !! req_flight_id req = Some f /\ 0 < seats_available f /\
    resp = held_response req f db (calm w) /\ db' = held_tables req f db (calm w).
Proof.
  intros E. apply faithful_start_booking in E.
  pose proof (start_booking_calm req db (calm w) eq_refl) as H.
  destruct (Flights db !! req_flight_id req) as [f|]; [|congruence].
  destruct (Z.leb_spec (seats_available f) 0); [congruence|].
  destruct (departure_date_time f); [|congruence].
  destruct H as (w2 & _ & H). exists f. split; [reflexivity|]. split; [lia|].
  split; congruence.
Qed.

Lemma confirm_payment_returned req db w resp db' w' :
  confirm_payment req (db, w) = (Return resp, (db', w')) ->
  exists b, Bookings db !! booking_id req = Some b /\ status b = PENDING /\
    (((payment_outcome req (calm w)).1 = true /\
      resp = response_of (booking_id req)
               (set_confirmed (issued_pnr req (calm w)) (server_clock w) b) /\
      db' = paid_tables req db (calm w)) \/
     ((payment_outcome req (calm w)).1 = false /\
      resp = response_of (booking_id req) (set_payment_failed (server_clock w) b) /\
      db' = failed_tables req b db (calm w))).
Proof.
  intros E. apply faithful_confirm_payment in E.
  pose proof (confirm_payment_calm req db (calm w) eq_refl) as H.
  destruct (Bookings db !! booking_id req) as [b|]; [|congruence].
  destruct (decide (status b = PENDING)) as [Hp|Hp]; [|congruence].
  destruct H as (w2 & _ & H). change (server_clock (calm w)) with (server_clock w) in H.
  exists b. split; [reflexivity|]. split; [exact Hp|].
  destruct (payment_outcome req (calm w)).1; [left|right];
    (split; [reflexivity|]); split; congruence.
Qed.

Lemma cancel_booking_returned tk req db w resp db' w' :
  cancel_booking tk req (db, w) = (Return resp, (db', w')) ->
  exists bid b, select_booking_by_pnr_or_id tk (req_pnr req) db = Some (bid, b) /\
    Bookings db !! bid = Some b /\ status b <> CANCELLED /\
    resp = response_of bid (set_cancelled b) /\ db' = cancelled_tables bid b db.
Proof.
  intros E. apply faithful_cancel_booking in E.
  pose proof (cancel_booking_calm tk req db (calm w) eq_refl) as H.
  destruct (select_booking_by_pnr_or_id tk (req_pnr req) db) as [[bid b]|] eqn:Es;
    [|congruence].
  destruct (decide (status b = CANCELLED)) as [Hc|Hc]; [congruence|].
  exists bid, b. split; [reflexivity|].
  unfold select_booking_by_pnr_or_id in Es.
  apply first_row_least in Es as (Hb & _). split; [exact Hb|]. split; [exact Hc|].
  split; congruence.
Qed.

(** ** Confirmation codes of any length *)

Lemma random_choices_world {A} (x : A) pop k w :
  (random_choices x pop k w).2
  = mkWorld (clock w) (server_clock w) (entropy w) (cursor w + k) (fault_at w)
      (later_faults w).
Proof.
  revert w. induction k as [|k IH]; intros w; cbn [random_choices].
  - destruct w. cbn. f_equal. lia.
  - unfold random_choice at 1, draw at 1. cbn zeta. cbv beta iota.
    specialize (IH (advance w)).
    destruct (random_choices x pop k (advance w)) as [cs w2]. cbn [snd] in *.
    rewrite IH. cbn. f_equal. lia.
Qed.

(** X1: [generate_pnr] called with any length [n] returns a string of
    exactly [n] characters, each an uppercase letter or a digit; it takes
    [n] outputs of the random generator and touches nothing else of the
    world. *)
Theorem generate_pnr_shape (n : nat) (w : World) :
  String.length (generate_pnr n w).1 = n /\
  Forall (fun c => is_upper_alnum c = true) (list_ascii_of_string (generate_pnr n w).1) /\
  (generate_pnr n w).2
  = mkWorld (clock w) (server_clock w) (entropy w) (cursor w + n) (fault_at w)
      (later_faults w).
Proof.
  unfold generate_pnr.
  destruct (random_choices_spec "A"%char (tail Py.ascii_uppercase_digits) n w) as [Hl Hall].
  pose proof (random_choices_world "A"%char (tail Py.ascii_uppercase_digits) n w) as Hw.
  destruct (random_choices _ _ n w) as [cs w']. cbn [fst snd] in *.
  rewrite length_string_of_list_ascii, list_ascii_of_string_of_list_ascii.
  split; [exact Hl|]. split; [|exact Hw].
  eapply Forall_impl; [exact Hall|]. intros c Hc. cbv beta in Hc.
  assert (Hpop : Forall (fun c => is_upper_alnum c = true)
                   ("A"%char :: tail Py.ascii_uppercase_digits)).
  { vm_compute. repeat constructor. }
  rewrite Forall_forall in Hpop. exact (Hpop c Hc).
Qed.

(** ** Lookup by confirmation code *)

Lemma get_booking_by_pnr_calm code db w :
  fault_at w = None ->
  get_booking_by_pnr code (db, w) =
  match select_booking_by_pnr code db with
  | None => (Raised (HTTPException 404 "Booking not found"), (db, w))
  | Some (bid, b) => (Return (response_of bid b), (db, w))
  end.
Proof.
  intros Hw. unfold get_booking_by_pnr. rewrite bind_query_ok by exact Hw.
  destruct (select_booking_by_pnr code db) as [[bid b]|]; reflexivity.
Qed.

Lemma get_booking_by_pnr_tables code db w : (get_booking_by_pnr code (db, w)).2.1 = db.
Proof.
  unfold get_booking_by_pnr, bind, query, execute.
  destruct (fault_at w) as [[|k]|]; cbn; try reflexivity;
    destruct (select_booking_by_pnr code db) as [[bid b]|]; reflexivity.
Qed.

Lemma get_booking_by_pnr_returned code db w resp s' :
  get_booking_by_pnr code (db, w) = (Return resp, s') ->
  exists bid b, select_booking_by_pnr code db = Some (bid, b) /\ resp = response_of bid b.
Proof.
  unfold get_booking_by_pnr, bind, query, execute.
  destruct (fault_at w) as [[|k]|]; cbn; try discriminate;
    destruct (select_booking_by_pnr code db) as [[bid b]|]; cbn; try discriminate;
    intros H; inversion H; eauto.
Qed.

Lemma select_booking_by_pnr_least code db bid b :
  select_booking_by_pnr code db = Some (bid, b) ->
  Bookings db !! bid = Some b /\ pnr b = Some code /\
  forall k v, Bookings db !! k = Some v -> pnr v = Some code -> bid <= k.
Proof.
  unfold select_booking_by_pnr. intros H.
  apply first_row_least in H as (Hb & Hp & Hmin).
  split; [exact Hb|]. split; [exact (bool_decide_eq_true_1 _ Hp)|].
  intros k v Hk Hv. apply (Hmin k v Hk). apply bool_decide_eq_true_2. exact Hv.
Qed.

Lemma select_booking_by_pnr_some code db k v :
  Bookings db !! k = Some v -> pnr v = Some code ->
  exists bid b, select_booking_by_pnr code db = Some (bid, b) /\ bid <= k.
Proof.
  intros Hk Hv. destruct (select_booking_by_pnr code db) as [[bid b]|] eqn:E.
  - exists bid, b. split; [reflexivity|].
    apply select_booking_by_pnr_least in E as (_ & _ & Hmin). exact (Hmin _ _ Hk Hv).
  - unfold select_booking_by_pnr in E.
    pose proof (first_row_None _ _ _ _ E Hk) as Hf. cbn [snd] in Hf.
    apply bool_decide_eq_false_1 in Hf. contradiction.
Qed.

(** X2: [get_booking_by_pnr] answers 404 "Booking not found" when no
    booking carries the code; otherwise it returns the booking with the
    least id among those that carry it, with all its columns (the driver
    not faulting); and it never changes the tables, in any world. *)
Theorem get_booking_by_pnr_contract (code : string) (db : DB) (w : World) :
  (fault_at w = None ->
     ((forall bid b, Bookings db !! bid = Some b -> pnr b <> Some code) ->
        get_booking_by_pnr code (db, w) =
        (Raised (HTTPException 404 "Booking not found"), (db, w)))
     /\ (forall k v, Bookings db !! k = Some v -> pnr v = Some code ->
        exists bid b,
          get_booking_by_pnr code (db, w) = (Return (response_of bid b), (db, w)) /\
          Bookings db !! bid = Some b /\ pnr b = Some code /\ bid <= k /\
          forall k' v', Bookings db !! k' = Some v' -> pnr v' = Some code -> bid <= k'))
  /\ (get_booking_by_pnr code (db, w)).2.1 = db.
Proof.
  split; [|apply get_booking_by_pnr_tables].
  intros Hw. rewrite (get_booking_by_pnr_calm code db w Hw). split.
  - intros Hnone. destruct (select_booking_by_pnr code db) as [[bid b]|] eqn:E; [|reflexivity].
    apply select_booking_by_pnr_least in E as (Hb & Hp & _).
    destruct (Hnone _ _ Hb Hp).
  - intros k v Hk Hv.
    destruct (select_booking_by_pnr_some code db k v Hk Hv) as (bid & b & E & Hle).
    rewrite E. exists bid, b. split; [reflexivity|].
    apply select_booking_by_pnr_least in E as (Hb & Hp & Hmin).
    repeat split; assumption.
Qed.

Lemma example_paid_lookup :
  Bookings example_paid_db !! 2
  = Some (mkBooking 1 1 "2B" CONFIRMED (Some "4BIPW3"%string) (Some 2550%float) PAID 0).
Proof. vm_compute. reflexivity. Qed.

Lemma get_booking_by_pnr_contract_witness :
  exists bid b,
    get_booking_by_pnr "4BIPW3" (example_paid_db, example_world)
    = (Return (response_of bid b), (example_paid_db, example_world)) /\
    Bookings example_paid_db !! bid = Some b /\ pnr b = Some "4BIPW3"%string /\ bid <= 2 /\
    forall k' v', Bookings example_paid_db !! k' = Some v' ->
      pnr v' = Some "4BIPW3"%string -> bid <= k'.
Proof.
  exact (proj2 (proj1 (get_booking_by_pnr_contract "4BIPW3" example_paid_db example_world)
                  eq_refl) 2 _ example_paid_lookup eq_refl).
Defined.

Lemma lookup_paid_tables req db w b :
  Bookings db !! booking_id req = Some b ->
  Bookings (paid_tables req db w)
  = <[booking_id req := set_confirmed (issued_pnr req w) (server_clock w) b]> (Bookings db).
Proof. intros Hb. unfold paid_tables. cbn [Bookings set_Bookings]. by apply alter_present. Qed.

Lemma confirm_payment_paid req db w b :
  fault_at w = None -> Bookings db !! booking_id req = Some b -> status b = PENDING ->
  (payment_outcome req w).1 = true ->
  exists w', fault_at w' = None /\
    confirm_payment req (db, w)
    = (Return (response_of (booking_id req) (set_confirmed (issued_pnr req w) (server_clock w) b)),
       (paid_tables req db w, w')).
Proof.
  intros Hw Hb Hp Hs. pose proof (confirm_payment_calm req db w Hw) as H.
  rewrite Hb in H. destruct (decide (status b = PENDING)); [|contradiction].
  rewrite Hs in H. exact H.
Qed.

(** X3: a successful payment followed by a lookup by the code it issued
    returns the very response of the payment, provided no booking with a
    smaller id already carries that code. *)
Theorem pay_then_lookup (req : PaymentRequest) (db : DB) (w w2 : World) (b : Booking) :
  fault_at w = None -> fault_at w2 = None ->
  Bookings db !! booking_id req = Some b -> status b = PENDING ->
  (payment_outcome req w).1 = true ->
  (forall k v, Bookings db !! k = Some v -> k < booking_id req ->
     pnr v <> Some (issued_pnr req w)) ->
  exists resp db' w',
    confirm_payment req (db, w) = (Return resp, (db', w')) /\
    r_booking_id resp = booking_id req /\ r_status resp = CONFIRMED /\
    r_pnr resp = Some (issued_pnr req w) /\
    get_booking_by_pnr (issued_pnr req w) (db', w2) = (Return resp, (db', w2)).
Proof.
  intros Hw Hw2 Hb Hp Hs Hfresh.
  destruct (confirm_payment_paid req db w b Hw Hb Hp Hs) as (w' & _ & E).
  eexists _, _, w'. split; [exact E|]. repeat (split; [reflexivity|]).
  rewrite (get_booking_by_pnr_calm _ _ _ Hw2). unfold select_booking_by_pnr.
  erewrite first_row_found; [reflexivity| | |].
  - rewrite (lookup_paid_tables _ _ _ _ Hb), lookup_insert_eq. reflexivity.
  - apply bool_decide_eq_true_2. reflexivity.
  - intros k v Hk Hv. apply bool_decide_eq_true_1 in Hv. cbn [snd] in Hv.
    destruct (Z.le_gt_cases (booking_id req) k) as [Hle|Hlt]; [exact Hle|].
    rewrite (lookup_paid_tables _ _ _ _ Hb), lookup_insert_ne in Hk by lia.
    destruct (Hfresh k v Hk Hlt Hv).
Qed.

Lemma pay_then_lookup_witness :
  exists resp db' w',
    confirm_payment example_payment (example_held_db, example_world)
    = (Return resp, (db', w')) /\
    r_booking_id resp = booking_id example_payment /\ r_status resp = CONFIRMED /\
    r_pnr resp = Some (issued_pnr example_payment example_world) /\
    get_booking_by_pnr (issued_pnr example_payment example_world) (db', late_world)
    = (Return resp, (db', late_world)).
Proof.
  apply (pay_then_lookup example_payment example_held_db example_world late_world
           example_held_booking eq_refl eq_refl example_held_lookup eq_refl eq_refl).
  intros k v Hk Hlt. replace (Bookings example_held_db) with
    ({[ 1 := example_held_booking ]} : gmap Z Booking) in Hk by (vm_compute; reflexivity).
  apply lookup_singleton_Some in Hk as [<- _]. cbn in Hlt. lia.
Defined.

(** X4: the code of a payment is drawn without looking at the codes in
    use.  When a booking with a smaller id already carries the code that a
    successful payment issues, the payment still succeeds with that code,
    and a lookup by the code returns an earlier booking: the booking just
    paid cannot be fetched by its own code. *)
Theorem pnr_collision_hides_booking (req : PaymentRequest) (db : DB) (w w2 : World)
    (b : Booking) (k : Z) (v : Booking) :
  fault_at w = None -> fault_at w2 = None ->
  Bookings db !! booking_id req = Some b -> status b = PENDING ->
  (payment_outcome req w).1 = true ->
  Bookings db !! k = Some v -> k < booking_id req -> pnr v = Some (issued_pnr req w) ->
  exists resp db' w' resp2,
    confirm_payment req (db, w) = (Return resp, (db', w')) /\
    r_booking_id resp = booking_id req /\ r_status resp = CONFIRMED /\
    r_pnr resp = Some (issued_pnr req w) /\
    get_booking_by_pnr (issued_pnr req w) (db', w2) = (Return resp2, (db', w2)) /\
    r_booking_id resp2 <= k /\ r_booking_id resp2 < r_booking_id resp.
Proof.
  intros Hw Hw2 Hb Hp Hs Hk Hlt Hv.
  destruct (confirm_payment_paid req db w b Hw Hb Hp Hs) as (w' & _ & E).
  assert (Hk' : Bookings (paid_tables req db w) !! k = Some v).
  { rewrite (lookup_paid_tables _ _ _ _ Hb), lookup_insert_ne by lia. exact Hk. }
  destruct (select_booking_by_pnr_some _ _ _ _ Hk' Hv) as (bid & b2 & Es & Hle).
  eexists _, _, w', (response_of bid b2). split; [exact E|].
  repeat (split; [reflexivity|]).
  rewrite (get_booking_by_pnr_calm _ _ _ Hw2), Es. split; [reflexivity|].
  cbn. lia.
Qed.

Lemma example_one_paid_lookup_1 :
  Bookings example_one_paid_db !! 1
  = Some (mkBooking 1 1 "1A" CONFIRMED (Some "4BIPW3"%string) (Some 2550%float) PAID 0).
Proof. vm_compute. reflexivity. Qed.

Lemma example_one_paid_lookup_2 :
  Bookings example_one_paid_db !! 2
  = Some (mkBooking 1 1 "2B" PENDING None (Some 2550%float) PAYMENT_PENDING 0).
Proof. vm_compute. reflexivity. Qed.

Lemma pnr_collision_hides_booking_witness :
  exists resp db' w' resp2,
    confirm_payment (mkPaymentRequest 2 (Some true)) (example_one_paid_db, example_world)
    = (Return resp, (db', w')) /\
    r_booking_id resp = 2 /\ r_status resp = CONFIRMED /\
    r_pnr resp = Some (issued_pnr (mkPaymentRequest 2 (Some true)) example_world) /\
    get_booking_by_pnr (issued_pnr (mkPaymentRequest 2 (Some true)) example_world)
      (db', example_world) = (Return resp2, (db', example_world)) /\
    r_booking_id resp2 <= 1 /\ r_booking_id resp2 < r_booking_id resp.
Proof.
  exact (pnr_collision_hides_booking (mkPaymentRequest 2 (Some true)) example_one_paid_db
           example_world example_world _ 1 _ eq_refl eq_refl example_one_paid_lookup_2
           eq_refl eq_refl example_one_paid_lookup_1 eq_refl eq_refl).
Defined.

(** ** Booking history *)

Global Instance later_first_trans : Transitive later_first.
Proof. intros x y z. unfold later_first. lia. Qed.

Global Instance later_first_total : Total later_first.
Proof. intros x y. unfold later_first. lia. Qed.

Lemma booked_under_true em ps r :
  booked_under em ps r = true <->
  exists p, ps !! passenger_id r.2 = Some p /\ email p = em.
Proof.
  unfold booked_under. destruct (ps !! passenger_id r.2) as [p|].
  - rewrite String.eqb_eq. split; [eauto|]. intros (p' & Hp & He). congruence.
  - split; [discriminate|]. intros (p' & Hp & _). discriminate.
Qed.

Lemma elem_of_select_history em db bid b :
  (bid, b) ∈ select_history em db <->
  Bookings db !! bid = Some b /\
  exists p, Passengers db !! passenger_id b = Some p /\ email p = em.
Proof.
  unfold select_history. rewrite merge_sort_Permutation, list_elem_of_In, filter_In.
  rewrite <- list_elem_of_In, elem_of_rows, booked_under_true. reflexivity.
Qed.

Lemma NoDup_keys_filter {V} (p : Z * V -> bool) (l : list (Z * V)) :
  NoDup (map fst l) -> NoDup (map fst (List.filter p l)).
Proof.
  induction l as [|a l IH]; cbn [List.filter map]; intros H; [constructor|].
  apply NoDup_cons in H as [Ha Hl]. destruct (p a); [|exact (IH Hl)].
  cbn [map]. apply NoDup_cons. split; [|exact (IH Hl)].
  intros Hin. apply Ha. apply list_elem_of_fmap in Hin as (x & Hx & Hin).
  apply list_elem_of_fmap. exists x. split; [exact Hx|].
  apply list_elem_of_In in Hin. apply filter_In in Hin as [Hin _].
  apply list_elem_of_In. exact Hin.
Qed.

Lemma NoDup_keys_rows {V} (t : gmap Z V) : NoDup (map fst (rows t)).
Proof.
  unfold rows. change (map fst) with (fmap (M := list) (@fst Z V)).
  rewrite merge_sort_Permutation. apply NoDup_fst_map_to_list.
Qed.

Lemma NoDup_keys_select_history em db : NoDup (map fst (select_history em db)).
Proof.
  unfold select_history. change (map fst) with (fmap (M := list) (@fst Z Booking)).
  rewrite merge_sort_Permutation. apply NoDup_keys_filter, NoDup_keys_rows.
Qed.

Lemma booking_history_calm em db w :
  fault_at w = None ->
  booking_history em (db, w)
  = (Return (map (fun r => response_of r.1 r.2) (select_history em db)), (db, w)).
Proof. intros Hw. unfold booking_history. rewrite bind_query_ok by exact Hw. reflexivity. Qed.

(** X6: [booking_history] returns one response per booking whose
    passenger row has the given email, and no other; the responses are in
    order of booking date, latest first; an email that no passenger has
    gives the empty list, not an error; the tables are left as they are
    (the driver not faulting). *)
Theorem booking_history_contract (em : string) (db : DB) (w : World) :
  fault_at w = None ->
  exists l,
    booking_history em (db, w) = (Return l, (db, w)) /\
    (forall resp, resp ∈ l <->
       exists bid b p, Bookings db !! bid = Some b /\
         Passengers db !! passenger_id b = Some p /\ email p = em /\
         resp = response_of bid b) /\
    NoDup (map r_booking_id l) /\
    StronglySorted (fun x y => r_booking_date y <= r_booking_date x) l /\
    ((forall pid p, Passengers db !! pid = Some p -> email p <> em) -> l = []).
Proof.
  intros Hw. eexists. split; [exact (booking_history_calm em db w Hw)|].
  split; [|split; [|split]].
  - intros resp. change (map ?f ?l) with (f <$> l). rewrite list_elem_of_fmap. split.
    + intros ([bid b] & -> & Hin). apply elem_of_select_history in Hin as (Hb & p & Hp & He).
      exists bid, b, p. auto.
    + intros (bid & b & p & Hb & Hp & He & ->). exists (bid, b). split; [reflexivity|].
      apply elem_of_select_history. eauto.
  - rewrite map_map. cbn. apply NoDup_keys_select_history.
  - apply (StronglySorted_fmap _ later_first); [intros x y H; exact H|].
    unfold select_history. apply StronglySorted_merge_sort; apply _.
  - intros Hnone. destruct (select_history em db) as [|[bid b] l] eqn:E; [reflexivity|].
    assert (Hin : (bid, b) ∈ select_history em db) by (rewrite E; left).
    apply elem_of_select_history in Hin as (_ & p & Hp & He).
    destruct (Hnone _ _ Hp He).
Qed.

Lemma booking_history_contract_witness :
  exists l,
    booking_history "ada@example.org" (example_paid_db, example_world)
    = (Return l, (example_paid_db, example_world)) /\
    (forall resp, resp ∈ l <->
       exists bid b p, Bookings example_paid_db !! bid = Some b /\
         Passengers example_paid_db !! passenger_id b = Some p /\
         email p = "ada@example.org"%string /\
         resp = response_of bid b) /\
    NoDup (map r_booking_id l) /\
    StronglySorted (fun x y => r_booking_date y <= r_booking_date x) l /\
    ((forall pid p, Passengers example_paid_db !! pid = Some p ->
        email p <> "ada@example.org"%string) -> l = []).
Proof.
  exact (booking_history_contract "ada@example.org" example_paid_db example_world eq_refl).
Defined.

(** ** Passengers *)

Lemma select_passenger_id_Some em db pid :
  select_passenger_id em db = Some pid ->
  exists p, Passengers db !! pid = Some p /\ email p = em /\
    forall k v, Passengers db !! k = Some v -> email v = em -> pid <= k.
Proof.
  unfold select_passenger_id.
  destruct (first_row _ (Passengers db)) as [[k v]|] eqn:E; [|discriminate].
  intros H. inversion H; subst. apply first_row_least in E as (Hk & Hp & Hmin).
  exists v. split; [exact Hk|]. cbn [snd] in Hp. apply String.eqb_eq in Hp.
  split; [exact Hp|]. intros k' v' Hk' Hv'. apply (Hmin k' v' Hk').
  cbn [snd]. apply String.eqb_eq. exact Hv'.
Qed.

Lemma select_passenger_id_None em db pid p :
  select_passenger_id em db = None -> Passengers db !! pid = Some p -> email p <> em.
Proof.
  unfold select_passenger_id.
  destruct (first_row _ (Passengers db)) as [[k v]|] eqn:E; [discriminate|].
  intros _ Hp He. pose proof (first_row_None _ _ _ _ E Hp) as Hf. cbn [snd] in Hf.
  apply String.eqb_neq in Hf. contradiction.
Qed.

Lemma select_passenger_id_tables em db db' :
  Passengers db' = Passengers db -> select_passenger_id em db' = select_passenger_id em db.
Proof. unfold select_passenger_id. intros ->. reflexivity. Qed.

Lemma resolve_passenger_lookup req db :
  exists p, (resolve_passenger req db).2 !! (resolve_passenger req db).1 = Some p /\
    email p = passenger_email req.
Proof.
  unfold resolve_passenger.
  destruct (select_passenger_id (passenger_email req) db) as [pid|] eqn:E; cbn [fst snd].
  - apply select_passenger_id_Some in E as (p & Hp & He & _). eauto.
  - eexists. rewrite lookup_insert_eq. split; reflexivity.
Qed.

(** After a request has been resolved, its email selects the passenger it
    was resolved to. *)
Lemma select_passenger_id_resolved req db db' :
  Passengers db' = (resolve_passenger req db).2 ->
  select_passenger_id (passenger_email req) db' = Some (resolve_passenger req db).1.
Proof.
  unfold resolve_passenger.
  destruct (select_passenger_id (passenger_email req) db) as [pid|] eqn:E; cbn [fst snd];
    intros Ht.
  - rewrite (select_passenger_id_tables _ _ _ Ht). exact E.
  - unfold select_passenger_id. rewrite Ht.
    erewrite first_row_found; [reflexivity| | |].
    + apply lookup_insert_eq.
    + cbn [snd email]. apply String.eqb_refl.
    + intros k v Hk Hv. cbn [snd] in Hv. apply String.eqb_eq in Hv.
      destruct (decide (next_key (Passengers db) = k)) as [->|Hne]; [lia|].
      rewrite lookup_insert_ne in Hk by exact Hne.
      destruct (select_passenger_id_None _ _ _ _ E Hk Hv).
Qed.

(** X7: the booking that a successful [start_booking] makes is listed by
    [booking_history] for the email of the request, with the columns of
    the response of the hold except for the date: the response of the hold
    is dated by the clock of the process, the listed booking by what
    [NOW()] read on the database server when the row was inserted. *)
Theorem hold_then_history (req : StartBookingRequest) (db : DB) (w w2 : World)
    (resp : BookingResponse) (db' : DB) (w' : World) :
  start_booking req (db, w) = (Return resp, (db', w')) ->
  fault_at w2 = None ->
  exists l,
    booking_history (passenger_email req) (db', w2) = (Return l, (db', w2)) /\
    mkBookingResponse (r_booking_id resp) (r_flight_id resp) (r_passenger_id resp)
      (r_seat_no resp) (r_status resp) (r_pnr resp) (r_price resp) (r_payment_status resp)
      (server_clock w) ∈ l /\
    r_booking_date resp = clock w /\
    r_status resp = PENDING /\ r_pnr resp = None.
Proof.
  intros E Hw2. apply start_booking_returned in E as (f & Hf & Hs & -> & ->).
  eexists. split; [exact (booking_history_calm _ _ _ Hw2)|].
  split; [|repeat split].
  change (map ?g ?l) with (g <$> l). apply list_elem_of_fmap.
  exists (next_key (Bookings db), held_booking req f db (calm w)).
  split; [reflexivity|]. apply elem_of_select_history.
  unfold held_tables. cbn [Bookings Passengers]. split; [apply lookup_insert_eq|].
  exact (resolve_passenger_lookup req db).
Qed.

Lemma hold_then_history_witness :
  exists l,
    booking_history "ada@example.org"
      ((start_booking example_request (aware_db, skewed_world)).2.1, late_world)
    = (Return l, ((start_booking example_request (aware_db, skewed_world)).2.1, late_world)) /\
    mkBookingResponse 1 1 1 "1A" PENDING None (Some 2550%float) PAYMENT_PENDING 19800000000
      ∈ l /\
    r_booking_date (held_response example_request aware_flight aware_db skewed_world) = 0.
Proof.
  destruct (hold_then_history example_request aware_db skewed_world late_world
              (held_response example_request aware_flight aware_db skewed_world)
              (start_booking example_request (aware_db, skewed_world)).2.1
              (start_booking example_request (aware_db, skewed_world)).2.2)
    as (l & E & Hin & Hd & _); [vm_compute; reflexivity|reflexivity|].
  exists l. split; [exact E|]. split; [exact Hin|exact Hd].
Defined.

(** X8: a successful [start_booking] books under a passenger row that
    has the email of the request.  No passenger row is ever changed or
    removed; when rows with that email exist, the one with the least id is
    used and the table stays as it is (the names of the request are not
    written); otherwise exactly one row is added, under a fresh id, with
    the names and email of the request.  A later hold with the same email
    books under the same passenger and adds no row. *)
Theorem passenger_found_or_created (req : StartBookingRequest) (db : DB) (w : World)
    (resp : BookingResponse) (db' : DB) (w' : World) :
  start_booking req (db, w) = (Return resp, (db', w')) ->
  (exists p, Passengers db' !! r_passenger_id resp = Some p /\
     email p = passenger_email req) /\
  (forall pid p, Passengers db !! pid = Some p -> Passengers db' !! pid = Some p) /\
  (forall pid p, Passengers db !! pid = Some p -> email p = passenger_email req ->
     Passengers db' = Passengers db /\ r_passenger_id resp <= pid) /\
  ((forall pid p, Passengers db !! pid = Some p -> email p <> passenger_email req) ->
     Passengers db !! r_passenger_id resp = None /\
     Passengers db' =
       <[r_passenger_id resp :=
           mkPassenger (passenger_first_name req) (passenger_last_name req)
             (passenger_email req)]> (Passengers db)) /\
  (forall req2 w2 resp2 s2, passenger_email req2 = passenger_email req ->
     start_booking req2 (db', w2) = (Return resp2, s2) ->
     r_passenger_id resp2 = r_passenger_id resp /\ Passengers s2.1 = Passengers db').
Proof.
  intros E. apply start_booking_returned in E as (f & Hf & Hs & -> & ->).
  change (r_passenger_id (held_response req f db (calm w)))
    with (resolve_passenger req db).1.
  change (Passengers (held_tables req f db (calm w))) with (resolve_passenger req db).2.
  split; [exact (resolve_passenger_lookup req db)|].
  split; [|split; [|split]].
  - intros pid p Hp. unfold resolve_passenger.
    destruct (select_passenger_id (passenger_email req) db); cbn [snd]; [exact Hp|].
    rewrite lookup_insert_ne; [exact Hp|].
    intros Heq. rewrite <- Heq, next_key_fresh in Hp. discriminate.
  - intros pid p Hp He. unfold resolve_passenger.
    destruct (select_passenger_id (passenger_email req) db) as [pid0|] eqn:E; cbn [fst snd].
    + split; [reflexivity|].
      apply select_passenger_id_Some in E as (_ & _ & _ & Hmin). exact (Hmin _ _ Hp He).
    + destruct (select_passenger_id_None _ _ _ _ E Hp He).
  - intros Hnone. unfold resolve_passenger.
    destruct (select_passenger_id (passenger_email req) db) as [pid0|] eqn:E; cbn [fst snd].
    + apply select_passenger_id_Some in E as (p & Hp & He & _). destruct (Hnone _ _ Hp He).
    + split; [apply next_key_fresh|reflexivity].
  - intros req2 w2 resp2 [db2 w2'] Hem E2. cbn [fst snd].
    apply start_booking_returned in E2 as (f2 & _ & _ & -> & ->).
    change (r_passenger_id (held_response req2 f2 ?d ?x)) with (resolve_passenger req2 d).1.
    change (Passengers (held_tables req2 f2 ?d ?x)) with (resolve_passenger req2 d).2.
    unfold resolve_passenger at 1 3. rewrite Hem.
    rewrite (select_passenger_id_resolved req db (held_tables req f db (calm w)) eq_refl).
    split; reflexivity.
Qed.

Lemma passenger_found_or_created_witness :
  (exists p, Passengers (start_booking example_request (aware_db, example_world)).2.1
             !! r_passenger_id
                  (held_response example_request aware_flight aware_db example_world)
             = Some p /\
     email p = passenger_email example_request) /\
  (forall pid p, Passengers aware_db !! pid = Some p ->
     Passengers (start_booking example_request (aware_db, example_world)).2.1 !! pid
     = Some p).
Proof.
  destruct (passenger_found_or_created example_request aware_db example_world
              (held_response example_request aware_flight aware_db example_world)
              (start_booking example_request (aware_db, example_world)).2.1
              (start_booking example_request (aware_db, example_world)).2.2)
    as (H1 & H2 & _); [vm_compute; reflexivity|].
  split; [exact H1|exact H2].
Defined.

(** ** Seat labels *)

Lemma confirm_payment_failed req db w b :
  fault_at w = None -> Bookings db !! booking_id req = Some b -> status b = PENDING ->
  simulate_success req = Some false ->
  (confirm_payment req (db, w)).2.1 = failed_tables req b db w.
Proof.
  intros Hw Hb Hp Hs. pose proof (confirm_payment_calm req db w Hw) as H.
  rewrite Hb in H. destruct (decide (status b = PENDING)); [|contradiction].
  destruct H as (w' & _ & H). unfold payment_outcome in H. rewrite Hs in H. cbn [fst] in H.
  rewrite H. reflexivity.
Qed.

Lemma seat_label_set_seats n m f : n = m -> seat_label (set_seats n f) = seat_label (set_seats m f).
Proof. intros ->. reflexivity. Qed.

(** X9: seat labels are computed from the seat counter alone, so they
    are not unique among the live bookings of a flight.  Whenever a hold
    A, a hold B, and, after the failed payment of A, a third hold C return
    on the same flight, the bookings of B and C are both PENDING on that
    flight and carry the same seat label. *)
Theorem seat_label_reused (reqA reqB reqC : StartBookingRequest) (db dbA dbB dbC : DB)
    (wA wB wP wC wA' wB' wC' : World) (rA rB rC : BookingResponse) :
  req_flight_id reqB = req_flight_id reqA -> req_flight_id reqC = req_flight_id reqA ->
  fault_at wP = None ->
  start_booking reqA (db, wA) = (Return rA, (dbA, wA')) ->
  start_booking reqB (dbA, wB) = (Return rB, (dbB, wB')) ->
  start_booking reqC
    ((confirm_payment (mkPaymentRequest (r_booking_id rA) (Some false)) (dbB, wP)).2.1, wC)
  = (Return rC, (dbC, wC')) ->
  r_booking_id rB <> r_booking_id rC /\ r_seat_no rB = r_seat_no rC /\
  exists bB bC,
    Bookings dbC !! r_booking_id rB = Some bB /\ Bookings dbC !! r_booking_id rC = Some bC /\
    status bB = PENDING /\ status bC = PENDING /\
    flight_id bB = req_flight_id reqA /\ flight_id bC = req_flight_id reqA /\
    seat_no bB = r_seat_no rB /\ seat_no bC = r_seat_no rC.
Proof.
  intros HB HC HwP EA EB EC.
  apply start_booking_returned in EA as (f & Hf & Hs & -> & ->).
  set (db1 := held_tables reqA f db (calm wA)) in *.
  set (f1 := set_seats (seats_available f + -1) f).
  assert (Hf1 : Flights db1 !! req_flight_id reqA = Some f1).
  { unfold db1, held_tables. cbn [Flights]. rewrite lookup_alter_eq, Hf. reflexivity. }
  apply start_booking_returned in EB as (f1' & Hf1' & Hs1 & -> & ->).
  rewrite HB, Hf1 in Hf1'. inversion Hf1'; subst f1'. clear Hf1'.
  set (db2 := held_tables reqB f1 db1 (calm wB)) in *.
  set (bidA := next_key (Bookings db)) in *. set (bidB := next_key (Bookings db1)) in *.
  set (bA := held_booking reqA f db (calm wA)).
  set (bB := held_booking reqB f1 db1 (calm wB)).
  change (r_booking_id (held_response reqA f db (calm wA))) with bidA in EC.
  assert (HbA1 : Bookings db1 !! bidA = Some bA) by apply lookup_insert_eq.
  assert (Hne : bidB <> bidA).
  { intros Heq. pose proof (next_key_fresh (Bookings db1)) as Hfr. fold bidB in Hfr.
    rewrite Heq, HbA1 in Hfr. discriminate. }
  assert (HbA2 : Bookings db2 !! bidA = Some bA).
  { unfold db2, held_tables. cbn [Bookings]. fold bidB.
    rewrite lookup_insert_ne by exact Hne. exact HbA1. }
  assert (HbB2 : Bookings db2 !! bidB = Some bB) by apply lookup_insert_eq.
  assert (Hf2 : Flights db2 !! req_flight_id reqA
                = Some (set_seats (seats_available f1 + -1) f1)).
  { unfold db2, held_tables. cbn [Flights]. rewrite HB, lookup_alter_eq, Hf1. reflexivity. }
  assert (E3 : (confirm_payment (mkPaymentRequest bidA (Some false)) (db2, wP)).2.1
               = failed_tables (mkPaymentRequest bidA (Some false)) bA db2 wP)
    by (apply confirm_payment_failed; [exact HwP|exact HbA2|reflexivity|reflexivity]).
  rewrite E3 in EC. set (db3 := failed_tables _ bA db2 wP) in *.
  assert (Hf3 : Flights db3 !! req_flight_id reqA = Some f1).
  { unfold db3, failed_tables, released_flights. cbn [Flights flight_id bA held_booking].
    rewrite lookup_alter_eq, Hf2. cbn. unfold f1, set_seats. cbn. f_equal. f_equal. lia. }
  assert (HbB3 : Bookings db3 !! bidB = Some bB).
  { unfold db3, failed_tables. cbn [Bookings booking_id].
    rewrite lookup_alter_ne by (intros Heq; apply Hne; symmetry; exact Heq). exact HbB2. }
  apply start_booking_returned in EC as (f3 & Hf3' & Hs3 & -> & ->).
  rewrite HC, Hf3 in Hf3'. inversion Hf3'; subst f3. clear Hf3'.
  change (r_booking_id (held_response reqB f1 db1 (calm wB))) with bidB.
  change (r_booking_id (held_response reqC f1 db3 (calm wC))) with (next_key (Bookings db3)).
  assert (Hne3 : bidB <> next_key (Bookings db3)).
  { intros Heq. pose proof (next_key_fresh (Bookings db3)) as Hfr.
    rewrite <- Heq, HbB3 in Hfr. discriminate. }
  split; [exact Hne3|]. split; [reflexivity|].
  exists bB, (held_booking reqC f1 db3 (calm wC)).
  unfold held_tables at 1 2. cbn [Bookings].
  split.
  { rewrite lookup_insert_ne by (intros Heq; apply Hne3; symmetry; exact Heq). exact HbB3. }
  split; [apply lookup_insert_eq|].
  repeat split; try reflexivity; cbn; congruence.
Qed.

Lemma seat_label_reused_witness :
  2 <> 3 /\ "2B"%string = "2B"%string /\
  exists bB bC,
    Bookings (after_all decimal_key
                [ (Hold example_request, example_world); (Hold example_request, example_world);
                  (Pay (mkPaymentRequest 1 (Some false)), example_world);
                  (Hold example_request, example_world) ] aware_db) !! 2 = Some bB /\
    Bookings (after_all decimal_key
                [ (Hold example_request, example_world); (Hold example_request, example_world);
                  (Pay (mkPaymentRequest 1 (Some false)), example_world);
                  (Hold example_request, example_world) ] aware_db) !! 3 = Some bC /\
    status bB = PENDING /\ status bC = PENDING /\
    flight_id bB = 1 /\ flight_id bC = 1 /\
    seat_no bB = "2B"%string /\ seat_no bC = "2B"%string.
Proof.
  set (sA := start_booking example_request (aware_db, example_world)).
  set (sB := start_booking example_request (sA.2.1, example_world)).
  set (dP := (confirm_payment (mkPaymentRequest 1 (Some false)) (sB.2.1, example_world)).2.1).
  set (sC := start_booking example_request (dP, example_world)).
  apply (seat_label_reused example_request example_request example_request
           aware_db sA.2.1 sB.2.1 sC.2.1
           example_world example_world example_world example_world sA.2.2 sB.2.2 sC.2.2
           (mkBookingResponse 1 1 1 "1A" PENDING None (Some 2550%float) PAYMENT_PENDING 0)
           (mkBookingResponse 2 1 1 "2B" PENDING None (Some 2550%float) PAYMENT_PENDING 0)
           (mkBookingResponse 3 1 1 "2B" PENDING None (Some 2550%float) PAYMENT_PENDING 0));
    try reflexivity; vm_compute; reflexivity.
Defined.

(** ** The life of a booking *)

Lemma same_reservation_refl b : same_reservation b b.
Proof. repeat split. Qed.

Lemma same_reservation_trans b1 b2 b3 :
  same_reservation b1 b2 -> same_reservation b2 b3 -> same_reservation b1 b3.
Proof. unfold same_reservation. intros (?&?&?&?) (?&?&?&?). repeat split; congruence. Qed.

Lemma booking_moves_refl b : booking_moves b b.
Proof. unfold booking_moves. destruct (status b); auto. Qed.

Lemma booking_moves_trans b1 b2 b3 :
  booking_moves b1 b2 -> booking_moves b2 b3 -> booking_moves b1 b3.
Proof.
  unfold booking_moves. destruct (status b1) eqn:E1; [trivial| |].
  - intros [->| ->]; [rewrite E1; trivial|]. cbn. intros ->. right. reflexivity.
  - intros ->. rewrite E1. trivial.
Qed.

Lemma booking_after tk c w db bid b :
  Bookings db !! bid = Some b ->
  exists b', Bookings (after tk c w db) !! bid = Some b' /\
    same_reservation b b' /\ booking_moves b b'.
Proof.
  intros Hb.
  assert (Hsame : forall t : gmap Z Booking, t !! bid = Some b ->
            exists b', t !! bid = Some b' /\
              same_reservation b b' /\ booking_moves b b').
  { intros t H. exists b. split; [exact H|].
    split; [apply same_reservation_refl|apply booking_moves_refl]. }
  destruct c as [req|req|req|]; cbn [after].
  - destruct (start_booking_tables req db w) as [->|(f & _ & _ & ->)]; [by apply Hsame|].
    apply Hsame. unfold held_tables. cbn [Bookings]. rewrite lookup_insert_ne; [exact Hb|].
    intros Heq. rewrite <- Heq, next_key_fresh in Hb. discriminate.
  - destruct (confirm_payment_tables req db w) as [->|(b0 & Hb0 & Hp & [->| ->])];
      [by apply Hsame| |].
    + unfold paid_tables. cbn [Bookings set_Bookings].
      destruct (decide (booking_id req = bid)) as [Heq|Hne].
      * rewrite Heq in *. rewrite lookup_alter_eq, Hb. eexists. split; [reflexivity|].
        assert (b0 = b) by congruence. subst b0.
        split; [repeat split|]. unfold booking_moves. rewrite Hp. trivial.
      * apply Hsame. rewrite lookup_alter_ne by exact Hne. exact Hb.
    + unfold failed_tables. cbn [Bookings].
      destruct (decide (booking_id req = bid)) as [Heq|Hne].
      * rewrite Heq in *. rewrite lookup_alter_eq, Hb. eexists. split; [reflexivity|].
        assert (b0 = b) by congruence. subst b0.
        split; [repeat split|]. unfold booking_moves. rewrite Hp. trivial.
      * apply Hsame. rewrite lookup_alter_ne by exact Hne. exact Hb.
  - destruct (cancel_booking_tables tk req db w) as [->|(bid0 & b0 & Hb0 & Hs & ->)];
      [by apply Hsame|].
    unfold cancelled_tables. cbn [Bookings].
    destruct (decide (bid0 = bid)) as [Heq|Hne].
    + rewrite Heq in *. rewrite lookup_alter_eq, Hb. eexists. split; [reflexivity|].
      assert (b0 = b) by congruence. subst b0.
      split; [repeat split|]. unfold booking_moves.
      destruct (status b); [trivial|right; reflexivity|contradiction].
    + apply Hsame. rewrite lookup_alter_ne by exact Hne. exact Hb.
  - apply Hsame. rewrite bookings_kept_simulate_tick. exact Hb.
Qed.

Lemma booking_after_all tk calls db bid b :
  Bookings db !! bid = Some b ->
  exists b', Bookings (after_all tk calls db) !! bid = Some b' /\
    same_reservation b b' /\ booking_moves b b'.
Proof.
  revert db b. induction calls as [|[c w] calls IH]; intros db b Hb; cbn [after_all].
  - exists b. split; [exact Hb|].
    split; [apply same_reservation_refl|apply booking_moves_refl].
  - destruct (booking_after tk c w db bid b Hb) as (b1 & Hb1 & Hr1 & Hm1).
    destruct (IH _ _ Hb1) as (b2 & Hb2 & Hr2 & Hm2).
    exists b2. split; [exact Hb2|].
    split; [eapply same_reservation_trans|eapply booking_moves_trans]; eassumption.
Qed.

(** X10: no sequence of hold, pay, cancel and simulator calls, in any
    worlds, removes a booking or changes its flight, its passenger, its
    seat label or its price: the price of a booking is the one quoted at
    the time of the hold. *)
Theorem reservation_is_permanent (text_is_key : string -> Z -> bool)
    (calls : list (Call * World)) (db : DB) (bid : Z) (b : Booking) :
  Bookings db !! bid = Some b ->
  exists b', Bookings (after_all text_is_key calls db) !! bid = Some b' /\
    flight_id b' = flight_id b /\ passenger_id b' = passenger_id b /\
    seat_no b' = seat_no b /\ price b' = price b.
Proof.
  intros Hb. destruct (booking_after_all text_is_key calls db bid b Hb) as (b' & H & Hr & _).
  exists b'. split; [exact H|exact Hr].
Qed.

Lemma reservation_is_permanent_witness :
  exists b', Bookings (after_all decimal_key release_after_tick example_held_db) !! 1
             = Some b' /\
    flight_id b' = flight_id example_held_booking /\
    passenger_id b' = passenger_id example_held_booking /\
    seat_no b' = seat_no example_held_booking /\ price b' = price example_held_booking.
Proof.
  exact (reservation_is_permanent decimal_key release_after_tick example_held_db 1
           example_held_booking example_held_lookup).
Defined.

(** ** What every computation keeps *)

Section Keeps.

Context (R : relation DB) `{!Reflexive R, !Transitive R}.

Lemma keeps_ret {A} (a : A) : keeps R (ret a).
Proof. intros db w. reflexivity. Qed.

Lemma keeps_raise {A} e : keeps R (@raise A e).
Proof. intros db w. reflexivity. Qed.

Lemma keeps_ambient {A} (f : World -> A * World) : keeps R (ambient f).
Proof. intros db w. unfold ambient. destruct (f w). reflexivity. Qed.

Lemma keeps_datetime_now : keeps R datetime_now.
Proof. intros db w. reflexivity. Qed.

Lemma keeps_execute {A} (stmt : DB -> A * DB) :
  (forall db, R db (stmt db).2) -> keeps R (execute stmt).
Proof.
  intros H db w. specialize (H db). unfold execute.
  destruct (fault_at w) as [[|k]|]; [reflexivity| |]; destruct (stmt db); exact H.
Qed.

Lemma keeps_query {A} (q : DB -> A) : keeps R (query q).
Proof. apply keeps_execute. intros db. reflexivity. Qed.

Lemma keeps_bind {A B} (c : M A) (k : A -> M B) :
  keeps R c -> (forall a, keeps R (k a)) -> keeps R (bind c k).
Proof.
  intros Hc Hk db w. specialize (Hc db w). unfold bind.
  destruct (c (db, w)) as [[a|e] [db1 w1]]; [|exact Hc].
  cbn [fst snd] in Hc. etransitivity; [exact Hc|apply Hk].
Qed.

Lemma keeps_transaction {A} (body : M A) : keeps R body -> keeps R (transaction body).
Proof.
  intros Hb db w.
  assert (H : keeps R (do a <- body; run query (fun _ => tt); ret a)).
  { apply keeps_bind; [exact Hb|]. intros a.
    apply keeps_bind; [apply keeps_query|]. intros _. apply keeps_ret. }
  specialize (H db w). unfold transaction.
  destruct ((do a <- body; run query (fun _ => tt); ret a) (db, w)) as [[a|e] [db1 w1]];
    [exact H|reflexivity].
Qed.

Lemma keeps_try_except {A} (body : M A) (handler : Exception -> M A) :
  keeps R body -> (forall e, keeps R (handler e)) -> keeps R (try_except body handler).
Proof.
  intros Hb Hh db w. specialize (Hb db w). unfold try_except.
  destruct (body (db, w)) as [[a|e] [db1 w1]]; [exact Hb|].
  cbn [fst snd] in Hb. etransitivity; [exact Hb|apply Hh].
Qed.

Lemma keeps_for_each {A} (l : list A) (body : A -> M unit) :
  (forall x, keeps R (body x)) -> keeps R (for_each l body).
Proof.
  intros Hb. induction l as [|x l IH]; cbn [for_each]; [apply keeps_ret|].
  apply keeps_bind; [apply Hb|]. intros _. exact IH.
Qed.

(** The simulator keeps whatever its two statements keep. *)
Lemma keeps_simulate_flight f :
  (forall s fid db, R db (update_seats_to s fid db).2) ->
  (forall r db, simulator_row r -> R db (insert_fare_history r db).2) ->
  keeps R (simulate_flight f).
Proof.
  intros Hu Hi. unfold simulate_flight.
  apply keeps_bind; [apply keeps_ambient|]. intros change.
  apply keeps_bind; [apply keeps_execute; intros db; apply Hu|]. intros _.
  apply keeps_bind; [apply keeps_ambient|]. intros demand_level.
  apply keeps_bind; [apply keeps_datetime_now|]. intros now.
  apply keeps_bind; [apply keeps_ambient|]. intros dynamic_price.
  apply keeps_execute. intros db. apply Hi.
  split; [reflexivity|]. cbn [fh_seats_available fh_total_seats]. lia.
Qed.

Lemma keeps_simulate_tick :
  (forall s fid db, R db (update_seats_to s fid db).2) ->
  (forall r db, simulator_row r -> R db (insert_fare_history r db).2) ->
  keeps R simulate_tick.
Proof.
  intros Hu Hi. unfold simulate_tick.
  apply keeps_try_except; [|intros e; apply keeps_ret].
  apply keeps_transaction. apply keeps_bind; [apply keeps_query|]. intros flights.
  apply keeps_for_each. intros f. apply keeps_simulate_flight; assumption.
Qed.

End Keeps.

(** ** Flights *)

Global Instance same_schedule_refl : Reflexive same_schedule.
Proof. intros f. repeat split. Qed.

Global Instance same_schedule_trans : Transitive same_schedule.
Proof. intros f1 f2 f3 (?&?&?) (?&?&?). repeat split; congruence. Qed.

Global Instance flights_evolve_refl : Reflexive flights_evolve.
Proof. intros db fid. reflexivity. Qed.

Global Instance flights_evolve_trans : Transitive flights_evolve.
Proof. intros d1 d2 d3 H1 H2 fid. etransitivity; [apply H1|apply H2]. Qed.

Lemma flights_evolve_same db db' : Flights db' = Flights db -> flights_evolve db db'.
Proof. intros H fid. rewrite H. reflexivity. Qed.

Lemma flights_evolve_alter (g : Flight -> Flight) k db db' :
  (forall f, same_schedule f (g f)) -> Flights db' = alter g k (Flights db) ->
  flights_evolve db db'.
Proof.
  intros Hg H fid. rewrite H. destruct (decide (k = fid)) as [->|Hne].
  - rewrite lookup_alter_eq. destruct (Flights db !! fid); constructor. apply Hg.
  - rewrite lookup_alter_ne by exact Hne. reflexivity.
Qed.

Lemma same_schedule_set_seats n f : same_schedule f (set_seats n f).
Proof. repeat split. Qed.

Lemma flights_evolve_after tk c w db : flights_evolve db (after tk c w db).
Proof.
  destruct c as [req|req|req|]; cbn [after].
  - destruct (start_booking_tables req db w) as [->|(f & _ & _ & ->)]; [reflexivity|].
    eapply flights_evolve_alter; [|reflexivity]. intros f0. apply same_schedule_set_seats.
  - destruct (confirm_payment_tables req db w) as [->|(b & _ & _ & [->| ->])];
      [reflexivity|by apply flights_evolve_same|].
    eapply flights_evolve_alter; [|reflexivity]. intros f0. apply same_schedule_set_seats.
  - destruct (cancel_booking_tables tk req db w) as [->|(bid & b & _ & _ & ->)];
      [reflexivity|].
    eapply flights_evolve_alter; [|reflexivity]. intros f0. apply same_schedule_set_seats.
  - apply (keeps_simulate_tick flights_evolve).
    + intros s fid db0. eapply flights_evolve_alter; [|reflexivity].
      intros f0. apply same_schedule_set_seats.
    + intros r db0 _. by apply flights_evolve_same.
Qed.

Lemma flights_evolve_after_all tk calls db : flights_evolve db (after_all tk calls db).
Proof.
  revert db. induction calls as [|[c w] calls IH]; intros db; cbn [after_all]; [reflexivity|].
  etransitivity; [apply (flights_evolve_after tk c w)|apply IH].
Qed.

(** X12: no sequence of hold, pay, cancel and simulator calls, in any
    worlds, adds or removes a flight, or changes the base fare, the
    capacity or the departure time of one: the calls only ever write the
    seat counter. *)
Theorem flights_are_permanent (text_is_key : string -> Z -> bool)
    (calls : list (Call * World)) (db : DB) (fid : Z) :
  (Flights db !! fid = None -> Flights (after_all text_is_key calls db) !! fid = None) /\
  (forall f, Flights db !! fid = Some f ->
     exists f', Flights (after_all text_is_key calls db) !! fid = Some f' /\
       base_fare f' = base_fare f /\ total_seats f' = total_seats f /\
       departure_date_time f' = departure_date_time f).
Proof.
  pose proof (flights_evolve_after_all text_is_key calls db fid) as H. split.
  - intros Hn. rewrite Hn in H. inversion H. reflexivity.
  - intros f Hf. rewrite Hf in H. inversion H as [f0 f' Hs|]; subst. exists f'.
    split; [reflexivity|exact Hs].
Qed.

Lemma flights_are_permanent_witness :
  Flights (after_all decimal_key release_after_tick example_db) !! 2 = None /\
  exists f', Flights (after_all decimal_key release_after_tick example_db) !! 1 = Some f' /\
    base_fare f' = base_fare example_flight /\ total_seats f' = total_seats example_flight /\
    departure_date_time f' = departure_date_time example_flight.
Proof.
  split.
  - exact (proj1 (flights_are_permanent decimal_key release_after_tick example_db 2) eq_refl).
  - exact (proj2 (flights_are_permanent decimal_key release_after_tick example_db 1)
             example_flight eq_refl).
Defined.

(** ** Fare history *)

Global Instance history_grows_refl : Reflexive history_grows.
Proof. intros db. exists []. split; [by rewrite app_nil_r|constructor]. Qed.

Global Instance history_grows_trans : Transitive history_grows.
Proof.
  intros d1 d2 d3 (l1 & H1 & F1) (l2 & H2 & F2). exists (l1 ++ l2).
  split; [rewrite H2, H1, app_assoc; reflexivity|]. apply Forall_app. split; assumption.
Qed.

Lemma fare_history_after tk c w db :
  is_booking_call c = true -> FareHistory (after tk c w db) = FareHistory db.
Proof.
  intros Hc. destruct c as [req|req|req|]; cbn [after]; [| | |discriminate].
  - destruct (start_booking_tables req db w) as [->|(f & _ & _ & ->)]; reflexivity.
  - destruct (confirm_payment_tables req db w) as [->|(b & _ & _ & [->| ->])]; reflexivity.
  - destruct (cancel_booking_tables tk req db w) as [->|(bid & b & _ & _ & ->)]; reflexivity.
Qed.

Lemma history_grows_after tk c w db : history_grows db (after tk c w db).
Proof.
  destruct (is_booking_call c) eqn:Hc.
  - exists []. rewrite app_nil_r. split; [by apply fare_history_after|constructor].
  - destruct c; try discriminate. cbn [after]. apply (keeps_simulate_tick history_grows).
    + intros s fid db0. exists []. split; [cbn; by rewrite app_nil_r|constructor].
    + intros r db0 Hr. exists [r]. split; [reflexivity|]. constructor; [exact Hr|constructor].
Qed.

(** X13: over any sequence of hold, pay, cancel and simulator calls the
    fare history only grows at its end; every row added has the reason
    "simulator" and records a seat count between 0 and the capacity it
    records; the hold, pay and cancel calls write no fare history at
    all. *)
Theorem fare_history_is_append_only (text_is_key : string -> Z -> bool)
    (calls : list (Call * World)) (db : DB) :
  (exists l, FareHistory (after_all text_is_key calls db) = FareHistory db ++ l /\
     Forall (fun r => fh_reason r = "simulator"%string /\
                      0 <= fh_seats_available r <= Z.max 0 (fh_total_seats r)) l) /\
  (Forall (fun c => is_booking_call c.1 = true) calls ->
     FareHistory (after_all text_is_key calls db) = FareHistory db).
Proof.
  split.
  - revert db. induction calls as [|[c w] calls IH]; intros db; cbn [after_all].
    + exact (history_grows_refl db).
    + exact (history_grows_trans _ _ _ (history_grows_after text_is_key c w db) (IH _)).
  - revert db. induction calls as [|[c w] calls IH]; intros db Hall; [reflexivity|].
    apply Forall_cons in Hall as [Hc Hall]. cbn [after_all].
    rewrite (IH _ Hall). by apply fare_history_after.
Qed.

Lemma fare_history_is_append_only_witness :
  FareHistory (after_all decimal_key example_calls example_db) = FareHistory example_db.
Proof.
  apply (proj2 (fare_history_is_append_only decimal_key example_calls example_db)).
  repeat constructor.
Defined.

(** ** The simulator in a calm world *)

Lemma simulate_flight_calm f db w :
  fault_at w = None ->
  exists change price w',
    -3 <= change <= 2 /\ fault_at w' = None /\
    simulate_flight f (db, w) =
    (Return tt,
     (mkDB (alter (set_seats (Z.max 0 (Z.min (total_seats f.2) (seats_available f.2 + change))))
              f.1 (Flights db))
        (Bookings db) (Passengers db)
        (FareHistory db ++
           [mkFareHistoryRow f.1 (base_fare f.2) price
              (Z.max 0 (Z.min (total_seats f.2) (seats_available f.2 + change)))
              (total_seats f.2) "simulator"]), w')).
Proof.
  intros Hw. unfold simulate_flight. rewrite bind_ambient.
  set (c := random_choice (-3) [-2; -1; 0; 1; 2] w).
  assert (Hc : -3 <= c.1 <= 2).
  { pose proof (random_choice_in (-3) [-2; -1; 0; 1; 2] w) as Hin. fold c in Hin.
    repeat (apply elem_of_cons in Hin as [->|Hin]; [lia|]). by apply elem_of_nil in Hin. }
  assert (Hw1 : fault_at c.2 = None).
  { unfold c. rewrite fault_blind_fault_at by apply fault_blind_random_choice. exact Hw. }
  rewrite bind_execute_ok by exact Hw1. rewrite bind_ambient.
  set (d := random_uniform (-0.5) 1 c.2).
  assert (Hw2 : fault_at d.2 = None).
  { unfold d. rewrite fault_blind_fault_at by apply fault_blind_random_uniform. exact Hw1. }
  rewrite bind_datetime_now, bind_ambient.
  match goal with |- context [calculate_dynamic_price ?a ?b ?c ?d ?e ?w] =>
    set (p := calculate_dynamic_price a b c d e w) end.
  assert (Hw3 : fault_at p.2 = None).
  { unfold p. rewrite fault_blind_fault_at by apply fault_blind_calculate_dynamic_price. exact Hw2. }
  rewrite execute_ok by exact Hw3.
  exists c.1, p.1, p.2. split; [exact Hc|]. split; [exact Hw3|]. reflexivity.
Qed.

(** The loop of the simulator over a snapshot [l] of flight rows with
    distinct keys. *)
Lemma for_each_simulate_calm l db w :
  fault_at w = None -> NoDup (map fst l) ->
  exists db' w',
    fault_at w' = None /\
    for_each l simulate_flight (db, w) = (Return tt, (db', w')) /\
    Bookings db' = Bookings db /\ Passengers db' = Passengers db /\
    length (FareHistory db') = (length (FareHistory db) + length l)%nat /\
    (forall k, k ∉ map fst l -> Flights db' !! k = Flights db !! k) /\
    (forall k f, (k, f) ∈ l ->
       exists change, -3 <= change <= 2 /\
         Flights db' !! k
         = set_seats (Z.max 0 (Z.min (total_seats f) (seats_available f + change)))
             <$> Flights db !! k).
Proof.
  revert db w. induction l as [|x l IH]; intros db w Hw Hnd.
  - exists db, w. split; [exact Hw|]. split; [reflexivity|].
    split; [reflexivity|]. split; [reflexivity|]. split; [cbn; lia|].
    split; [reflexivity|]. intros k f Hin. by apply elem_of_nil in Hin.
  - cbn [map] in Hnd. apply NoDup_cons in Hnd as [Hx Hnd].
    destruct (simulate_flight_calm x db w Hw) as (change & price & w1 & Hc & Hw1 & E1).
    cbn [for_each]. unfold bind at 1. rewrite E1.
    match type of E1 with _ = (_, (?d, _)) => set (db1 := d) in * end.
    destruct (IH db1 w1 Hw1 Hnd) as (db' & w' & Hw' & E & Hb & Hp & Hlen & Hout & Hin).
    exists db', w'. split; [exact Hw'|]. split; [exact E|].
    split; [rewrite Hb; reflexivity|]. split; [rewrite Hp; reflexivity|].
    split; [rewrite Hlen; unfold db1; cbn [FareHistory]; rewrite length_app; cbn; lia|].
    split.
    + intros k Hk. cbn [map] in Hk. apply not_elem_of_cons in Hk as [Hne Hk].
      rewrite (Hout k Hk). unfold db1. cbn [Flights].
      rewrite lookup_alter_ne by (intros Heq; apply Hne; symmetry; exact Heq). reflexivity.
    + intros k f Hkf. apply elem_of_cons in Hkf as [Heq|Hkf].
      * subst x. exists change. split; [exact Hc|]. cbn [fst snd] in *.
        rewrite (Hout _ Hx). unfold db1. cbn [Flights]. rewrite lookup_alter_eq. reflexivity.
      * destruct (Hin k f Hkf) as (c2 & Hc2 & Hk). exists c2. split; [exact Hc2|].
        rewrite Hk. unfold db1. cbn [Flights]. rewrite lookup_alter_ne; [reflexivity|].
        intros Heq. apply Hx. rewrite Heq. apply list_elem_of_fmap. exists (k, f).
        split; [reflexivity|exact Hkf].
Qed.

(** X14: a tick of the simulator in which the driver does not fault
    returns and keeps its writes: every flight gets the seat count
    [max(0, min(total_seats, seats_available + change))] for a change
    between -3 and 2 computed from the row as it was at the start of the
    tick, so that afterwards every flight of non-negative capacity has
    between 0 and [total_seats] seats, whatever it had before; exactly one
    fare-history row per flight is added; bookings and passengers are not
    touched. *)
Theorem tick_clamps_seats (db : DB) (w : World) :
  fault_at w = None ->
  exists db' w',
    simulate_tick (db, w) = (Return tt, (db', w')) /\
    Bookings db' = Bookings db /\ Passengers db' = Passengers db /\
    length (FareHistory db') = (length (FareHistory db) + size (Flights db))%nat /\
    (forall fid, Flights db !! fid = None -> Flights db' !! fid = None) /\
    (forall fid f, Flights db !! fid = Some f ->
       exists change, -3 <= change <= 2 /\
         Flights db' !! fid
         = Some (set_seats
                   (Z.max 0 (Z.min (total_seats f) (seats_available f + change))) f)) /\
    (forall fid f', Flights db' !! fid = Some f' -> 0 <= total_seats f' ->
       0 <= seats_available f' <= total_seats f').
Proof.
  intros Hw.
  destruct (for_each_simulate_calm (rows (Flights db)) db w Hw (NoDup_keys_rows _))
    as (db' & w' & Hw' & E & Hb & Hp & Hlen & Hout & Hin).
  assert (Hsome : forall fid f, Flights db !! fid = Some f ->
            exists change, -3 <= change <= 2 /\
              Flights db' !! fid
              = Some (set_seats
                        (Z.max 0 (Z.min (total_seats f) (seats_available f + change))) f)).
  { intros fid f Hf. destruct (Hin fid f) as (c & Hc & Hk); [by apply elem_of_rows|].
    exists c. split; [exact Hc|]. rewrite Hk, Hf. reflexivity. }
  assert (Hnone : forall fid, Flights db !! fid = None -> Flights db' !! fid = None).
  { intros fid Hf. rewrite Hout; [exact Hf|]. intros Hk.
    apply list_elem_of_fmap in Hk as ([k f] & -> & Hk). apply elem_of_rows in Hk.
    cbn [fst] in Hf. congruence. }
  exists db', w'. split.
  { unfold simulate_tick, try_except.
    erewrite transaction_ok; [reflexivity| |exact Hw'].
    rewrite bind_query_ok by exact Hw. exact E. }
  split; [exact Hb|]. split; [exact Hp|].
  split; [rewrite Hlen, length_rows; reflexivity|].
  split; [exact Hnone|]. split; [exact Hsome|].
  intros fid f' Hf' Ht. destruct (Flights db !! fid) as [f|] eqn:Hf.
  - destruct (Hsome fid f Hf) as (c & Hc & Hk). rewrite Hk in Hf'.
    inversion Hf'; subst f'. cbn in *. lia.
  - rewrite (Hnone fid Hf) in Hf'. discriminate.
Qed.

Lemma tick_clamps_seats_witness :
  exists db' w',
    simulate_tick (three_flights, constant_world 2 None) = (Return tt, (db', w')) /\
    Bookings db' = Bookings three_flights /\ Passengers db' = Passengers three_flights /\
    length (FareHistory db')
    = (length (FareHistory three_flights) + size (Flights three_flights))%nat /\
    (forall fid, Flights three_flights !! fid = None -> Flights db' !! fid = None) /\
    (forall fid f, Flights three_flights !! fid = Some f ->
       exists change, -3 <= change <= 2 /\
         Flights db' !! fid
         = Some (set_seats
                   (Z.max 0 (Z.min (total_seats f) (seats_available f + change))) f)) /\
    (forall fid f', Flights db' !! fid = Some f' -> 0 <= total_seats f' ->
       0 <= seats_available f' <= total_seats f').
Proof.
  exact (tick_clamps_seats three_flights (constant_world 2 None) eq_refl).
Defined.

(** ** Failures under a faulting driver *)

Lemma foc_ret P {A} (a : A) : fails_or_calm P (ret a).
Proof. intros db w. right. by exists (Return a), db, w. Qed.

Lemma foc_raise P {A} e : fails_or_calm P (@raise A e).
Proof. intros db w. right. by exists (Raised e), db, w. Qed.

Lemma foc_datetime_now P : fails_or_calm P datetime_now.
Proof. intros db w. right. by exists (Return (clock w)), db, w. Qed.

Lemma foc_NOW P : fails_or_calm P NOW.
Proof. intros db w. right. by exists (Return (server_clock w)), db, w. Qed.

Lemma foc_ambient P {A} (f : World -> A * World) :
  fault_blind f -> fails_or_calm P (ambient f).
Proof.
  intros Hf db w. right. exists (Return (f w).1), db, (f w).2. unfold ambient, calm.
  rewrite Hf. destruct (f w). split; reflexivity.
Qed.

Lemma foc_execute (P : Exception -> Prop) {A} (stmt : DB -> A * DB) :
  P DBAPIError -> fails_or_calm P (execute stmt).
Proof.
  intros HP db w. unfold execute. cbn [calm with_fault fault_at].
  destruct (fault_at w) as [[|k]|] eqn:E.
  - left. eauto.
  - right. destruct (stmt db) as [a db1]. by exists (Return a), db1, (with_fault w (Some k)).
  - right. destruct (stmt db) as [a db1]. by exists (Return a), db1, w.
Qed.

Lemma foc_query (P : Exception -> Prop) {A} (q : DB -> A) :
  P DBAPIError -> fails_or_calm P (query q).
Proof. apply foc_execute. Qed.

Lemma foc_bind P {A B} (c : M A) (k : A -> M B) :
  fails_or_calm P c -> (forall a, fails_or_calm P (k a)) -> fails_or_calm P (bind c k).
Proof.
  intros Hc Hk db w. unfold bind.
  destruct (Hc db w) as [(e & s' & E & He)|(r & db1 & w1 & E & Ec)].
  - left. exists e, s'. rewrite E. split; [reflexivity|exact He].
  - rewrite E, Ec. destruct r as [a|e].
    + exact (Hk a db1 w1).
    + right. by exists (Raised e), db1, w1.
Qed.

Lemma foc_transaction (P : Exception -> Prop) {A} (body : M A) :
  P DBAPIError -> fails_or_calm P body -> fails_or_calm P (transaction body).
Proof.
  intros HP Hb db w. unfold transaction.
  assert (H : fails_or_calm P (do a <- body; run query (fun _ => tt); ret a)).
  { apply foc_bind; [exact Hb|]. intros a.
    apply foc_bind; [by apply foc_query|]. intros _. apply foc_ret. }
  destruct (H db w) as [(e & [db1 w1] & E & He)|(r & db1 & w1 & E & Ec)].
  - left. exists e, (db, w1). rewrite E. split; [reflexivity|exact He].
  - right. cbn [calm with_fault] in *. rewrite E, Ec. destruct r as [a|e].
    + by exists (Return a), db1, w1.
    + by exists (Raised e), db, w1.
Qed.

Lemma foc_try_except (P Q : Exception -> Prop) {A} (body : M A)
    (handler : Exception -> M A) (h : Exception -> Exception) :
  (forall e, handler e = raise (h e)) -> (forall e, P e -> Q (h e)) ->
  fails_or_calm P body -> fails_or_calm Q (try_except body handler).
Proof.
  intros Hh HPQ Hb db w. unfold try_except.
  destruct (Hb db w) as [(e & s' & E & He)|(r & db1 & w1 & E & Ec)].
  - left. exists (h e), s'. rewrite E, Hh. split; [reflexivity|by apply HPQ].
  - right. rewrite E, Ec. destruct r as [a|e].
    + by exists (Return a), db1, w1.
    + rewrite Hh. by exists (Raised (h e)), db1, w1.
Qed.

Lemma foc_read_back (P : Exception -> Prop) bid :
  P DBAPIError -> fails_or_calm P (read_back bid).
Proof.
  intros HP. unfold read_back. apply foc_bind; [by apply foc_query|].
  intros [b|]; [apply foc_ret|apply foc_raise].
Qed.

Lemma foc_call_calculate_dynamic_price P bf sa ts dep d :
  fails_or_calm P (call_calculate_dynamic_price bf sa ts dep d).
Proof.
  unfold call_calculate_dynamic_price. destruct dep as [t|t]; [|apply foc_raise].
  apply foc_ambient, fault_blind_calculate_dynamic_price.
Qed.

Lemma foc_start_booking_reserve req :
  fails_or_calm
    (fun e => e = HTTPException 500 ("Could not start booking: " ++ str_exception DBAPIError))
    (start_booking_reserve req).
Proof.
  unfold start_booking_reserve.
  eapply (foc_try_except (fun e => e = DBAPIError) _ _ _
            (fun e => match e with
                      | HTTPException _ _ => e
                      | _ => HTTPException 500
                               ("Could not start booking: " ++ str_exception e)
                      end)).
  - intros [c d| |m]; reflexivity.
  - intros e ->. reflexivity.
  - apply foc_transaction; [reflexivity|].
    apply foc_bind; [by apply foc_query|]. intros [locked|]; [|apply foc_raise].
    cbv zeta. destruct (seats_available locked <=? 0); [apply foc_raise|].
    apply foc_bind; [by apply foc_query|]. intros passenger.
    apply foc_bind; [destruct passenger; [apply foc_ret|by apply foc_execute]|].
    intros passenger_id.
    apply foc_bind; [by apply foc_query|]. intros departure_q.
    apply foc_bind; [apply foc_datetime_now|]. intros now.
    apply foc_bind; [apply foc_call_calculate_dynamic_price|].
    intros dynamic_price.
    apply foc_bind; [apply foc_NOW|]. intros booking_date.
    apply foc_bind; [by apply foc_execute|]. intros booking_id.
    apply foc_bind; [by apply foc_execute|]. intros _. apply foc_ret.
Qed.

Lemma foc_start_booking_rest req :
  fails_or_calm
    (fun e => e = HTTPException 500 ("Could not start booking: " ++ str_exception DBAPIError))
    (do held <- start_booking_reserve req; start_booking_respond req held).
Proof.
  apply foc_bind; [apply foc_start_booking_reserve|]. intros [[[bid pid] seat] p].
  unfold start_booking_respond. apply foc_bind; [apply foc_datetime_now|].
  intros now. apply foc_ret.
Qed.

(** X15: every way [start_booking] can fail.  The exception it raises is
    the driver's own error, unhandled, exactly when the first statement
    (outside the [try]) faults; 404 "Flight not found" when the flight
    does not exist; 409 "No seats available" when the flight has no seat
    left; 500 "Could not start booking: can't subtract offset-naive and
    offset-aware datetimes" when the flight has a seat left and its
    departure is read as a naive datetime, no fault of the driver being
    needed; and otherwise 500 "Could not start booking: ..." wrapping a
    driver error raised inside the transaction.  In particular "Flight not
    found (locked)" is never raised by a call that runs alone. *)
Theorem start_booking_errors (req : StartBookingRequest) (db : DB) (w : World)
    (e : Exception) (s' : DB * World) :
  start_booking req (db, w) = (Raised e, s') ->
  (e = DBAPIError /\ fault_at w = Some 0%nat) \/
  (e = HTTPException 404 "Flight not found" /\ Flights db !! req_flight_id req = None) \/
  (e = HTTPException 409 "No seats available" /\
     exists f, Flights db !! req_flight_id req = Some f /\ seats_available f <= 0) \/
  (e = HTTPException 500
         "Could not start booking: can't subtract offset-naive and offset-aware datetimes" /\
     exists f t, Flights db !! req_flight_id req = Some f /\ 0 < seats_available f /\
       departure_date_time f = naive t) \/
  (e = HTTPException 500 ("Could not start booking: " ++ str_exception DBAPIError) /\
     exists k f, fault_at w = Some (S k) /\ Flights db !! req_flight_id req = Some f).
Proof.
  intros E.
  assert (Hcalm : forall w0 s0, fault_at w0 = None ->
            start_booking req (db, w0) = (Raised e, s0) ->
            (e = HTTPException 404 "Flight not found" /\
               Flights db !! req_flight_id req = None) \/
            (e = HTTPException 409 "No seats available" /\
               exists f, Flights db !! req_flight_id req = Some f /\ seats_available f <= 0) \/
            (e = HTTPException 500
                   "Could not start booking: can't subtract offset-naive and offset-aware datetimes" /\
               exists f t, Flights db !! req_flight_id req = Some f /\ 0 < seats_available f /\
                 departure_date_time f = naive t)).
  { intros w0 s0 Hw0 E0. pose proof (start_booking_calm req db w0 Hw0) as H.
    destruct (Flights db !! req_flight_id req) as [f|] eqn:Hf.
    - right. destruct (Z.leb_spec (seats_available f) 0) as [Hle|Hgt].
      + left. rewrite E0 in H. inversion H. split; [reflexivity|eauto].
      + right. destruct (departure_date_time f) as [t|t] eqn:Ht.
        * destruct H as (w2 & _ & H). rewrite E0 in H. discriminate.
        * rewrite E0 in H. inversion H. split; [reflexivity|eauto].
    - left. rewrite E0 in H. inversion H. split; reflexivity. }
  destruct (fault_at w) as [[|k]|] eqn:Hw.
  - left. unfold start_booking, start_booking_validate, query in E.
    unfold bind at 1 in E. rewrite bind_execute_fault_now in E by exact Hw.
    inversion E. split; reflexivity.
  - right. unfold start_booking, start_booking_validate, query in E.
    unfold bind at 1 in E. rewrite (bind_execute_fault_later _ _ _ _ k) in E by exact Hw.
    cbn [fst snd] in E. unfold select_flight in E.
    pose proof (start_booking_validate_calm req db (calm w) eq_refl) as Hv.
    destruct (Flights db !! req_flight_id req) as [f|] eqn:Hf.
    2: { left. inversion E. split; reflexivity. }
    cbn in E.
    assert (Hrest : start_booking req (db, calm w)
                    = (do held <- start_booking_reserve req; start_booking_respond req held)
                        (db, calm w)).
    { unfold start_booking. unfold bind at 1. rewrite Hv. reflexivity. }
    destruct (foc_start_booking_rest req db (with_fault w (Some k)))
      as [(e' & s2 & E2 & ->)|(r & db1 & w1 & E2 & Ec)].
    + right. right. right. rewrite E in E2. inversion E2. split; [reflexivity|eauto].
    + rewrite E in E2. inversion E2; subst r.
      change (calm (with_fault w (Some k))) with (calm w) in Ec.
      rewrite <- Hrest in Ec.
      destruct (Hcalm (calm w) _ eq_refl Ec) as [[_ H]|[H|H]]; [congruence|auto|auto].
  - right. destruct (Hcalm w s' Hw E) as [H|[H|H]]; auto.
Qed.

Lemma start_booking_errors_witness :
  (exists f t, Flights example_db !! req_flight_id example_request = Some f /\
     0 < seats_available f /\ departure_date_time f = naive t) /\
  (exists k f, fault_at (constant_world 0 (Some 3%nat)) = Some (S k) /\
     Flights example_db !! req_flight_id example_request = Some f).
Proof.
  split.
  - destruct (start_booking_errors example_request example_db example_world
                (HTTPException 500
                   "Could not start booking: can't subtract offset-naive and offset-aware datetimes")
                (start_booking example_request (example_db, example_world)).2)
      as [[H _]|[[H _]|[[H _]|[[_ H]|[H _]]]]];
      [vm_compute; reflexivity|discriminate..|exact H|discriminate].
  - destruct (start_booking_errors example_request example_db (constant_world 0 (Some 3%nat))
                (HTTPException 500 "Could not start booking: DBAPIError")
                (start_booking example_request
                   (example_db, constant_world 0 (Some 3%nat))).2)
      as [[H _]|[[H _]|[[H _]|[[H _]|[_ H]]]]];
      [vm_compute; reflexivity|discriminate..|exact H].
Defined.

(** X16: every way [confirm_payment] can fail: the driver's own error,
    unhandled, exactly when the first statement faults; 404 "Booking not
    found"; 400 "Booking not in PENDING state" naming the current status;
    and otherwise 500 "Payment update error: ..." wrapping a driver error
    raised inside the transaction, for a booking that was PENDING.  No
    other exception escapes; the [TypeError] of reading back a missing
    row cannot occur. *)
Theorem confirm_payment_errors (req : PaymentRequest) (db : DB) (w : World)
    (e : Exception) (s' : DB * World) :
  confirm_payment req (db, w) = (Raised e, s') ->
  (e = DBAPIError /\ fault_at w = Some 0%nat) \/
  (e = HTTPException 404 "Booking not found" /\ Bookings db !! booking_id req = None) \/
  (exists b, Bookings db !! booking_id req = Some b /\ status b <> PENDING /\
     e = HTTPException 400
           ("Booking not in PENDING state (current: " ++ status_name (status b) ++ ")")) \/
  (e = HTTPException 500 ("Payment update error: " ++ str_exception DBAPIError) /\
     exists k b, fault_at w = Some (S k) /\ Bookings db !! booking_id req = Some b /\
       status b = PENDING).
Proof.
  intros E. destruct (fault_at w) as [[|k]|] eqn:Hw.
  - left. unfold confirm_payment, query in E.
    rewrite bind_execute_fault_now in E by exact Hw. inversion E. split; reflexivity.
  - right.
    assert (Hcalm : confirm_payment req (db, calm w) = confirm_payment req (db, calm w))
      by reflexivity.
    unfold confirm_payment at 2 in Hcalm. rewrite bind_query_ok in Hcalm by reflexivity.
    unfold confirm_payment in E. unfold query at 1 in E.
    rewrite (bind_execute_fault_later _ _ _ _ k) in E by exact Hw.
    cbn [fst snd] in E. unfold select_booking in *.
    pose proof (confirm_payment_calm req db (calm w) eq_refl) as Hc.
    destruct (Bookings db !! booking_id req) as [b|] eqn:Hb.
    2: { left. inversion E. split; reflexivity. }
    right. destruct (decide (status b = PENDING)) as [Hp|Hp].
    2: { left. rewrite bool_decide_eq_false_2 in E by exact Hp. inversion E. eauto. }
    right. rewrite bool_decide_eq_true_2 in E, Hcalm by exact Hp. cbn [negb] in E, Hcalm.
    match type of E with ?c _ = _ =>
      assert (Hfoc : fails_or_calm
                (fun e => e = HTTPException 500
                                ("Payment update error: " ++ str_exception DBAPIError)) c)
    end.
    { apply foc_bind.
      { destruct (simulate_success req);
          [apply foc_ret|apply foc_ambient, fault_blind_random_choice]. }
      intros success.
      eapply (foc_try_except (fun e => e = DBAPIError) _ _ _
                (fun e => HTTPException 500 ("Payment update error: " ++ str_exception e))).
      - intros e0. reflexivity.
      - intros e0 ->. reflexivity.
      - apply foc_transaction; [reflexivity|].
        apply foc_bind; [by apply foc_query|]. intros _. destruct success.
        + apply foc_bind; [apply foc_ambient, fault_blind_generate_pnr|]. intros code.
          apply foc_bind; [apply foc_NOW|]. intros now.
          apply foc_bind; [by apply foc_execute|]. intros _. by apply foc_read_back.
        + apply foc_bind; [apply foc_NOW|]. intros now.
          apply foc_bind; [by apply foc_execute|]. intros _.
          apply foc_bind; [by apply foc_execute|]. intros _. by apply foc_read_back. }
    destruct (Hfoc db (with_fault w (Some k))) as [(e' & s2 & E2 & ->)|(r & db1 & w1 & E2 & Ec)].
    + rewrite E in E2. inversion E2. split; [reflexivity|eauto].
    + exfalso. rewrite E in E2. inversion E2; subst r.
      change (calm (with_fault w (Some k))) with (calm w) in Ec.
      rewrite <- Hcalm in Ec. destruct Hc as (w2 & _ & Hc). rewrite Ec in Hc.
      destruct (payment_outcome req (calm w)).1; discriminate.
  - right. pose proof (confirm_payment_calm req db w Hw) as Hc.
    destruct (Bookings db !! booking_id req) as [b|] eqn:Hb.
    + right. left. destruct (decide (status b = PENDING)) as [Hp|Hp].
      * destruct Hc as (w2 & _ & Hc). rewrite E in Hc.
        destruct (payment_outcome req w).1; discriminate.
      * rewrite E in Hc. inversion Hc. eauto.
    + left. rewrite E in Hc. inversion Hc. split; reflexivity.
Qed.

Lemma confirm_payment_errors_witness :
  exists k b, fault_at (constant_world 0 (Some 3%nat)) = Some (S k) /\
    Bookings example_held_db !! booking_id example_payment = Some b /\ status b = PENDING.
Proof.
  destruct (confirm_payment_errors example_payment example_held_db
              (constant_world 0 (Some 3%nat))
              (HTTPException 500 "Payment update error: DBAPIError")
              (confirm_payment example_payment
                 (example_held_db, constant_world 0 (Some 3%nat))).2)
    as [[H _]|[[H _]|[(b & _ & _ & H)|[_ H]]]];
    [vm_compute; reflexivity|discriminate..|exact H].
Defined.

(** X17: every way [cancel_booking] can fail: the driver's own error,
    unhandled, exactly when the first statement faults; 404 "Booking not
    found" when no row matches the text as a code or as an id; 400
    "Booking already cancelled" when the row found is CANCELLED; and
    otherwise 500 "Cancel error: ..." wrapping a driver error raised
    inside the transaction. *)
Theorem cancel_booking_errors (text_is_key : string -> Z -> bool) (req : CancelRequest)
    (db : DB) (w : World) (e : Exception) (s' : DB * World) :
  cancel_booking text_is_key req (db, w) = (Raised e, s') ->
  (e = DBAPIError /\ fault_at w = Some 0%nat) \/
  (e = HTTPException 404 "Booking not found" /\
     select_booking_by_pnr_or_id text_is_key (req_pnr req) db = None) \/
  (e = HTTPException 400 "Booking already cancelled" /\
     exists bid b, select_booking_by_pnr_or_id text_is_key (req_pnr req) db = Some (bid, b) /\
       status b = CANCELLED) \/
  (e = HTTPException 500 ("Cancel error: " ++ str_exception DBAPIError) /\
     exists k bid b, fault_at w = Some (S k) /\
       select_booking_by_pnr_or_id text_is_key (req_pnr req) db = Some (bid, b) /\
       status b <> CANCELLED).
Proof.
  intros E. destruct (fault_at w) as [[|k]|] eqn:Hw.
  - left. unfold cancel_booking, query in E.
    rewrite bind_execute_fault_now in E by exact Hw. inversion E. split; reflexivity.
  - right.
    assert (Hcalm : cancel_booking text_is_key req (db, calm w)
                    = cancel_booking text_is_key req (db, calm w)) by reflexivity.
    unfold cancel_booking at 2 in Hcalm. rewrite bind_query_ok in Hcalm by reflexivity.
    unfold cancel_booking in E. unfold query at 1 in E.
    rewrite (bind_execute_fault_later _ _ _ _ k) in E by exact Hw.
    cbn [fst snd] in E.
    pose proof (cancel_booking_calm text_is_key req db (calm w) eq_refl) as Hc.
    destruct (select_booking_by_pnr_or_id text_is_key (req_pnr req) db) as [[bid b]|] eqn:Hb.
    2: { left. inversion E. split; reflexivity. }
    right. destruct (decide (status b = CANCELLED)) as [Hp|Hp].
    { left. rewrite bool_decide_eq_true_2 in E by exact Hp. inversion E. eauto. }
    right. rewrite bool_decide_eq_false_2 in E, Hcalm by exact Hp.
    match type of E with ?c _ = _ =>
      assert (Hfoc : fails_or_calm
                (fun e => e = HTTPException 500 ("Cancel error: " ++ str_exception DBAPIError))
                c)
    end.
    { eapply (foc_try_except (fun e => e = DBAPIError) _ _ _
                (fun e => HTTPException 500 ("Cancel error: " ++ str_exception e))).
      - intros e0. reflexivity.
      - intros e0 ->. reflexivity.
      - apply foc_transaction; [reflexivity|].
        apply foc_bind; [by apply foc_query|]. intros _.
        apply foc_bind; [by apply foc_execute|]. intros _.
        apply foc_bind; [by apply foc_execute|]. intros _. by apply foc_read_back. }
    destruct (Hfoc db (with_fault w (Some k))) as [(e' & s2 & E2 & ->)|(r & db1 & w1 & E2 & Ec)].
    + rewrite E in E2. inversion E2. split; [reflexivity|eauto 6].
    + exfalso. rewrite E in E2. inversion E2; subst r.
      change (calm (with_fault w (Some k))) with (calm w) in Ec.
      rewrite <- Hcalm in Ec. rewrite Ec in Hc. discriminate.
  - right. pose proof (cancel_booking_calm text_is_key req db w Hw) as Hc.
    destruct (select_booking_by_pnr_or_id text_is_key (req_pnr req) db) as [[bid b]|] eqn:Hb.
    + right. left. destruct (decide (status b = CANCELLED)) as [Hp|Hp].
      * rewrite E in Hc. inversion Hc. eauto.
      * rewrite E in Hc. discriminate.
    + left. rewrite E in Hc. inversion Hc. split; reflexivity.
Qed.


Lemma cancel_booking_errors_witness :
  exists k bid b, fault_at (constant_world 0 (Some 3%nat)) = Some (S k) /\
    select_booking_by_pnr_or_id decimal_key (req_pnr (mkCancelRequest "1")) example_held_db
    = Some (bid, b) /\ status b <> CANCELLED.
Proof.
  destruct (cancel_booking_errors decimal_key (mkCancelRequest "1") example_held_db
              (constant_world 0 (Some 3%nat))
              (HTTPException 500 "Cancel error: DBAPIError")
              (cancel_booking decimal_key (mkCancelRequest "1")
                 (example_held_db, constant_world 0 (Some 3%nat))).2)
    as [[H _]|[[H _]|[[H _]|[_ H]]]];
    [vm_compute; reflexivity|discriminate..|exact H].
Defined.

(** ** Concurrent cancellations *)

Lemma cancel_booking_steps tk req s :
  cancel_booking tk req s
  = (do found <- cancel_booking_find tk req; cancel_booking_release found) s.
Proof.
  unfold cancel_booking, cancel_booking_find, bind.
  destruct (query (select_booking_by_pnr_or_id tk (req_pnr req)) s)
    as [[[[bid b]|]|e] s1]; try reflexivity.
  destruct (bool_decide (status b = CANCELLED)); reflexivity.
Qed.

Lemma cancel_booking_find_calm tk req db w bid b :
  fault_at w = None ->
  select_booking_by_pnr_or_id tk (req_pnr req) db = Some (bid, b) ->
  status b <> CANCELLED ->
  cancel_booking_find tk req (db, w) = (Return (bid, b), (db, w)).
Proof.
  intros Hw E Hs. unfold cancel_booking_find. rewrite bind_query_ok by exact Hw.
  rewrite E, bool_decide_eq_false_2 by exact Hs. reflexivity.
Qed.

Lemma cancel_booking_release_calm bid b b0 db w :
  fault_at w = None -> Bookings db !! bid = Some b0 ->
  cancel_booking_release (bid, b) (db, w)
  = (Return (response_of bid (set_cancelled b0)),
     (mkDB (released_flights (flight_id b) db) (alter set_cancelled bid (Bookings db))
        (Passengers db) (FareHistory db), w)).
Proof.
  intros Hw Hb. unfold cancel_booking_release, try_except.
  erewrite transaction_ok; [reflexivity| |exact Hw].
  rewrite bind_query_ok by exact Hw.
  rewrite bind_execute_ok by exact Hw. rewrite bind_execute_ok by exact Hw.
  cbn [update_booking update_seats_by fst snd].
  erewrite read_back_calm; [reflexivity|exact Hw|].
  cbn [Bookings set_Bookings set_Flights]. rewrite lookup_alter_eq, Hb. reflexivity.
Qed.

(** X18: the status check of [cancel_booking] is made before the
    transaction takes the lock on the flight row, and the transaction does
    not repeat it.  When two cancellations of the same booking, not yet
    cancelled, both make their check before either runs its transaction,
    both succeed with a CANCELLED response, and the flight gets two seats
    back for the one booking: from a ledger that agrees with the bookings,
    the flight ends with one seat more than its capacity less its live
    bookings. *)
Theorem concurrent_cancels_release_twice (text_is_key : string -> Z -> bool)
    (req1 req2 : CancelRequest) (db : DB) (w1 w2 : World) (bid : Z) (b : Booking)
    (f : Flight) :
  fault_at w1 = None -> fault_at w2 = None ->
  select_booking_by_pnr_or_id text_is_key (req_pnr req1) db = Some (bid, b) ->
  select_booking_by_pnr_or_id text_is_key (req_pnr req2) db = Some (bid, b) ->
  status b <> CANCELLED ->
  Flights db !! flight_id b = Some f ->
  (forall req s,
     cancel_booking text_is_key req s
     = (do found <- cancel_booking_find text_is_key req; cancel_booking_release found) s) /\
  exists db1 db2 resp1 resp2,
    cancel_booking_find text_is_key req1 (db, w1) = (Return (bid, b), (db, w1)) /\
    cancel_booking_find text_is_key req2 (db, w2) = (Return (bid, b), (db, w2)) /\
    cancel_booking_release (bid, b) (db, w1) = (Return resp1, (db1, w1)) /\
    cancel_booking_release (bid, b) (db1, w2) = (Return resp2, (db2, w2)) /\
    r_status resp1 = CANCELLED /\ r_status resp2 = CANCELLED /\
    Bookings db2 = Bookings db1 /\
    Flights db2 !! flight_id b = Some (set_seats (seats_available f + 2) f) /\
    (ledger_balanced db ->
     seats_available f + 2
     = total_seats f - held_seats (flight_id b) (Bookings db2) + 1).
Proof.
  intros Hw1 Hw2 E1 E2 Hs Hf. split; [intros req s; apply cancel_booking_steps|].
  pose proof E1 as Hb. unfold select_booking_by_pnr_or_id in Hb.
  apply first_row_least in Hb as [Hb _].
  set (db1 := mkDB (released_flights (flight_id b) db) (alter set_cancelled bid (Bookings db))
                (Passengers db) (FareHistory db)).
  assert (Hb1 : Bookings db1 !! bid = Some (set_cancelled b)).
  { unfold db1. cbn [Bookings]. rewrite lookup_alter_eq, Hb. reflexivity. }
  set (db2 := mkDB (released_flights (flight_id b) db1)
                (alter set_cancelled bid (Bookings db1)) (Passengers db1) (FareHistory db1)).
  exists db1, db2, (response_of bid (set_cancelled b)),
    (response_of bid (set_cancelled (set_cancelled b))).
  split; [by apply cancel_booking_find_calm|].
  split; [by apply cancel_booking_find_calm|].
  split; [by apply cancel_booking_release_calm|].
  split; [by apply cancel_booking_release_calm|].
  split; [reflexivity|]. split; [reflexivity|].
  assert (Hsame : Bookings db2 = Bookings db1).
  { unfold db2. cbn [Bookings]. rewrite (alter_present _ _ _ _ Hb1).
    apply map_eq. intros k. destruct (decide (bid = k)) as [->|Hne].
    - rewrite lookup_insert_eq, Hb1. reflexivity.
    - rewrite lookup_insert_ne by exact Hne. reflexivity. }
  split; [exact Hsame|]. split.
  - unfold db2, db1, released_flights. cbn [Flights].
    rewrite !lookup_alter_eq, Hf. cbn. unfold set_seats. cbn. do 2 f_equal. lia.
  - intros Hbal. rewrite Hsame. unfold db1. cbn [Bookings].
    rewrite (held_seats_alter _ _ _ _ _ Hb). rewrite (Hbal _ _ Hf).
    rewrite !seat_of_cases. destruct (decide (flight_id b = flight_id b)); [|contradiction].
    cbn [set_cancelled flight_id]. destruct (decide (flight_id b = flight_id b)); [|contradiction].
    unfold holds_seat. cbn [status set_cancelled]. destruct (status b); [lia|lia|contradiction].
Qed.

Lemma concurrent_cancels_release_twice_witness :
  exists db1 db2 resp1 resp2,
    cancel_booking_find decimal_key (mkCancelRequest "1") (example_held_db, example_world)
    = (Return (1, example_held_booking), (example_held_db, example_world)) /\
    cancel_booking_find decimal_key (mkCancelRequest "1") (example_held_db, late_world)
    = (Return (1, example_held_booking), (example_held_db, late_world)) /\
    cancel_booking_release (1, example_held_booking) (example_held_db, example_world)
    = (Return resp1, (db1, example_world)) /\
    cancel_booking_release (1, example_held_booking) (db1, late_world)
    = (Return resp2, (db2, late_world)) /\
    r_status resp1 = CANCELLED /\ r_status resp2 = CANCELLED /\
    Bookings db2 = Bookings db1 /\
    Flights db2 !! flight_id example_held_booking
    = Some (set_seats (seats_available (set_seats 1 example_flight) + 2)
              (set_seats 1 example_flight)) /\
    (ledger_balanced example_held_db ->
     seats_available (set_seats 1 example_flight) + 2
     = total_seats (set_seats 1 example_flight)
       - held_seats (flight_id example_held_booking) (Bookings db2) + 1).
Proof.
  refine (proj2 (concurrent_cancels_release_twice decimal_key (mkCancelRequest "1")
                   (mkCancelRequest "1") example_held_db example_world late_world 1
                   example_held_booking (set_seats 1 example_flight) eq_refl eq_refl
                   example_cancel_lookup example_cancel_lookup _ _)).
  - discriminate.
  - vm_compute. reflexivity.
Defined.

(** ** Cancellation by code or by id *)

(** X19: [cancel_booking] matches the text of the request against the
    code and against the id of every booking, and takes the first match in
    id order.  When the text is the code of booking [k2] and also compares
    equal to the id [k1] of an earlier booking that is not cancelled (and
    nothing earlier matches), the call cancels booking [k1] and leaves the
    booking that carries the code as it is. *)
Theorem cancel_by_code_hits_id (text_is_key : string -> Z -> bool) (code : string)
    (db : DB) (w : World) (k1 k2 : Z) (b1 b2 : Booking) :
  fault_at w = None ->
  Bookings db !! k1 = Some b1 -> text_is_key code k1 = true -> status b1 <> CANCELLED ->
  (forall k v, Bookings db !! k = Some v -> k < k1 ->
     pnr v <> Some code /\ text_is_key code k = false) ->
  Bookings db !! k2 = Some b2 -> pnr b2 = Some code -> k1 < k2 ->
  exists db',
    cancel_booking text_is_key (mkCancelRequest code) (db, w)
    = (Return (response_of k1 (set_cancelled b1)), (db', w)) /\
    Bookings db' !! k1 = Some (set_cancelled b1) /\
    Bookings db' !! k2 = Some b2.
Proof.
  intros Hw Hb1 Hk1 Hs1 Hmin Hb2 Hp2 Hlt.
  assert (E : select_booking_by_pnr_or_id text_is_key code db = Some (k1, b1)).
  { unfold select_booking_by_pnr_or_id. apply first_row_found; [exact Hb1| |].
    - cbn [fst snd]. rewrite Hk1. apply orb_true_r.
    - intros k v Hk Hv. destruct (Z.le_gt_cases k1 k) as [Hle|Hgt]; [exact Hle|].
      destruct (Hmin k v Hk Hgt) as [Hnp Hnk]. cbn [fst snd] in Hv.
      rewrite Hnk, bool_decide_eq_false_2 in Hv by exact Hnp. discriminate. }
  pose proof (cancel_booking_calm text_is_key (mkCancelRequest code) db w Hw) as H.
  cbn [req_pnr] in H. rewrite E in H.
  destruct (decide (status b1 = CANCELLED)); [contradiction|].
  exists (cancelled_tables k1 b1 db). split; [exact H|].
  unfold cancelled_tables. cbn [Bookings].
  split; [rewrite lookup_alter_eq, Hb1; reflexivity|].
  rewrite lookup_alter_ne by lia. exact Hb2.
Qed.

Lemma cancel_by_code_hits_id_witness :
  exists db',
    cancel_booking decimal_key (mkCancelRequest "123456") (numeric_code_db, example_world)
    = (Return (response_of 123456
                 (set_cancelled
                    (mkBooking 1 1 "1A" PENDING None (Some 2550%float) PAYMENT_PENDING 0))),
       (db', example_world)) /\
    Bookings db' !! 123456
    = Some (set_cancelled
              (mkBooking 1 1 "1A" PENDING None (Some 2550%float) PAYMENT_PENDING 0)) /\
    Bookings db' !! 123457
    = Some (mkBooking 1 2 "2B" CONFIRMED (Some "123456"%string) (Some 2550%float) PAID 0).
Proof.
  apply (cancel_by_code_hits_id decimal_key "123456" numeric_code_db example_world
           123456 123457); try (vm_compute; reflexivity); try discriminate.
  intros k v Hk Hlt. unfold numeric_code_db in Hk. cbn [Bookings] in Hk.
  apply lookup_insert_Some in Hk as [[<- _]|[_ Hk]]; [lia|].
  apply lookup_singleton_Some in Hk as [<- _]. lia.
Defined.

(** ** Flight listings *)

Global Instance same_draws_refl : Reflexive same_draws.
Proof. intros w. repeat split. Qed.

Global Instance same_draws_trans : Transitive same_draws.
Proof. intros w1 w2 w3 (?&?&?&?) (?&?&?&?). repeat split; congruence. Qed.

Global Instance same_draws_sym : Symmetric same_draws.
Proof. intros w1 w2 (?&?&?&?). repeat split; congruence. Qed.

Lemma same_draws_with_fault w x : same_draws w (with_fault w x).
Proof. repeat split. Qed.

Lemma quoted_same_draws f w w' :
  same_draws w w' ->
  (quoted f w').1 = (quoted f w).1 /\ same_draws (quoted f w).2 (quoted f w').2.
Proof.
  destruct w as [c sc en cu fa lf], w' as [c' sc' en' cu' fa' lf'].
  intros (Hc & Hs & He & Hu). cbn in Hc, Hs, He, Hu. subst c' sc' en' cu'.
  split; [reflexivity|]. repeat split.
Qed.

Lemma fault_at_quoted f w : fault_at (quoted f w).2 = fault_at w.
Proof. apply fault_blind_fault_at, fault_blind_calculate_dynamic_price. Qed.

Lemma quotes_same_draws l w w' :
  same_draws w w' ->
  (quotes l w').1 = (quotes l w).1 /\ same_draws (quotes l w).2 (quotes l w').2.
Proof.
  revert w w'. induction l as [|f l IH]; intros w w' H; [split; [reflexivity|exact H]|].
  cbn [quotes]. destruct (quoted_same_draws f w w' H) as [Hp Hq].
  destruct (quoted f w) as [p1 w1], (quoted f w') as [p2 w2]. cbn [fst snd] in *. subst p2.
  destruct (IH w1 w2 Hq) as [Hr Hs].
  destruct (quotes l w1) as [r1 w3], (quotes l w2) as [r2 w4]. cbn [fst snd] in *.
  subst r2. split; [reflexivity|exact Hs].
Qed.

Lemma quote_aware f : departs_aware f = true -> quote f = ambient (quoted f).
Proof.
  unfold departs_aware, quote, quoted, call_calculate_dynamic_price.
  destruct (departure_date_time (j_flight f)); [reflexivity|discriminate].
Qed.

Lemma quote_naive f : departs_aware f = false -> quote f = raise (TypeError naive_minus_aware).
Proof.
  unfold departs_aware, quote, call_calculate_dynamic_price.
  destruct (departure_date_time (j_flight f)); [discriminate|reflexivity].
Qed.

(** A best-effort insert returns, whether or not the row is written. *)
Lemma record_quote_outcome f price reason db w :
  exists db' w',
    record_quote f price reason (db, w) = (Return tt, (db', w')) /\ same_draws w w' /\
    (db' = db \/
     db' = set_FareHistory db (FareHistory db ++ [quote_row f price reason])) /\
    (fault_at w = None ->
     fault_at w' = None /\
     db' = set_FareHistory db (FareHistory db ++ [quote_row f price reason])).
Proof.
  unfold record_quote, try_except, transaction, bind, query, execute, ret.
  destruct w as [c sc en cu [[|[|k]]|] lf]; cbn; eexists _, _;
    (split; [reflexivity|]); (split; [repeat split|]); (split; [auto|]);
    try discriminate; auto.
Qed.

(** The first statement of a listing, unless the driver faults at it. *)
Lemma first_query {A B} (q : DB -> A) (k : A -> M B) db w :
  fault_at w <> Some 0%nat ->
  exists w1, same_draws w w1 /\ (fault_at w = None -> fault_at w1 = None) /\
    bind (query q) k (db, w) = k (q db) (db, w1).
Proof.
  intros Hw. destruct (fault_at w) as [[|n]|] eqn:E.
  - contradiction.
  - exists (with_fault w (Some n)). split; [apply same_draws_with_fault|].
    split; [discriminate|].
    unfold query. rewrite (bind_execute_fault_later _ _ _ _ n) by exact E. reflexivity.
  - exists w. split; [reflexivity|]. split; [trivial|].
    rewrite bind_query_ok by exact E. reflexivity.
Qed.

(** X20: [get_dynamic_price_for_flight] answers 404 "Flight not found"
    when the flight, or one of its airports, is missing.  When the
    departure of the flight is read as a naive datetime, the pricing
    raises [TypeError], which nothing catches, before anything is written.
    When it is read as an aware datetime, the call returns the flight with
    a price drawn for its current seats, and records that quote in the
    fare history on a best-effort basis: when the insert or its commit
    fails, the response is the same and the quote is simply not recorded.
    Flights, bookings and passengers are never written.  (A fault of the
    first statement escapes as well.) *)
Theorem quote_is_best_effort (label : Airport -> string) (cat : Catalog) (fid : Z)
    (db : DB) (w : World) :
  fault_at w <> Some 0%nat ->
  (select_joined_flight label cat fid db = None ->
     exists w',
       get_dynamic_price_for_flight label cat fid (db, w)
       = (Raised (HTTPException 404 "Flight not found"), (db, w'))) /\
  (forall f, select_joined_flight label cat fid db = Some f -> departs_aware f = false ->
     exists w',
       get_dynamic_price_for_flight label cat fid (db, w)
       = (Raised (TypeError "can't subtract offset-naive and offset-aware datetimes"),
          (db, w'))) /\
  (forall f, select_joined_flight label cat fid db = Some f -> departs_aware f = true ->
     exists db' w',
       get_dynamic_price_for_flight label cat fid (db, w)
       = (Return (price_response f (quoted f w).1), (db', w')) /\
       Flights db' = Flights db /\ Bookings db' = Bookings db /\
       Passengers db' = Passengers db /\
       (FareHistory db' = FareHistory db \/
        FareHistory db'
        = FareHistory db ++ [recorded "dynamic_price_api" (price_response f (quoted f w).1)]) /\
       (fault_at w = None ->
        FareHistory db'
        = FareHistory db ++ [recorded "dynamic_price_api" (price_response f (quoted f w).1)])).
Proof.
  intros Hw. unfold get_dynamic_price_for_flight.
  destruct (first_query (select_joined_flight label cat fid)
              (fun flight =>
                 match flight with
                 | None => raise (HTTPException 404 "Flight not found")
                 | Some flight =>
                     do price <- quote flight;
                     run record_quote flight price "dynamic_price_api";
                     ret (price_response flight price)
                 end) db w Hw) as (w1 & Hd & Hn & ->).
  split; [|split].
  - intros ->. exists w1. reflexivity.
  - intros f -> Hna. exists w1. rewrite (quote_naive f Hna). reflexivity.
  - intros f -> Ha. rewrite (quote_aware f Ha), bind_ambient.
    destruct (quoted_same_draws f w w1 Hd) as [Hp _]. rewrite Hp.
    destruct (record_quote_outcome f (quoted f w).1 "dynamic_price_api" db (quoted f w1).2)
      as (db' & w' & E & _ & Hor & Hcalm).
    exists db', w'. unfold bind at 1. rewrite E. split; [reflexivity|].
    change (quote_row f ?p ?r) with (recorded r (price_response f p)) in *.
    split; [destruct Hor as [-> | ->]; reflexivity|].
    split; [destruct Hor as [-> | ->]; reflexivity|].
    split; [destruct Hor as [-> | ->]; reflexivity|].
    split; [destruct Hor as [-> | ->]; [left|right]; reflexivity|].
    intros Hw0. destruct Hcalm as [_ ->]; [|reflexivity].
    rewrite fault_at_quoted. exact (Hn Hw0).
Qed.

Lemma quote_is_best_effort_witness :
  (exists w',
     get_dynamic_price_for_flight airport_name example_catalog 1 (example_db, example_world)
     = (Raised (TypeError "can't subtract offset-naive and offset-aware datetimes"),
        (example_db, w'))) /\
  (exists db' w',
     get_dynamic_price_for_flight airport_name example_catalog 1
       (aware_db, constant_world 0 (Some 1%nat))
     = (Return (price_response (example_joined aware_flight)
                  (quoted (example_joined aware_flight) (constant_world 0 (Some 1%nat))).1),
        (db', w')) /\
     Flights db' = Flights aware_db /\ Bookings db' = Bookings aware_db /\
     Passengers db' = Passengers aware_db) /\
  p_dynamic_price
    (price_response (example_joined aware_flight)
       (quoted (example_joined aware_flight) (constant_world 0 (Some 1%nat))).1)
  = 2550%float.
Proof.
  split; [|split].
  - exact (proj1 (proj2 (quote_is_best_effort airport_name example_catalog 1 example_db
                           example_world ltac:(discriminate)))
             (example_joined example_flight) eq_refl eq_refl).
  - destruct (proj2 (proj2 (quote_is_best_effort airport_name example_catalog 1 aware_db
                              (constant_world 0 (Some 1%nat)) ltac:(discriminate)))
                (example_joined aware_flight) eq_refl eq_refl)
      as (db' & w' & E & Hf & Hb & Hp & _).
    exists db', w'. repeat split; assumption.
  - vm_compute. reflexivity.
Defined.

Lemma length_quotes l w : length (quotes l w).1 = length l.
Proof.
  revert w. induction l as [|f l IH]; intros w; [reflexivity|]. cbn [quotes].
  destruct (quoted f w) as [price w1]. specialize (IH w1).
  destruct (quotes l w1) as [rs w2]. cbn [fst length] in *. congruence.
Qed.

(** The loop of [get_all_flights] over joined rows of aware departure: the
    responses are those of the calm loop, and of their history rows some
    may be missing. *)
Lemma listing_loop l db w w0 :
  same_draws w0 w -> Forall (fun f => departs_aware f = true) l ->
  exists db' w' added,
    for_collect l
      (fun f => do price <- quote f;
                run record_quote f price "flights_api";
                ret (price_response f price)) (db, w)
    = (Return (quotes l w0).1, (db', w')) /\
    same_draws (quotes l w0).2 w' /\
    Flights db' = Flights db /\ Bookings db' = Bookings db /\
    Passengers db' = Passengers db /\
    FareHistory db' = FareHistory db ++ added /\
    sublist added (map (recorded "flights_api") (quotes l w0).1) /\
    (fault_at w = None ->
     fault_at w' = None /\ added = map (recorded "flights_api") (quotes l w0).1).
Proof.
  revert db w w0. induction l as [|f l IH]; intros db w w0 Hd Hall.
  - exists db, w, []. cbn. rewrite app_nil_r. repeat split; auto; apply Hd.
  - apply Forall_cons in Hall as [Ha Hall].
    cbn [for_collect quotes]. unfold bind at 1. rewrite (quote_aware f Ha), bind_ambient.
    destruct (quoted_same_draws f w0 w Hd) as [Hp Hq]. rewrite Hp.
    destruct (record_quote_outcome f (quoted f w0).1 "flights_api" db (quoted f w).2)
      as (db1 & w1 & E & Hd1 & Hor & Hcalm).
    rewrite fault_at_quoted in Hcalm.
    unfold bind at 1. rewrite E. cbn [ret].
    assert (Hd01 : same_draws (quoted f w0).2 w1) by (etransitivity; eassumption).
    destruct (IH db1 w1 (quoted f w0).2 Hd01 Hall)
      as (db' & w' & added & E2 & Hc2 & Hf & Hb & Hps & Hh & Hsub & Hfull).
    destruct (quoted f w0) as [price wc] eqn:Eq. cbn [fst snd] in *.
    destruct (quotes l wc) as [rs w2] eqn:Eqs. cbn [fst snd] in *.
    unfold bind at 1. rewrite E2.
    change (quote_row f price "flights_api")
      with (recorded "flights_api" (price_response f price)) in *.
    assert (Hsame : Flights db1 = Flights db /\ Bookings db1 = Bookings db /\
                    Passengers db1 = Passengers db).
    { destruct Hor as [-> | ->]; repeat split. }
    destruct Hsame as (Hf1 & Hb1 & Hps1).
    assert (Hkept : db1 = set_FareHistory db
                            (FareHistory db ++ [recorded "flights_api" (price_response f price)]) ->
              FareHistory db'
              = FareHistory db ++ recorded "flights_api" (price_response f price) :: added).
    { intros ->. rewrite Hh. cbn [FareHistory set_FareHistory].
      rewrite <- app_assoc. reflexivity. }
    destruct Hor as [Hdb1|Hdb1].
    + exists db', w', added. cbn [fst snd map].
      split; [reflexivity|]. split; [exact Hc2|].
      split; [congruence|]. split; [congruence|]. split; [congruence|].
      split; [rewrite Hh, Hdb1; reflexivity|]. split; [by apply sublist_cons|].
      intros Hw. destruct (Hcalm Hw) as [Hw1 Hdb1']. destruct (Hfull Hw1) as [Hw' Hadd].
      split; [exact Hw'|]. exfalso. rewrite Hdb1 in Hdb1'.
      apply (f_equal (fun d => length (FareHistory d))) in Hdb1'.
      cbn [FareHistory set_FareHistory] in Hdb1'. rewrite length_app in Hdb1'. cbn in Hdb1'. lia.
    + eexists db', w', _. cbn [fst snd map].
      split; [reflexivity|]. split; [exact Hc2|].
      split; [congruence|]. split; [congruence|]. split; [congruence|].
      split; [exact (Hkept Hdb1)|]. split; [by apply sublist_skip|].
      intros Hw. destruct (Hcalm Hw) as [Hw1 _]. destruct (Hfull Hw1) as [Hw' ->].
      split; [exact Hw'|reflexivity].
Qed.

Lemma for_collect_app {A B} (l1 l2 : list A) (body : A -> M B) s :
  for_collect (l1 ++ l2) body s
  = match for_collect l1 body s with
    | (Return ys, s1) =>
        match for_collect l2 body s1 with
        | (Return zs, s2) => (Return (ys ++ zs), s2)
        | (Raised e, s2) => (Raised e, s2)
        end
    | (Raised e, s1) => (Raised e, s1)
    end.
Proof.
  revert s. induction l1 as [|x l1 IH]; intros s.
  - cbn [app for_collect ret]. destruct (for_collect l2 body s) as [[zs|e] s2]; reflexivity.
  - cbn [app for_collect]. unfold bind at 1 3.
    destruct (body x s) as [[y|e] s1]; [|reflexivity].
    unfold bind at 1 2. rewrite IH.
    destruct (for_collect l1 body s1) as [[ys|e] s2]; [|reflexivity].
    cbn [ret]. destruct (for_collect l2 body s2) as [[zs|e] s3]; reflexivity.
Qed.

Lemma quotes_ids l w : map p_flight_id (quotes l w).1 = map j_flight_id l.
Proof.
  revert w. induction l as [|f l IH]; intros w; [reflexivity|]. cbn [quotes].
  destruct (quoted f w) as [price w1]. specialize (IH w1).
  destruct (quotes l w1) as [rs w2]. cbn [fst map] in *. rewrite IH. reflexivity.
Qed.

Lemma join_airports_id label cat r f : join_airports label cat r = Some f -> j_flight_id f = r.1.
Proof.
  unfold join_airports. destruct (Routes cat !! r.1) as [route|]; [|discriminate].
  destruct (Airports cat !! origin_airport route); [|discriminate].
  destruct (Airports cat !! destination_airport route); [|discriminate].
  intros H. inversion H. reflexivity.
Qed.

Lemma elem_of_select_joined_flights label cat db f :
  f ∈ select_joined_flights label cat db <->
  select_joined_flight label cat (j_flight_id f) db = Some f.
Proof.
  unfold select_joined_flights, select_joined_flight. rewrite list_elem_of_omap. split.
  - intros ([k v] & Hin & Hj). apply elem_of_rows in Hin.
    pose proof (join_airports_id _ _ _ _ Hj) as Hid. cbn [fst] in Hid.
    rewrite Hid, Hin. exact Hj.
  - destruct (Flights db !! j_flight_id f) as [v|] eqn:E; [|discriminate].
    intros Hj. exists (j_flight_id f, v). split; [by apply elem_of_rows|exact Hj].
Qed.

(** X21: [get_all_flights] prices the flights that have both their
    airports, in id order.  When all their departures are read as aware
    datetimes, it returns one priced response for each, whether or not the
    fare history can be written: each quote is inserted and committed on
    its own, so a failing insert or commit loses the history row of that
    flight only, any number of them can be lost, and the response is the
    same; with no fault every response is recorded, in order, with the
    reason "flights_api".  At the first flight whose departure is read as a
    naive datetime the pricing raises [TypeError], which nothing catches:
    the call fails, and the history rows of the flights before it stay
    committed.  Flights, bookings and passengers are never written.  (A
    fault of the first statement escapes as well.) *)
Theorem listing_is_best_effort (label : Airport -> string) (cat : Catalog) (db : DB)
    (w : World) :
  fault_at w <> Some 0%nat ->
  (Forall (fun f => departs_aware f = true) (select_joined_flights label cat db) ->
   exists rs db' w' added,
     get_all_flights label cat (db, w) = (Return rs, (db', w')) /\
     rs = (quotes (select_joined_flights label cat db) w).1 /\
     (forall fid, fid ∈ map p_flight_id rs <->
                  is_Some (select_joined_flight label cat fid db)) /\
     Flights db' = Flights db /\ Bookings db' = Bookings db /\
     Passengers db' = Passengers db /\
     FareHistory db' = FareHistory db ++ added /\
     sublist added (map (recorded "flights_api") rs) /\
     (fault_at w = None -> added = map (recorded "flights_api") rs)) /\
  (forall l1 f l2,
     select_joined_flights label cat db = l1 ++ f :: l2 ->
     Forall (fun f => departs_aware f = true) l1 -> departs_aware f = false ->
     exists db' w' added,
       get_all_flights label cat (db, w)
       = (Raised (TypeError "can't subtract offset-naive and offset-aware datetimes"),
          (db', w')) /\
       Flights db' = Flights db /\ Bookings db' = Bookings db /\
       Passengers db' = Passengers db /\
       FareHistory db' = FareHistory db ++ added /\
       sublist added (map (recorded "flights_api") (quotes l1 w).1) /\
       (fault_at w = None -> added = map (recorded "flights_api") (quotes l1 w).1)).
Proof.
  intros Hw. unfold get_all_flights.
  destruct (first_query (select_joined_flights label cat)
              (fun flights =>
                 for_collect flights (fun f =>
                   do price <- quote f;
                   run record_quote f price "flights_api";
                   ret (price_response f price))) db w Hw) as (w1 & Hd & Hn & ->).
  split.
  - intros Hall.
    destruct (listing_loop (select_joined_flights label cat db) db w1 w Hd Hall)
      as (db' & w' & added & E & _ & Hf & Hb & Hp & Hh & Hsub & Hfull).
    eexists _, db', w', added. split; [exact E|]. split; [reflexivity|].
    split.
    { intros fid. rewrite quotes_ids. change (map ?g ?l) with (g <$> l).
      rewrite list_elem_of_fmap. split.
      - intros (f & -> & Hin). apply elem_of_select_joined_flights in Hin. eauto.
      - intros [f Hs]. exists f.
        assert (Hid : j_flight_id f = fid).
        { unfold select_joined_flight in Hs. destruct (Flights db !! fid); [|discriminate].
          exact (join_airports_id _ _ _ _ Hs). }
        split; [symmetry; exact Hid|]. apply elem_of_select_joined_flights.
        rewrite Hid. exact Hs. }
    repeat (split; [assumption|]).
    intros Hw0. apply Hfull, Hn, Hw0.
  - intros l1 f l2 -> Hall Hna.
    destruct (listing_loop l1 db w1 w Hd Hall)
      as (db' & w' & added & E & _ & Hf & Hb & Hp & Hh & Hsub & Hfull).
    exists db', w', added. rewrite for_collect_app, E. cbn [for_collect].
    unfold bind at 1 2. rewrite (quote_naive f Hna). cbn [raise].
    split; [reflexivity|]. repeat (split; [assumption|]).
    intros Hw0. apply Hfull, Hn, Hw0.
Qed.

Lemma listing_is_best_effort_witness :
  (exists db' w' added,
     get_all_flights airport_name example_catalog (example_db, example_world)
     = (Raised (TypeError "can't subtract offset-naive and offset-aware datetimes"),
        (db', w')) /\
     FareHistory db' = FareHistory example_db ++ added /\ added = []) /\
  (exists rs db' w' added,
     get_all_flights airport_name example_catalog
       (aware_db, constant_world 0 (Some 1%nat))
     = (Return rs, (db', w')) /\
     rs = (quotes [example_joined aware_flight] (constant_world 0 (Some 1%nat))).1 /\
     FareHistory db' = FareHistory aware_db ++ added /\
     sublist added (map (recorded "flights_api") rs)).
Proof.
  split.
  - destruct (proj2 (listing_is_best_effort airport_name example_catalog example_db
                       example_world ltac:(discriminate))
                [] (example_joined example_flight) [] eq_refl ltac:(constructor) eq_refl)
      as (db' & w' & added & E & _ & _ & _ & Hh & _ & Hfull).
    exists db', w', added. split; [exact E|]. split; [exact Hh|]. exact (Hfull eq_refl).
  - destruct (proj1 (listing_is_best_effort airport_name example_catalog aware_db
                       (constant_world 0 (Some 1%nat)) ltac:(discriminate)))
      as (rs & db' & w' & added & E & Hrs & _ & _ & _ & _ & Hh & Hsub & _).
    { repeat constructor. }
    exists rs, db', w', added. split; [exact E|]. split; [exact Hrs|].
    split; [exact Hh|exact Hsub].
Defined.

(** ** What the history keeps *)

Lemma passengers_after tk c w db pid p :
  Passengers db !! pid = Some p -> Passengers (after tk c w db) !! pid = Some p.
Proof.
  intros Hp. destruct c as [req|req|req|]; cbn [after].
  - destruct (start_booking_tables req db w) as [->|(f & _ & _ & ->)]; [exact Hp|].
    unfold held_tables. cbn [Passengers]. unfold resolve_passenger.
    destruct (select_passenger_id (passenger_email req) db); cbn [snd]; [exact Hp|].
    rewrite lookup_insert_ne; [exact Hp|].
    intros Heq. rewrite <- Heq, next_key_fresh in Hp. discriminate.
  - destruct (confirm_payment_tables req db w) as [->|(b & _ & _ & [->| ->])]; exact Hp.
  - destruct (cancel_booking_tables tk req db w) as [->|(bid & b & _ & _ & ->)]; exact Hp.
  - assert (H : keeps (fun d d' => Passengers d' = Passengers d) simulate_tick).
    { apply keeps_simulate_tick.
      - intros d. reflexivity.
      - intros d1 d2 d3 H1 H2. congruence.
      - intros s fid d. reflexivity.
      - intros r d _. reflexivity. }
    rewrite (H db w). exact Hp.
Qed.

Lemma passengers_after_all tk calls db pid p :
  Passengers db !! pid = Some p -> Passengers (after_all tk calls db) !! pid = Some p.
Proof.
  revert db. induction calls as [|[c w] calls IH]; intros db Hp; [exact Hp|].
  cbn [after_all]. apply IH, passengers_after, Hp.
Qed.

(** X22: the booking history never forgets.  A booking that
    [booking_history] lists for an email is still listed for it after any
    sequence of hold, pay, cancel and simulator calls, under the same
    booking id and with the same flight, passenger, seat label and price;
    only its status, code, payment status and date may have moved on. *)
Theorem history_never_forgets (text_is_key : string -> Z -> bool)
    (calls : list (Call * World)) (db : DB) (em : string) (w w2 : World)
    (l : list BookingResponse) (resp : BookingResponse) (s' : DB * World) :
  booking_history em (db, w) = (Return l, s') -> resp ∈ l ->
  fault_at w2 = None ->
  exists l' resp',
    booking_history em (after_all text_is_key calls db, w2)
    = (Return l', (after_all text_is_key calls db, w2)) /\
    resp' ∈ l' /\
    r_booking_id resp' = r_booking_id resp /\ r_flight_id resp' = r_flight_id resp /\
    r_passenger_id resp' = r_passenger_id resp /\ r_seat_no resp' = r_seat_no resp /\
    r_price resp' = r_price resp.
Proof.
  intros E Hin Hw2.
  assert (Hl : l = map (fun r => response_of r.1 r.2) (select_history em db)).
  { unfold booking_history, bind, query, execute in E.
    destruct (fault_at w) as [[|k]|]; cbn in E; inversion E; reflexivity. }
  subst l. change (map ?g ?x) with (g <$> x) in Hin.
  apply list_elem_of_fmap in Hin as ([bid b] & -> & Hin).
  apply elem_of_select_history in Hin as (Hb & p & Hp & He).
  destruct (booking_after_all text_is_key calls db bid b Hb)
    as (b' & Hb' & (Hfl & Hpa & Hse & Hpr) & _).
  eexists _, (response_of bid b'). split; [exact (booking_history_calm _ _ _ Hw2)|].
  split; [|cbn; auto].
  change (map ?g ?x) with (g <$> x). apply list_elem_of_fmap. exists (bid, b').
  split; [reflexivity|]. apply elem_of_select_history. split; [exact Hb'|].
  exists p. split; [|exact He]. rewrite Hpa. by apply passengers_after_all.
Qed.

Lemma history_never_forgets_witness :
  exists l' resp',
    booking_history "ada@example.org"
      (after_all decimal_key release_after_tick example_held_db, late_world)
    = (Return l', (after_all decimal_key release_after_tick example_held_db, late_world)) /\
    resp' ∈ l' /\
    r_booking_id resp' = r_booking_id (response_of 1 example_held_booking) /\
    r_flight_id resp' = r_flight_id (response_of 1 example_held_booking) /\
    r_passenger_id resp' = r_passenger_id (response_of 1 example_held_booking) /\
    r_seat_no resp' = r_seat_no (response_of 1 example_held_booking) /\
    r_price resp' = r_price (response_of 1 example_held_booking).
Proof.
  apply (history_never_forgets decimal_key release_after_tick example_held_db
           "ada@example.org" example_world late_world
           [response_of 1 example_held_booking] _ (example_held_db, example_world)).
  - vm_compute. reflexivity.
  - left.
  - reflexivity.
Defined.

(** ** Search *)

Lemma quoted_world f w : (quoted f w).2 = advance w.
Proof. reflexivity. Qed.

Lemma quotes_world l w :
  (quotes l w).2
  = mkWorld (clock w) (server_clock w) (entropy w) (cursor w + length l) (fault_at w)
      (later_faults w).
Proof.
  revert w. induction l as [|f l IH]; intros w; cbn [quotes].
  - destruct w. cbn. f_equal. lia.
  - pose proof (quoted_world f w) as Hq. destruct (quoted f w) as [price w1].
    cbn [snd] in Hq. subst w1. specialize (IH (advance w)).
    destruct (quotes l (advance w)) as [rs w2]. cbn [snd] in *. rewrite IH.
    cbn. f_equal. lia.
Qed.

Lemma pricing_loop l db w :
  Forall (fun f => departs_aware f = true) l ->
  for_collect l (fun f => do price <- quote f; ret (price_response f price)) (db, w)
  = (Return (quotes l w).1, (db, (quotes l w).2)).
Proof.
  revert w. induction l as [|f l IH]; intros w Hall; [reflexivity|].
  apply Forall_cons in Hall as [Ha Hall].
  cbn [for_collect quotes]. unfold bind at 1. rewrite (quote_aware f Ha), bind_ambient.
  cbn [ret]. unfold bind at 1. rewrite (IH _ Hall).
  destruct (quoted f w) as [price w1]. cbn [fst snd].
  destruct (quotes l w1) as [rs w2]. reflexivity.
Qed.

(** The loop stops at the first row whose departure is naive. *)
Lemma pricing_loop_naive l1 f l2 db w :
  Forall (fun f => departs_aware f = true) l1 -> departs_aware f = false ->
  for_collect (l1 ++ f :: l2) (fun f => do price <- quote f; ret (price_response f price))
    (db, w)
  = (Raised (TypeError naive_minus_aware), (db, (quotes l1 w).2)).
Proof.
  intros Hall Hna. rewrite for_collect_app, (pricing_loop l1 db w Hall).
  cbn [for_collect]. unfold bind at 1 2. rewrite (quote_naive f Hna). reflexivity.
Qed.

(** A list of joined rows is all of aware departure, or has a first row of
    naive departure. *)
Lemma first_naive (l : list JoinedFlight) :
  Forall (fun f => departs_aware f = true) l \/
  exists l1 f l2, l = l1 ++ f :: l2 /\
    Forall (fun f => departs_aware f = true) l1 /\ departs_aware f = false.
Proof.
  induction l as [|x l IH]; [left; constructor|].
  destruct (departs_aware x) eqn:Hx.
  - destruct IH as [IH|(l1 & f & l2 & -> & Hall & Hf)].
    + left. constructor; assumption.
    + right. exists (x :: l1), f, l2. split; [reflexivity|].
      split; [constructor; assumption|exact Hf].
  - right. exists [], x, l. split; [reflexivity|]. split; [constructor|exact Hx].
Qed.

Lemma elem_of_quotes l w r :
  r ∈ (quotes l w).1 -> exists f price, f ∈ l /\ r = price_response f price.
Proof.
  revert w. induction l as [|f l IH]; intros w; cbn [quotes].
  - intros H. by apply elem_of_nil in H.
  - destruct (quoted f w) as [price w1]. specialize (IH w1).
    destruct (quotes l w1) as [rs w2]. cbn [fst] in *. intros H.
    apply elem_of_cons in H as [->|H].
    + exists f, price. split; [left|reflexivity].
    + destruct (IH H) as (f' & p' & Hin & ->). exists f', p'. split; [by right|reflexivity].
Qed.

Lemma insort_Permutation {A} (key : A -> float) x l : insort key x l ≡ₚ x :: l.
Proof.
  induction l as [|y l IH]; cbn [insort]; [reflexivity|].
  destruct (key x <? key y)%float; [reflexivity|]. rewrite IH. apply Permutation_swap.
Qed.

Lemma sort_by_Permutation {A} (key : A -> float) (l : list A) : sort_by key l ≡ₚ l.
Proof.
  unfold sort_by.
  assert (H : forall acc, foldl (fun sorted x => insort key x sorted) acc l ≡ₚ acc ++ l).
  { induction l as [|x l IH]; intros acc; cbn [foldl]; [by rewrite app_nil_r|].
    rewrite IH, insort_Permutation. rewrite (Permutation_middle acc l x). reflexivity. }
  exact (H []).
Qed.

Lemma search_match_Some label place cat origin destination day r f :
  search_match label place cat origin destination day r = Some f ->
  exists route a1 a2,
    Routes cat !! r.1 = Some route /\
    Airports cat !! origin_airport route = Some a1 /\
    Airports cat !! destination_airport route = Some a2 /\
    place a1 = origin /\ place a2 = destination /\
    date_of (reading_of (departure_date_time r.2)) = day /\
    f = mkJoinedFlight r.1 r.2 route (label a1) (label a2).
Proof.
  unfold search_match. destruct (Routes cat !! r.1) as [route|] eqn:Hr; [|discriminate].
  destruct (Airports cat !! origin_airport route) as [a1|] eqn:H1; [|discriminate].
  destruct (Airports cat !! destination_airport route) as [a2|] eqn:H2; [|discriminate].
  destruct (String.eqb_spec (place a1) origin); [|discriminate].
  destruct (String.eqb_spec (place a2) destination); [|discriminate].
  destruct (Z.eqb_spec (date_of (reading_of (departure_date_time r.2))) day); [|discriminate].
  cbn. intros H. inversion H. exists route, a1, a2. repeat split; assumption.
Qed.

Lemma search_match_found label place cat origin destination day r route a1 a2 :
  Routes cat !! r.1 = Some route ->
  Airports cat !! origin_airport route = Some a1 ->
  Airports cat !! destination_airport route = Some a2 ->
  place a1 = origin -> place a2 = destination ->
  date_of (reading_of (departure_date_time r.2)) = day ->
  search_match label place cat origin destination day r
  = Some (mkJoinedFlight r.1 r.2 route (label a1) (label a2)).
Proof.
  intros Hr H1 H2 <- <- <-. unfold search_match. rewrite Hr, H1, H2.
  rewrite !String.eqb_refl, Z.eqb_refl. reflexivity.
Qed.

(** X23: [search_flights] refuses a date it cannot read with 400 "Date
    must be YYYY-MM-DD" before any statement is sent: nothing is read,
    drawn or written, even when the driver is about to fault.  The sort
    key is looked at only after the matching flights were read and priced.
    When a matching flight has a departure that is read as a naive
    datetime, the pricing of the first such flight raises [TypeError],
    which nothing catches, whatever the sort key.  When all of them are
    read as aware datetimes, a sort key other than "price" and "duration"
    is refused with 400, one random draw per matching flight having been
    taken by then.  In every case the tables are left as they are. *)
Theorem search_rejects_bad_input (label place : Airport -> string)
    (canon : string -> string) (parse_date : string -> option Z) (cat : Catalog)
    (origin destination date : string) (sort : option string) (db : DB) (w : World) :
  (parse_date date = None ->
     search_flights label place canon parse_date cat origin destination date sort (db, w)
     = (Raised (HTTPException 400 "Date must be YYYY-MM-DD"), (db, w))) /\
  (forall day l1 f l2, parse_date date = Some day -> fault_at w = None ->
     select_search label place cat (canon origin) (canon destination) day db
     = l1 ++ f :: l2 ->
     Forall (fun f => departs_aware f = true) l1 -> departs_aware f = false ->
     search_flights label place canon parse_date cat origin destination date sort (db, w)
     = (Raised (TypeError "can't subtract offset-naive and offset-aware datetimes"),
        (db, mkWorld (clock w) (server_clock w) (entropy w) (cursor w + length l1) None
               (later_faults w)))) /\
  (forall day s, parse_date date = Some day -> sort = Some s ->
     s <> "price"%string -> s <> "duration"%string -> fault_at w = None ->
     Forall (fun f => departs_aware f = true)
       (select_search label place cat (canon origin) (canon destination) day db) ->
     search_flights label place canon parse_date cat origin destination date sort (db, w)
     = (Raised (HTTPException 400 "Sort must be 'price' or 'duration'"),
        (db, mkWorld (clock w) (server_clock w) (entropy w)
               (cursor w
                + length (select_search label place cat (canon origin) (canon destination)
                            day db))
               None (later_faults w)))) /\
  (search_flights label place canon parse_date cat origin destination date sort (db, w)).2.1
  = db.
Proof.
  split; [|split; [|split]].
  - intros Hd. unfold search_flights. rewrite Hd. reflexivity.
  - intros day l1 f l2 Hd Hw Hl Hall Hna. unfold search_flights. rewrite Hd.
    rewrite bind_query_ok by exact Hw. unfold bind at 1.
    rewrite Hl, (pricing_loop_naive l1 f l2 db w Hall Hna), quotes_world, Hw. reflexivity.
  - intros day s Hd -> Hp Hdu Hw Hall. unfold search_flights. rewrite Hd.
    rewrite bind_query_ok by exact Hw. unfold bind at 1. rewrite (pricing_loop _ _ _ Hall).
    apply String.eqb_neq in Hp, Hdu. rewrite Hp, Hdu, quotes_world, Hw. reflexivity.
  - unfold search_flights. destruct (parse_date date) as [day|]; [|reflexivity].
    assert (Hloop : forall w1,
      (match for_collect
               (select_search label place cat (canon origin) (canon destination) day db)
               (fun f => do price <- quote f; ret (price_response f price)) (db, w1) with
       | (Return results, s1) =>
           match sort with
           | None => ret results
           | Some sort =>
               if String.eqb sort "price" then ret (sort_by p_dynamic_price results)
               else if String.eqb sort "duration" then
                 ret (sort_by (fun x => total_seconds
                                          (p_arrival_time x - reading_of (p_departure_time x)))
                        results)
               else raise (HTTPException 400 "Sort must be 'price' or 'duration'")
           end s1
       | (Raised e, s1) => (Raised e, s1)
       end).2.1 = db).
    { intros w1.
      destruct (first_naive
                  (select_search label place cat (canon origin) (canon destination) day db))
        as [Hall|(l1 & f & l2 & Hl & Hall & Hna)].
      - rewrite (pricing_loop _ _ _ Hall). destruct sort as [s|]; [|reflexivity].
        destruct (String.eqb s "price"); [reflexivity|].
        destruct (String.eqb s "duration"); reflexivity.
      - rewrite Hl, (pricing_loop_naive l1 f l2 db w1 Hall Hna). reflexivity. }
    unfold bind at 1, query, execute.
    destruct (fault_at w) as [[|k]|]; [reflexivity| |]; unfold bind at 1; apply Hloop.
Qed.

(** X24: for a date it can read and a valid sort key, the driver not
    faulting.  [search_flights] selects the flights whose origin and
    destination match the request (put in the case of the column) and that
    depart on the day asked for.  When all their departures are read as
    aware datetimes it returns exactly one priced response for each: in id
    order when no sort is asked, and as a rearrangement of that list
    otherwise; each response reports the seats and the fare of the flight
    row; nothing is written, not even to the fare history.  When one of
    them has a departure that is read as a naive datetime the call fails
    with [TypeError]: with such a driver it returns only when no flight
    matches. *)
Theorem search_returns_matching_flights (label place : Airport -> string)
    (canon : string -> string) (parse_date : string -> option Z) (cat : Catalog)
    (origin destination date : string) (sort : option string) (day : Z) (db : DB)
    (w : World) :
  parse_date date = Some day -> fault_at w = None ->
  sort = None \/ sort = Some "price"%string \/ sort = Some "duration"%string ->
  (Forall (fun f => departs_aware f = true)
     (select_search label place cat (canon origin) (canon destination) day db) ->
   exists rs w',
    search_flights label place canon parse_date cat origin destination date sort (db, w)
    = (Return rs, (db, w')) /\
    rs ≡ₚ (quotes (select_search label place cat (canon origin) (canon destination) day db)
              w).1 /\
    (sort = None ->
     rs = (quotes (select_search label place cat (canon origin) (canon destination) day db)
             w).1) /\
    (forall r, r ∈ rs ->
       exists f route a1 a2,
         Flights db !! p_flight_id r = Some f /\ Routes cat !! p_flight_id r = Some route /\
         Airports cat !! origin_airport route = Some a1 /\
         Airports cat !! destination_airport route = Some a2 /\
         place a1 = canon origin /\ place a2 = canon destination /\
         date_of (reading_of (departure_date_time f)) = day /\
         p_origin r = label a1 /\ p_destination r = label a2 /\
         p_base_fare r = base_fare f /\ p_seats_available r = seats_available f /\
         p_total_seats r = total_seats f) /\
    (forall fid f route a1 a2,
       Flights db !! fid = Some f -> Routes cat !! fid = Some route ->
       Airports cat !! origin_airport route = Some a1 ->
       Airports cat !! destination_airport route = Some a2 ->
       place a1 = canon origin -> place a2 = canon destination ->
       date_of (reading_of (departure_date_time f)) = day ->
       fid ∈ map p_flight_id rs)) /\
  (~ Forall (fun f => departs_aware f = true)
       (select_search label place cat (canon origin) (canon destination) day db) ->
   exists w',
    search_flights label place canon parse_date cat origin destination date sort (db, w)
    = (Raised (TypeError "can't subtract offset-naive and offset-aware datetimes"),
       (db, w'))).
Proof.
  intros Hd Hw Hsort.
  set (l := select_search label place cat (canon origin) (canon destination) day db).
  split.
  2: { intros Hnot. destruct (first_naive l) as [Hall|(l1 & f & l2 & Hl & Hall & Hna)];
         [contradiction|].
       eexists. unfold search_flights. rewrite Hd. rewrite bind_query_ok by exact Hw.
       unfold bind at 1. fold l. rewrite Hl, (pricing_loop_naive l1 f l2 db w Hall Hna).
       reflexivity. }
  intros Hall.
  assert (E : exists rs,
            search_flights label place canon parse_date cat origin destination date sort
              (db, w) = (Return rs, (db, (quotes l w).2)) /\
            rs ≡ₚ (quotes l w).1 /\ (sort = None -> rs = (quotes l w).1)).
  { unfold search_flights. rewrite Hd. rewrite bind_query_ok by exact Hw.
    unfold bind at 1. fold l. rewrite (pricing_loop _ _ _ Hall).
    destruct Hsort as [->|[->| ->]]; cbn [String.eqb Ascii.eqb Bool.eqb];
      eexists; (split; [reflexivity|]); split;
      try reflexivity; try apply sort_by_Permutation; discriminate. }
  destruct E as (rs & E & Hperm & Hnone).
  exists rs, (quotes l w).2. split; [exact E|]. split; [exact Hperm|].
  split; [exact Hnone|]. split.
  - intros r Hr. rewrite Hperm in Hr. apply elem_of_quotes in Hr as (f & price & Hin & ->).
    unfold l, select_search in Hin. apply list_elem_of_omap in Hin as ([k v] & Hin & Hm).
    apply elem_of_rows in Hin.
    apply search_match_Some in Hm as (route & a1 & a2 & Hr & H1 & H2 & Hp1 & Hp2 & Hday & ->).
    cbn [fst snd] in *. exists v, route, a1, a2. cbn. repeat split; assumption.
  - intros fid f route a1 a2 Hf Hr H1 H2 Hp1 Hp2 Hday.
    change (map ?g ?x) with (g <$> x). rewrite Hperm.
    change (p_flight_id <$> ?x) with (map p_flight_id x). rewrite quotes_ids.
    change (map ?g ?x) with (g <$> x). apply list_elem_of_fmap.
    exists (mkJoinedFlight fid f route (label a1) (label a2)). split; [reflexivity|].
    unfold l, select_search. apply list_elem_of_omap. exists (fid, f).
    split; [by apply elem_of_rows|].
    exact (search_match_found label place cat _ _ _ (fid, f) route a1 a2 Hr H1 H2 Hp1 Hp2 Hday).
Qed.

Lemma search_rejects_bad_input_witness :
  search_flights airport_name city (fun s => s) example_parse_date example_catalog
    "Delhi" "Mumbai" "tomorrow" None (example_db, constant_world 0 (Some 0%nat))
  = (Raised (HTTPException 400 "Date must be YYYY-MM-DD"),
     (example_db, constant_world 0 (Some 0%nat))) /\
  search_flights airport_name city (fun s => s) example_parse_date example_catalog
    "Delhi" "Mumbai" "1970-01-11" (Some "cheapest"%string) (example_db, example_world)
  = (Raised (TypeError "can't subtract offset-naive and offset-aware datetimes"),
     (example_db,
      mkWorld (clock example_world) (server_clock example_world) (entropy example_world)
        (cursor example_world + length (@nil JoinedFlight)) None
        (later_faults example_world))) /\
  search_flights airport_name city (fun s => s) example_parse_date example_catalog
    "Delhi" "Mumbai" "1970-01-11" (Some "cheapest"%string) (aware_db, example_world)
  = (Raised (HTTPException 400 "Sort must be 'price' or 'duration'"),
     (aware_db,
      mkWorld (clock example_world) (server_clock example_world) (entropy example_world)
        (cursor example_world
         + length (select_search airport_name city example_catalog "Delhi" "Mumbai" 10
                     aware_db))
        None (later_faults example_world))).
Proof.
  split; [|split].
  - exact (proj1 (search_rejects_bad_input airport_name city (fun s => s)
                    example_parse_date example_catalog "Delhi" "Mumbai" "tomorrow" None
                    example_db (constant_world 0 (Some 0%nat))) eq_refl).
  - exact (proj1 (proj2 (search_rejects_bad_input airport_name city (fun s => s)
                    example_parse_date example_catalog "Delhi" "Mumbai" "1970-01-11"
                    (Some "cheapest"%string) example_db example_world))
              10 [] (example_joined example_flight) [] eq_refl eq_refl eq_refl
              ltac:(constructor) eq_refl).
  - refine (proj1 (proj2 (proj2 (search_rejects_bad_input airport_name city (fun s => s)
                    example_parse_date example_catalog "Delhi" "Mumbai" "1970-01-11"
                    (Some "cheapest"%string) aware_db example_world)))
              10 "cheapest"%string eq_refl eq_refl _ _ eq_refl _);
      [discriminate|discriminate|repeat constructor].
Defined.

Lemma search_returns_matching_flights_witness :
  (exists rs w',
     search_flights airport_name city (fun s => s) example_parse_date example_catalog
       "Delhi" "Mumbai" "1970-01-11" (Some "price"%string) (aware_db, example_world)
     = (Return rs, (aware_db, w')) /\
     rs ≡ₚ (quotes (select_search airport_name city example_catalog "Delhi" "Mumbai" 10
                      aware_db) example_world).1 /\
     1 ∈ map p_flight_id rs) /\
  (exists w',
     search_flights airport_name city (fun s => s) example_parse_date example_catalog
       "Delhi" "Mumbai" "1970-01-11" (Some "price"%string) (example_db, example_world)
     = (Raised (TypeError "can't subtract offset-naive and offset-aware datetimes"),
        (example_db, w'))).
Proof.
  split.
  - destruct (proj1 (search_returns_matching_flights airport_name city (fun s => s)
                example_parse_date example_catalog "Delhi" "Mumbai" "1970-01-11"
                (Some "price"%string) 10 aware_db example_world eq_refl eq_refl
                (or_intror (or_introl eq_refl))))
      as (rs & w' & E & Hperm & _ & _ & Hall); [repeat constructor|].
    exists rs, w'. split; [exact E|]. split; [exact Hperm|].
    apply (Hall 1 aware_flight
             (mkFlightRoute (Some "AI101"%string) 10 20 (timedelta_days 10 + 7200000000))
             (mkAirport "Indira Gandhi International" "Delhi" "DEL")
             (mkAirport "Chhatrapati Shivaji Maharaj International" "Mumbai" "BOM"));
      reflexivity.
  - apply (proj2 (search_returns_matching_flights airport_name city (fun s => s)
                example_parse_date example_catalog "Delhi" "Mumbai" "1970-01-11"
                (Some "price"%string) 10 example_db example_world eq_refl eq_refl
                (or_intror (or_introl eq_refl)))).
    intros H. apply Forall_inv in H. discriminate.
Defined.

(** ** Concurrent payments *)

Lemma confirm_payment_steps req s :
  confirm_payment req s
  = (do checked <- confirm_payment_check req; confirm_payment_settle req checked) s.
Proof.
  unfold confirm_payment, confirm_payment_check, bind.
  destruct (query (select_booking (booking_id req)) s) as [[[b|]|e] s1]; try reflexivity.
  destruct (negb (bool_decide (status b = PENDING))); [reflexivity|].
  destruct (match simulate_success req with
            | Some b0 => ret b0
            | None => ambient (random_choice true [false; true])
            end s1) as [[ok|e] s2]; reflexivity.
Qed.

Lemma confirm_payment_check_calm req db w b ok :
  fault_at w = None -> Bookings db !! booking_id req = Some b -> status b = PENDING ->
  simulate_success req = Some ok ->
  confirm_payment_check req (db, w) = (Return (b, ok), (db, w)).
Proof.
  intros Hw Hb Hp Hs. unfold confirm_payment_check. rewrite bind_query_ok by exact Hw.
  unfold select_booking. rewrite Hb, bool_decide_eq_true_2 by exact Hp. rewrite Hs.
  reflexivity.
Qed.

Lemma confirm_payment_settle_failed req b b0 db w :
  fault_at w = None -> Bookings db !! booking_id req = Some b0 ->
  confirm_payment_settle req (b, false) (db, w)
  = (Return (response_of (booking_id req) (set_payment_failed (server_clock w) b0)),
     (mkDB (released_flights (flight_id b) db)
        (alter (set_payment_failed (server_clock w)) (booking_id req) (Bookings db))
        (Passengers db) (FareHistory db), w)).
Proof.
  intros Hw Hb. unfold confirm_payment_settle, try_except.
  erewrite transaction_ok; [reflexivity| |exact Hw].
  rewrite bind_query_ok by exact Hw.
  rewrite bind_NOW, bind_execute_ok by exact Hw.
  rewrite bind_execute_ok by exact Hw.
  cbn [update_booking update_seats_by fst snd].
  erewrite read_back_calm; [reflexivity|exact Hw|].
  cbn [Bookings set_Bookings set_Flights]. rewrite lookup_alter_eq, Hb. reflexivity.
Qed.

Lemma confirm_payment_settle_paid req b b0 db w :
  fault_at w = None -> Bookings db !! booking_id req = Some b0 ->
  confirm_payment_settle req (b, true) (db, w)
  = (Return (response_of (booking_id req)
               (set_confirmed (generate_pnr 6 w).1 (server_clock w) b0)),
     (set_Bookings db
        (alter (set_confirmed (generate_pnr 6 w).1 (server_clock w)) (booking_id req) (Bookings db)),
      (generate_pnr 6 w).2)).
Proof.
  intros Hw Hb. unfold confirm_payment_settle, try_except.
  assert (Hw2 : fault_at (generate_pnr 6 w).2 = None).
  { rewrite fault_blind_fault_at by apply fault_blind_generate_pnr. exact Hw. }
  erewrite transaction_ok; [reflexivity| |exact Hw2].
  rewrite bind_query_ok by exact Hw.
  rewrite bind_ambient, bind_NOW, bind_execute_ok by exact Hw2.
  rewrite (proj2 (clock_generate_pnr 6 w)).
  cbn [update_booking fst snd].
  erewrite read_back_calm; [reflexivity|exact Hw2|].
  cbn [Bookings set_Bookings]. rewrite lookup_alter_eq, Hb. reflexivity.
Qed.

(** X25: the status check of [confirm_payment] is made before the
    transaction takes the lock on the flight row, and the transaction does
    not repeat it.  When two payments of the same PENDING booking both
    make their check before either runs its transaction, and the first to
    run fails while the second succeeds, the first answers CANCELLED and
    gives the seat back, and the second answers CONFIRMED: the booking
    ends CONFIRMED and PAID, with a code, while its seat is on sale again.
    From a ledger that agrees with the bookings, the flight ends with one
    seat more than its capacity less its live bookings. *)
Theorem concurrent_payments_release_confirmed_seat (req1 req2 : PaymentRequest) (db : DB)
    (w1 w2 : World) (b : Booking) (f : Flight) :
  fault_at w1 = None -> fault_at w2 = None ->
  booking_id req1 = booking_id req2 ->
  simulate_success req1 = Some false -> simulate_success req2 = Some true ->
  Bookings db !! booking_id req1 = Some b -> status b = PENDING ->
  Flights db !! flight_id b = Some f ->
  (forall req s,
     confirm_payment req s
     = (do checked <- confirm_payment_check req; confirm_payment_settle req checked) s) /\
  exists db1 db2 w2' resp1 resp2 b',
    confirm_payment_check req1 (db, w1) = (Return (b, false), (db, w1)) /\
    confirm_payment_check req2 (db, w2) = (Return (b, true), (db, w2)) /\
    confirm_payment_settle req1 (b, false) (db, w1) = (Return resp1, (db1, w1)) /\
    confirm_payment_settle req2 (b, true) (db1, w2) = (Return resp2, (db2, w2')) /\
    r_status resp1 = CANCELLED /\ r_status resp2 = CONFIRMED /\
    Bookings db2 !! booking_id req1 = Some b' /\
    status b' = CONFIRMED /\ payment_status b' = PAID /\ is_Some (pnr b') /\
    Flights db2 !! flight_id b = Some (set_seats (seats_available f + 1) f) /\
    (ledger_balanced db ->
     seats_available f + 1
     = total_seats f - held_seats (flight_id b) (Bookings db2) + 1).
Proof.
  intros Hw1 Hw2 Hid Hs1 Hs2 Hb Hp Hf. split; [intros req s; apply confirm_payment_steps|].
  set (bid := booking_id req1) in *.
  set (db1 := mkDB (released_flights (flight_id b) db)
                (alter (set_payment_failed (server_clock w1)) bid (Bookings db))
                (Passengers db) (FareHistory db)).
  set (b1 := set_payment_failed (server_clock w1) b).
  assert (Hb1 : Bookings db1 !! bid = Some b1).
  { unfold db1. cbn [Bookings]. rewrite lookup_alter_eq, Hb. reflexivity. }
  set (b2 := set_confirmed (generate_pnr 6 w2).1 (server_clock w2) b1).
  set (db2 := set_Bookings db1
                (alter (set_confirmed (generate_pnr 6 w2).1 (server_clock w2)) bid (Bookings db1))).
  exists db1, db2, (generate_pnr 6 w2).2, (response_of bid b1), (response_of bid b2), b2.
  split; [by apply confirm_payment_check_calm|].
  split; [apply confirm_payment_check_calm; [exact Hw2|rewrite <- Hid; exact Hb|exact Hp|exact Hs2]|].
  split; [exact (confirm_payment_settle_failed req1 b b db w1 Hw1 Hb)|].
  split.
  { pose proof (confirm_payment_settle_paid req2 b b1 db1 w2 Hw2) as H.
    rewrite <- Hid in H. exact (H Hb1). }
  split; [reflexivity|]. split; [reflexivity|].
  assert (Hb2 : Bookings db2 !! bid = Some b2).
  { unfold db2. cbn [Bookings set_Bookings]. rewrite lookup_alter_eq, Hb1. reflexivity. }
  split; [exact Hb2|]. split; [reflexivity|]. split; [reflexivity|].
  split; [cbn; eauto|]. split.
  - unfold db2, db1, released_flights. cbn [Flights set_Bookings].
    rewrite lookup_alter_eq, Hf. reflexivity.
  - intros Hbal. unfold db2. cbn [Bookings set_Bookings].
    rewrite (held_seats_alter _ _ _ _ _ Hb1). unfold db1. cbn [Bookings].
    rewrite (held_seats_alter _ _ _ _ _ Hb). rewrite (Hbal _ _ Hf).
    rewrite !seat_of_cases. cbn [set_confirmed set_payment_failed flight_id b1].
    destruct (decide (flight_id b = flight_id b)); [|contradiction].
    unfold b1, holds_seat. cbn [status set_confirmed set_payment_failed]. rewrite Hp. lia.
Qed.

Lemma concurrent_payments_release_confirmed_seat_witness :
  exists db1 db2 w2' resp1 resp2 b',
    confirm_payment_check (mkPaymentRequest 1 (Some false)) (example_held_db, example_world)
    = (Return (example_held_booking, false), (example_held_db, example_world)) /\
    confirm_payment_check (mkPaymentRequest 1 (Some true)) (example_held_db, late_world)
    = (Return (example_held_booking, true), (example_held_db, late_world)) /\
    confirm_payment_settle (mkPaymentRequest 1 (Some false)) (example_held_booking, false)
      (example_held_db, example_world) = (Return resp1, (db1, example_world)) /\
    confirm_payment_settle (mkPaymentRequest 1 (Some true)) (example_held_booking, true)
      (db1, late_world) = (Return resp2, (db2, w2')) /\
    r_status resp1 = CANCELLED /\ r_status resp2 = CONFIRMED /\
    Bookings db2 !! 1 = Some b' /\
    status b' = CONFIRMED /\ payment_status b' = PAID /\ is_Some (pnr b') /\
    Flights db2 !! flight_id example_held_booking
    = Some (set_seats (seats_available (set_seats 1 example_flight) + 1)
              (set_seats 1 example_flight)) /\
    (ledger_balanced example_held_db ->
     seats_available (set_seats 1 example_flight) + 1
     = total_seats (set_seats 1 example_flight)
       - held_seats (flight_id example_held_booking) (Bookings db2) + 1).
Proof.
  refine (proj2 (concurrent_payments_release_confirmed_seat
                   (mkPaymentRequest 1 (Some false)) (mkPaymentRequest 1 (Some true))
                   example_held_db example_world late_world example_held_booking
                   (set_seats 1 example_flight) eq_refl eq_refl eq_refl eq_refl eq_refl
                   example_held_lookup eq_refl _)).
  vm_compute. reflexivity.
Defined.

(** ** Lookup and cancellation *)

Lemma first_row_ext {V} (p q : Z * V -> bool) (t : gmap Z V) :
  (forall k v, t !! k = Some v -> p (k, v) = q (k, v)) -> first_row p t = first_row q t.
Proof.
  intros H. unfold first_row.
  assert (Hl : forall l, (forall r, r ∈ l -> p r = q r) -> List.find p l = List.find q l).
  { induction l as [|x l IH]; intros Hx; [reflexivity|]. cbn [List.find].
    rewrite <- (Hx x) by left. destruct (p x); [reflexivity|].
    apply IH. intros r Hr. apply Hx. by right. }
  apply Hl. intros [k v] Hr. apply H. by apply elem_of_rows.
Qed.

Lemma select_booking_by_pnr_after_cancel code db bid b :
  select_booking_by_pnr code db = Some (bid, b) ->
  select_booking_by_pnr code (cancelled_tables bid b db) = Some (bid, set_cancelled b).
Proof.
  intros E. apply select_booking_by_pnr_least in E as (Hb & Hp & Hmin).
  unfold select_booking_by_pnr, cancelled_tables. cbn [Bookings].
  apply first_row_found.
  - rewrite lookup_alter_eq, Hb. reflexivity.
  - apply bool_decide_eq_true_2. exact Hp.
  - intros k v Hk Hv. apply bool_decide_eq_true_1 in Hv. cbn [snd] in Hv.
    destruct (decide (bid = k)) as [->|Hne]; [lia|].
    rewrite lookup_alter_ne in Hk by exact Hne. exact (Hmin _ _ Hk Hv).
Qed.

(** X26: lookup and cancellation agree when the text of the request is
    not taken for an id.  If the database finds the text equal to no
    booking id, and [get_booking_by_pnr] returns a booking for it that is
    not cancelled, then [cancel_booking] with the same text cancels that
    very booking, and a later lookup by the code still finds it, now
    CANCELLED: a cancelled booking keeps its code. *)
Theorem cancel_hits_looked_up_booking (text_is_key : string -> Z -> bool) (code : string)
    (db : DB) (w w2 : World) (resp : BookingResponse) (s' : DB * World) :
  fault_at w2 = None ->
  (forall k v, Bookings db !! k = Some v -> text_is_key code k = false) ->
  get_booking_by_pnr code (db, w) = (Return resp, s') ->
  r_status resp <> CANCELLED ->
  exists resp' db',
    cancel_booking text_is_key (mkCancelRequest code) (db, w2)
    = (Return resp', (db', w2)) /\
    r_booking_id resp' = r_booking_id resp /\ r_status resp' = CANCELLED /\
    r_pnr resp' = Some code /\
    (forall w3, fault_at w3 = None ->
       get_booking_by_pnr code (db', w3) = (Return resp', (db', w3))).
Proof.
  intros Hw2 Hkey E Hs.
  apply get_booking_by_pnr_returned in E as (bid & b & Es & ->). cbn in Hs.
  assert (Eo : select_booking_by_pnr_or_id text_is_key code db = Some (bid, b)).
  { unfold select_booking_by_pnr_or_id. unfold select_booking_by_pnr in Es. rewrite <- Es.
    apply first_row_ext. intros k v Hk. cbn [fst snd]. rewrite (Hkey k v Hk).
    apply orb_false_r. }
  pose proof (cancel_booking_calm text_is_key (mkCancelRequest code) db w2 Hw2) as H.
  cbn [req_pnr] in H. rewrite Eo in H.
  destruct (decide (status b = CANCELLED)); [contradiction|].
  exists (response_of bid (set_cancelled b)), (cancelled_tables bid b db).
  split; [exact H|]. split; [reflexivity|]. split; [reflexivity|].
  pose proof Es as Hl. apply select_booking_by_pnr_least in Hl as (_ & Hp & _).
  split; [exact Hp|]. intros w3 Hw3.
  rewrite (get_booking_by_pnr_calm _ _ _ Hw3).
  rewrite (select_booking_by_pnr_after_cancel _ _ _ _ Es). reflexivity.
Qed.

Lemma cancel_hits_looked_up_booking_witness :
  exists resp' db',
    cancel_booking decimal_key (mkCancelRequest "4BIPW3") (example_paid_db, late_world)
    = (Return resp', (db', late_world)) /\
    r_booking_id resp'
    = r_booking_id
        (response_of 2
           (mkBooking 1 1 "2B" CONFIRMED (Some "4BIPW3"%string) (Some 2550%float) PAID 0)) /\
    r_status resp' = CANCELLED /\ r_pnr resp' = Some "4BIPW3"%string /\
    (forall w3, fault_at w3 = None ->
       get_booking_by_pnr "4BIPW3" (db', w3) = (Return resp', (db', w3))).
Proof.
  apply (cancel_hits_looked_up_booking decimal_key "4BIPW3" example_paid_db example_world
           late_world _ (example_paid_db, example_world) eq_refl).
  - intros k v Hk.
    assert (Hk' : k = 1 \/ k = 2).
    { replace (Bookings example_paid_db) with
        ({[ 1 := mkBooking 1 1 "1A" CANCELLED None (Some 2550%float) FAILED 0;
            2 := mkBooking 1 1 "2B" CONFIRMED (Some "4BIPW3"%string) (Some 2550%float)
                   PAID 0 ]} : gmap Z Booking) in Hk by (vm_compute; reflexivity).
      apply lookup_insert_Some in Hk as [[<- _]|[_ Hk]]; [by left|].
      apply lookup_singleton_Some in Hk as [<- _]. by right. }
    destruct Hk' as [-> | ->]; reflexivity.
  - vm_compute. reflexivity.
  - discriminate.
Defined.

(** * Calls in flight *)

(** ** The two steps of a call that runs alone *)

Lemma simulate_tick_steps db w :
  (simulate_tick (db, w)).2.1
  = match query select_all_flights (db, w) with
    | (Return flights, s1) =>
        (try_except (transaction (for_each flights simulate_flight)) (fun _ => ret tt) s1).2.1
    | (Raised _, s1) => s1.1
    end.
Proof.
  unfold simulate_tick, try_except, transaction, bind, query, execute.
  destruct (fault_at w) as [[|k]|]; cbn [fst snd]; try reflexivity;
    match goal with
    | |- context [for_each ?l ?b ?s] => destruct (for_each l b s) as [[[]|e] [db1 w1]]
    end;
    cbn [fst snd]; try reflexivity; destruct (fault_at w1) as [[|n]|]; reflexivity.
Qed.

(** The two steps of a job, taken with nothing in between, leave the
    tables as the handler does. *)
Lemma job_alone tk c w db :
  (job_step tk (job_step tk (mkJob c w Arrived) db).1 (job_step tk (mkJob c w Arrived) db).2).2
  = after tk c w db.
Proof.
  destruct c as [req|req|req|]; cbn [after]; unfold job_step at 2 3;
    cbn [job_call job_stage job_world].
  - unfold job_run, start_booking, bind at 1. cbn [job_world job_call].
    destruct (start_booking_validate req (db, w)) as [[[]|e] [db1 w1]]; cbn [fst snd];
      [|reflexivity].
    unfold job_step, job_run. cbn [job_call job_stage job_world].
    destruct (bind (start_booking_reserve req) _ (db1, w1)) as [[r|e] [db2 w2]]; reflexivity.
  - rewrite confirm_payment_steps. unfold job_run, bind at 1. cbn [job_world job_call].
    destruct (confirm_payment_check req (db, w)) as [[checked|e] [db1 w1]]; cbn [fst snd];
      [|reflexivity].
    unfold job_step, job_run. cbn [job_call job_stage job_world].
    destruct (confirm_payment_settle req checked (db1, w1)) as [[r|e] [db2 w2]]; reflexivity.
  - rewrite cancel_booking_steps. unfold job_run, bind at 1. cbn [job_world job_call].
    destruct (cancel_booking_find tk req (db, w)) as [[found|e] [db1 w1]]; cbn [fst snd];
      [|reflexivity].
    unfold job_step, job_run. cbn [job_call job_stage job_world].
    destruct (cancel_booking_release found (db1, w1)) as [[r|e] [db2 w2]]; reflexivity.
  - rewrite simulate_tick_steps.
    destruct (query select_all_flights (db, w)) as [[flights|e] [db1 w1]]; cbn [fst snd];
      [|reflexivity].
    unfold job_step. cbn [job_call job_stage job_world].
    destruct (try_except _ _ (db1, w1)) as [r [db2 w2]]. reflexivity.
Qed.

(** ** What every interleaving keeps *)

Section PoolKeeps.

Context (R : relation DB) `{!Reflexive R, !Transitive R}.

(** What the statements of the handlers keep: statements that leave
    [Bookings] alone, the insert of a PENDING booking without a code, and
    the three updates of a booking. *)
Hypothesis same_bookings : forall db db', Bookings db' = Bookings db -> R db db'.
Hypothesis held_insert : forall b db,
  status b = PENDING -> pnr b = None -> R db (insert_booking b db).2.
Hypothesis confirmed_update : forall code now bid db,
  R db (update_booking (set_confirmed code now) bid db).2.
Hypothesis failed_update : forall now bid db,
  R db (update_booking (set_payment_failed now) bid db).2.
Hypothesis cancelled_update : forall bid db, R db (update_booking set_cancelled bid db).2.

Lemma keeps_NOW : keeps R NOW.
Proof. intros db w. reflexivity. Qed.

Lemma keeps_call_calculate_dynamic_price bf sa ts dep d :
  keeps R (call_calculate_dynamic_price bf sa ts dep d).
Proof.
  unfold call_calculate_dynamic_price. destruct dep; [apply keeps_ambient|apply keeps_raise];
    assumption.
Qed.

Lemma keeps_read_back bid : keeps R (read_back bid).
Proof.
  unfold read_back. apply keeps_bind; [assumption..|apply keeps_query; assumption|].
  intros [b|]; [apply keeps_ret|apply keeps_raise]; assumption.
Qed.

Ltac keeps_leaf :=
  first
    [ apply keeps_ret; assumption
    | apply keeps_raise; assumption
    | apply keeps_query; assumption
    | apply keeps_NOW
    | apply keeps_datetime_now; assumption
    | apply keeps_ambient; assumption
    | apply keeps_call_calculate_dynamic_price
    | apply keeps_read_back ].

(** [c >>= k]: the leaf [c] is kept, [k] goes on under the name [x]. *)
Ltac keeps_then x := apply keeps_bind; [assumption..|keeps_leaf|intros x].

Ltac keeps_same :=
  apply keeps_execute; [assumption|]; intros ?; apply same_bookings; reflexivity.

Lemma keeps_start_booking_validate req : keeps R (start_booking_validate req).
Proof.
  unfold start_booking_validate. keeps_then row. destruct row; keeps_leaf.
Qed.

Lemma keeps_start_booking_reserve req : keeps R (start_booking_reserve req).
Proof.
  unfold start_booking_reserve.
  apply keeps_try_except; [assumption..| |intros e; destruct e; keeps_leaf].
  apply keeps_transaction; [assumption..|].
  keeps_then locked. destruct locked as [locked|]; [|keeps_leaf].
  cbv zeta. destruct (seats_available locked <=? 0); [keeps_leaf|].
  keeps_then passenger.
  apply keeps_bind; [assumption..| |intros pid].
  { destruct passenger as [pid|]; [keeps_leaf|keeps_same]. }
  keeps_then departure_q. keeps_then now. keeps_then dynamic_price. keeps_then date.
  apply keeps_bind; [assumption..| |intros bid].
  { apply keeps_execute; [assumption|]. intros db. apply held_insert; reflexivity. }
  apply keeps_bind; [assumption..|keeps_same|intros _]. keeps_leaf.
Qed.

Lemma keeps_start_booking_rest req :
  keeps R (do held <- start_booking_reserve req; start_booking_respond req held).
Proof.
  apply keeps_bind; [assumption..|apply keeps_start_booking_reserve|].
  intros [[[bid pid] seat] p]. unfold start_booking_respond.
  keeps_then now. keeps_leaf.
Qed.

Lemma keeps_confirm_payment_check req : keeps R (confirm_payment_check req).
Proof.
  unfold confirm_payment_check. keeps_then booking.
  destruct booking as [b|]; [|keeps_leaf]. destruct (negb _); [keeps_leaf|].
  apply keeps_bind; [assumption..| |intros ok; keeps_leaf].
  destruct (simulate_success req); keeps_leaf.
Qed.

Lemma keeps_confirm_payment_settle req checked : keeps R (confirm_payment_settle req checked).
Proof.
  destruct checked as [b ok]. unfold confirm_payment_settle.
  apply keeps_try_except; [assumption..| |intros e; keeps_leaf].
  apply keeps_transaction; [assumption..|].
  keeps_then locked. destruct ok.
  - keeps_then issued. keeps_then now.
    apply keeps_bind; [assumption..| |intros _; keeps_leaf].
    apply keeps_execute; [assumption|]. intros db. apply confirmed_update.
  - keeps_then now.
    apply keeps_bind; [assumption..| |intros _].
    { apply keeps_execute; [assumption|]. intros db. apply failed_update. }
    apply keeps_bind; [assumption..|keeps_same|intros _]. keeps_leaf.
Qed.

Lemma keeps_cancel_booking_find tk req : keeps R (cancel_booking_find tk req).
Proof.
  unfold cancel_booking_find. keeps_then booking.
  destruct booking as [[bid b]|]; [|keeps_leaf]. destruct (bool_decide _); keeps_leaf.
Qed.

Lemma keeps_cancel_booking_release found : keeps R (cancel_booking_release found).
Proof.
  destruct found as [bid b]. unfold cancel_booking_release.
  apply keeps_try_except; [assumption..| |intros e; keeps_leaf].
  apply keeps_transaction; [assumption..|].
  keeps_then locked.
  apply keeps_bind; [assumption..| |intros _].
  { apply keeps_execute; [assumption|]. intros db. apply cancelled_update. }
  apply keeps_bind; [assumption..|keeps_same|intros _]. keeps_leaf.
Qed.

Lemma keeps_tick_write flights :
  keeps R (try_except (transaction (for_each flights simulate_flight)) (fun _ => ret tt)).
Proof.
  apply keeps_try_except; [assumption..| |intros e; keeps_leaf].
  apply keeps_transaction; [assumption..|].
  apply keeps_for_each; [assumption..|]. intros f.
  apply keeps_simulate_flight; [assumption..| |].
  - intros s fid db. apply same_bookings. reflexivity.
  - intros r db _. apply same_bookings. reflexivity.
Qed.

Lemma job_run_keeps {A} (j : Job) db (c : M A) next :
  keeps R c -> R db (job_run j db c next).2.
Proof.
  intros Hc. specialize (Hc db (job_world j)). unfold job_run.
  destruct (c (db, job_world j)) as [[a|e] [db1 w1]]; exact Hc.
Qed.

Lemma job_step_keeps tk j db : R db (job_step tk j db).2.
Proof.
  unfold job_step. destruct (job_call j) as [req|req|req|], (job_stage j);
    try reflexivity; try (apply job_run_keeps).
  - apply keeps_start_booking_validate.
  - apply keeps_start_booking_rest.
  - apply keeps_confirm_payment_check.
  - apply keeps_confirm_payment_settle.
  - apply keeps_cancel_booking_find.
  - apply keeps_cancel_booking_release.
  - pose proof (keeps_query R select_all_flights db (job_world j)) as H.
    destruct (query select_all_flights (db, job_world j)) as [[fl|e] [db1 w1]]; exact H.
  - pose proof (keeps_tick_write flights db (job_world j)) as H.
    destruct (try_except _ _ (db, job_world j)) as [r [db1 w1]]. exact H.
Qed.

Lemma pool_step_keeps tk s i : R s.1 (pool_step tk s i).1.
Proof.
  unfold pool_step. destruct (s.2 !! i) as [j|]; [|reflexivity].
  pose proof (job_step_keeps tk j s.1) as H.
  destruct (job_step tk j s.1) as [j' db']. exact H.
Qed.

Lemma run_pool_keeps tk schedule s : R s.1 (run_pool tk schedule s).1.
Proof.
  revert s. induction schedule as [|i schedule IH]; intros s; [reflexivity|].
  change (run_pool tk (i :: schedule) s) with (run_pool tk schedule (pool_step tk s i)).
  etransitivity; [apply pool_step_keeps|apply IH].
Qed.

End PoolKeeps.

(** ** Confirmation codes in any interleaving *)

Lemma codes_follow_status_alter (g : Booking -> Booking) bid db :
  (forall b, code_follows_status b -> code_follows_status (g b)) ->
  codes_follow_status db -> codes_follow_status (update_booking g bid db).2.
Proof.
  intros Hg Hc k b Hk. cbn [update_booking snd set_Bookings Bookings] in Hk.
  rewrite lookup_alter in Hk. case_decide.
  - destruct (Bookings db !! bid) as [b0|] eqn:E; [|discriminate].
    inversion Hk; subst. apply Hg. exact (Hc _ _ E).
  - exact (Hc _ _ Hk).
Qed.

Lemma codes_kept_refl : Reflexive codes_kept.
Proof. intros db H. exact H. Qed.

Lemma codes_kept_trans : Transitive codes_kept.
Proof. intros d1 d2 d3 H1 H2 H. apply H2, H1, H. Qed.

#[local] Existing Instance codes_kept_refl.
#[local] Existing Instance codes_kept_trans.

Lemma run_pool_codes tk schedule s :
  codes_follow_status s.1 -> codes_follow_status (run_pool tk schedule s).1.
Proof.
  apply (run_pool_keeps codes_kept).
  - intros db db' Hb Hc k b Hk. rewrite Hb in Hk. exact (Hc _ _ Hk).
  - intros b db Hs Hp Hc k b' Hk. cbn [insert_booking snd set_Bookings Bookings] in Hk.
    apply lookup_insert_Some in Hk as [[_ <-]|[_ Hk]]; [|exact (Hc _ _ Hk)].
    split; [congruence|auto].
  - intros code now bid db Hc. apply codes_follow_status_alter; [|exact Hc].
    intros b _. split; cbn; [eauto|discriminate].
  - intros now bid db Hc. apply codes_follow_status_alter; [|exact Hc].
    intros b _. split; cbn; discriminate.
  - intros bid db Hc. apply codes_follow_status_alter; [|exact Hc].
    intros b _. split; cbn; discriminate.
Qed.

(** C7 (as amended): in every state reached by any interleaving of the
    steps of hold, pay, cancel and simulator calls, overlapping or not,
    from tables where it holds, a CONFIRMED booking has a confirmation
    code and a PENDING booking has none.  Nothing more links the code to
    the status: a CANCELLED booking may carry a code. *)
Theorem codes_follow_confirmation (text_is_key : string -> Z -> bool)
    (jobs : list Job) (schedule : list nat) (db : DB) :
  codes_follow_status db ->
  forall bid b, Bookings (run_pool text_is_key schedule (db, jobs)).1 !! bid = Some b ->
    (status b = CONFIRMED -> is_Some (pnr b)) /\
    (status b = PENDING -> pnr b = None).
Proof.
  intros Hc bid b Hb.
  exact (run_pool_codes text_is_key schedule (db, jobs) Hc bid b Hb).
Qed.

Lemma example_held_db_codes : codes_follow_status example_held_db.
Proof.
  intros bid b H. unfold example_held_db in H. cbn [Bookings] in H.
  apply lookup_singleton_Some in H as [_ <-]. split; [discriminate|reflexivity].
Qed.

(** A successful payment of the held booking and a cancellation of it by
    its key overlap: the booking ends CONFIRMED, with its code. *)
Lemma codes_follow_confirmation_witness :
  exists b,
    Bookings (run_pool decimal_key overlap
                (example_held_db,
                 arrived [ (Cancel (mkCancelRequest "1"), example_world);
                           (Pay (mkPaymentRequest 1 (Some true)), example_world) ])).1 !! 1
    = Some b /\
    status b = CONFIRMED /\ pnr b = Some "4BIPW3"%string /\
    (status b = CONFIRMED -> is_Some (pnr b)) /\ (status b = PENDING -> pnr b = None).
Proof.
  eexists. split; [vm_compute; reflexivity|]. split; [reflexivity|]. split; [reflexivity|].
  apply (codes_follow_confirmation decimal_key
           (arrived [ (Cancel (mkCancelRequest "1"), example_world);
                      (Pay (mkPaymentRequest 1 (Some true)), example_world) ])
           overlap example_held_db example_held_db_codes 1).
  vm_compute. reflexivity.
Defined.

(** X5: in every state reached by any interleaving of the steps of hold,
    pay, cancel and simulator calls from tables where PENDING bookings have
    no code, whatever [get_booking_by_pnr] returns is a booking that
    carries the code asked for and is not PENDING: it is CONFIRMED or
    CANCELLED, and its payment status may be PAID or FAILED. *)
Theorem lookup_returns_settled_booking (text_is_key : string -> Z -> bool)
    (jobs : list Job) (schedule : list nat) (db : DB) (code : string) (w : World)
    (resp : BookingResponse) (s' : DB * World) :
  codes_follow_status db ->
  get_booking_by_pnr code ((run_pool text_is_key schedule (db, jobs)).1, w)
  = (Return resp, s') ->
  r_pnr resp = Some code /\ r_status resp <> PENDING /\
  exists bid b,
    Bookings (run_pool text_is_key schedule (db, jobs)).1 !! bid = Some b /\
    resp = response_of bid b.
Proof.
  intros Hc E. apply (run_pool_codes text_is_key schedule (db, jobs)) in Hc.
  apply get_booking_by_pnr_returned in E as (bid & b & Es & ->).
  apply select_booking_by_pnr_least in Es as (Hb & Hp & _).
  destruct (Hc _ _ Hb) as (_ & Hpend). cbn.
  split; [exact Hp|]. split; [|eauto].
  intros Hs. rewrite (Hpend Hs) in Hp. discriminate.
Qed.

(** A successful payment of the held booking and a failed one overlap, the
    failure settling last: the lookup by the code returns a CANCELLED
    booking whose payment FAILED. *)
Lemma lookup_returns_settled_booking_witness :
  exists resp,
    get_booking_by_pnr "4BIPW3"
      ((run_pool decimal_key overlap
          (example_held_db, overlapping_payments true false)).1, example_world)
    = (Return resp,
       ((run_pool decimal_key overlap
           (example_held_db, overlapping_payments true false)).1, example_world)) /\
    r_status resp = CANCELLED /\ r_payment_status resp = FAILED /\
    r_pnr resp = Some "4BIPW3"%string /\ r_status resp <> PENDING.
Proof.
  eexists. split; [vm_compute; reflexivity|]. split; [reflexivity|]. split; [reflexivity|].
  destruct (lookup_returns_settled_booking decimal_key (overlapping_payments true false)
              overlap example_held_db "4BIPW3" example_world
              (mkBookingResponse 1 1 1 "1A" CANCELLED (Some "4BIPW3"%string) (Some 2550%float)
                 FAILED 0)
              ((run_pool decimal_key overlap
                  (example_held_db, overlapping_payments true false)).1, example_world)
              example_held_db_codes) as (H1 & H2 & _);
    [vm_compute; reflexivity|].
  split; [exact H1|exact H2].
Defined.

(** ** The life of a booking in any interleaving *)

Lemma settles_in_refl : Reflexive settles_in.
Proof. intros db bid b Hb. exists b. split; [exact Hb|]. split; auto. Qed.

Lemma settles_in_trans : Transitive settles_in.
Proof.
  intros d1 d2 d3 H1 H2 bid b Hb.
  destruct (H1 _ _ Hb) as (b1 & Hb1 & Hs1 & Hp1).
  destruct (H2 _ _ Hb1) as (b2 & Hb2 & Hs2 & Hp2).
  exists b2. split; [exact Hb2|]. split; auto.
Qed.

#[local] Existing Instance settles_in_refl.
#[local] Existing Instance settles_in_trans.

Lemma settles_in_alter (g : Booking -> Booking) bid db :
  (forall b, booking_settles b (g b)) -> settles_in db (update_booking g bid db).2.
Proof.
  intros Hg k b Hk. cbn [update_booking snd set_Bookings Bookings].
  destruct (decide (bid = k)) as [->|Hne].
  - rewrite lookup_alter_eq, Hk. eexists. split; [reflexivity|apply Hg].
  - rewrite lookup_alter_ne by exact Hne. exists b. split; [exact Hk|]. split; auto.
Qed.

Lemma run_pool_settles tk schedule s : settles_in s.1 (run_pool tk schedule s).1.
Proof.
  apply (run_pool_keeps settles_in).
  - intros db db' Hb k b Hk. exists b. rewrite Hb. split; [exact Hk|]. split; auto.
  - intros b db _ _ k b' Hk. exists b'. cbn [insert_booking snd set_Bookings Bookings].
    rewrite lookup_insert_ne; [split; [exact Hk|split; auto]|].
    intros Heq. rewrite <- Heq, next_key_fresh in Hk. discriminate.
  - intros code now bid db. apply settles_in_alter. intros b. split; cbn; [discriminate|eauto].
  - intros now bid db. apply settles_in_alter. intros b. split; cbn; [discriminate|auto].
  - intros bid db. apply settles_in_alter. intros b. split; cbn; [discriminate|auto].
Qed.

(** X11: what is left of "the status only moves forward" when calls
    overlap.  No interleaving of the steps of hold, pay, cancel and
    simulator calls removes a booking, returns it to PENDING once it has
    left it, or takes its confirmation code away.  (It can take a
    CANCELLED booking to CONFIRMED: a payment whose check was made before
    the cancellation confirms the cancelled booking.) *)
Theorem status_moves_forward (text_is_key : string -> Z -> bool)
    (jobs : list Job) (schedule : list nat) (db : DB) (bid : Z) (b : Booking) :
  Bookings db !! bid = Some b ->
  exists b', Bookings (run_pool text_is_key schedule (db, jobs)).1 !! bid = Some b' /\
    (status b <> PENDING -> status b' <> PENDING) /\
    (is_Some (pnr b) -> is_Some (pnr b')).
Proof.
  intros Hb. exact (run_pool_settles text_is_key schedule (db, jobs) bid b Hb).
Qed.

(** A cancellation by code and one by key of the CONFIRMED booking of the
    example overlap: it ends CANCELLED and keeps its code. *)
Lemma status_moves_forward_witness :
  exists b',
    Bookings (run_pool decimal_key overlap
                (example_paid_db,
                 arrived [ (Cancel (mkCancelRequest "4BIPW3"), example_world);
                           (Cancel (mkCancelRequest "2"), example_world) ])).1 !! 2
    = Some b' /\
    status b' <> PENDING /\ is_Some (pnr b').
Proof.
  destruct (status_moves_forward decimal_key
              (arrived [ (Cancel (mkCancelRequest "4BIPW3"), example_world);
                         (Cancel (mkCancelRequest "2"), example_world) ])
              overlap example_paid_db 2 _ example_paid_lookup) as (b' & Hb' & Hs & Hp).
  exists b'. split; [exact Hb'|]. split; [apply Hs; discriminate|apply Hp; eauto].
Defined.

(** ** Overlapping calls on the example data *)

(** Two cancellations of the one held booking overlap, on a flight whose
    ledger agrees with its bookings: both release a seat, and the flight
    ends with three seats available out of two. *)
Lemma overlapping_cancels_exceed_capacity :
  ledger_balanced example_held_db /\
  (forall fid f, Flights example_held_db !! fid = Some f ->
     0 <= seats_available f <= total_seats f) /\
  exists f,
    Flights (run_pool decimal_key overlap (example_held_db, overlapping_cancels)).1 !! 1
    = Some f /\
    seats_available f = 3 /\ total_seats f = 2.
Proof.
  split; [|split].
  - intros fid f H. unfold example_held_db in H. cbn [Flights] in H.
    apply lookup_singleton_Some in H as [<- <-]. reflexivity.
  - intros fid f H. unfold example_held_db in H. cbn [Flights] in H.
    apply lookup_singleton_Some in H as [<- <-]. cbn. lia.
  - eexists. split; [vm_compute; reflexivity|]. split; reflexivity.
Qed.

(** A failed and a successful payment of the one held booking overlap:
    the failure gives the seat back, the success confirms the booking, and
    the calls have settled with two seats available out of two and a
    CONFIRMED booking on the flight. *)
Lemma overlapping_payments_unbalance_ledger :
  ledger_balanced example_held_db /\
  map answered_status
    (run_pool decimal_key overlap (example_held_db, overlapping_payments false true)).2
  = [Some CANCELLED; Some CONFIRMED] /\
  exists f,
    Flights (run_pool decimal_key overlap
               (example_held_db, overlapping_payments false true)).1 !! 1 = Some f /\
    seats_available f = 2 /\ total_seats f = 2 /\
    held_seats 1 (Bookings (run_pool decimal_key overlap
                              (example_held_db, overlapping_payments false true)).1) = 1.
Proof.
  split; [|split].
  - intros fid f H. unfold example_held_db in H. cbn [Flights] in H.
    apply lookup_singleton_Some in H as [<- <-]. reflexivity.
  - vm_compute. reflexivity.
  - eexists. split; [vm_compute; reflexivity|]. repeat split.
Qed.

(** Two holds race for the one seat left of the example flight, whose
    departure is read as a naive datetime: both take the lock in turn,
    both answer 500, no booking is made and the seat is still there. *)
Lemma concurrent_holds_all_fail :
  map answered_error
    (run_pool decimal_key [0; 1; 1; 0]%nat (last_seat_db, last_seat_holds)).2
  = [Some 500; Some 500] /\
  Bookings (run_pool decimal_key [0; 1; 1; 0]%nat (last_seat_db, last_seat_holds)).1 = ∅ /\
  seats_available <$>
    Flights (run_pool decimal_key [0; 1; 1; 0]%nat (last_seat_db, last_seat_holds)).1 !! 1
  = Some 1.
Proof. vm_compute. repeat split. Qed.

(** A hold on the example flight, which has both its seats available and
    whose departure is read as a naive datetime: the pricing raises under
    the lock, the call answers 500 and nothing is kept. *)
Lemma hold_on_free_seat_fails :
  start_booking example_request (example_db, example_world)
  = (Raised (HTTPException 500
               "Could not start booking: can't subtract offset-naive and offset-aware datetimes"),
     (example_db, example_world)).
Proof. vm_compute. reflexivity. Qed.

(** Two successful payments of the one held booking overlap: both are
    answered with a CONFIRMED booking. *)
Lemma overlapping_payments_both_succeed :
  map answered_status
    (run_pool decimal_key overlap
       (example_held_db,
        arrived [ (Pay (mkPaymentRequest 1 (Some true)), example_world);
                  (Pay (mkPaymentRequest 1 (Some true)), late_world) ])).2
  = [Some CONFIRMED; Some CONFIRMED].
Proof. vm_compute. reflexivity. Qed.

(** Two cancellations of the one held booking overlap: neither is
    refused, both are answered with a CANCELLED booking. *)
Lemma overlapping_cancels_both_succeed :
  map answered_status
    (run_pool decimal_key overlap (example_held_db, overlapping_cancels)).2
  = [Some CANCELLED; Some CANCELLED].
Proof. vm_compute. reflexivity. Qed.
